(** * HTTP connection core: string utilities and connection lifecycle

    A shallow embedding of [source/strutil.c] and of the lifecycle code of
    [source/connection.c], with the properties the specification states
    about them.

    - Unsigned 64-bit values are integers in [Z], with the wrap-around of
      the C arithmetic written out.
    - A byte cursor is a length and an offset into a byte memory.
    - The callbacks of the connection code run in a state-and-abort monad
      over an explicit world: the heaps of connections, servers and client
      bootstrap records, the thread's last error, and the trace of the calls
      that leave the core (channel runtime, bootstrap, user callbacks) and
      of the accesses to a server's synchronised data.
    - A fatal assertion, and a dereference of a pointer that holds no
      object, abort.  [AWS_ASSERT] is compiled out of release builds and
      log statements have no effect on the state; neither is modelled.  An
      atomic fetch-and-add is a single step. *)

From Stdlib Require Import ZArith Lia Bool.
From Stdlib Require Import Strings.Byte Strings.String.
From stdpp Require Import base option list gmap.

Local Open Scope Z_scope.

(** ** Error codes *)

(** [AWS_ERROR_SUCCESS] and the two return codes are fixed by the way the
    code tests them ([if (error_code)], [if (err)]). *)
Definition AWS_ERROR_SUCCESS : Z := 0.
Definition AWS_OP_SUCCESS : Z := 0.
Definition AWS_OP_ERR : Z := -1.

(** The remaining common error codes come from [aws/common/error.h], which
    belongs to another library; only their being distinct members of one
    enumeration whose zero is [AWS_ERROR_SUCCESS] is used. *)
Class aws_common_error := {
  AWS_ERROR_UNKNOWN : Z;
  AWS_ERROR_OVERFLOW_DETECTED : Z;
  AWS_ERROR_INVALID_ARGUMENT : Z;
  AWS_ERROR_INVALID_STATE : Z;
  aws_common_error_enum :
    NoDup [AWS_ERROR_SUCCESS; AWS_ERROR_UNKNOWN; AWS_ERROR_OVERFLOW_DETECTED;
           AWS_ERROR_INVALID_ARGUMENT; AWS_ERROR_INVALID_STATE]
}.

(** [enum aws_http_errors] of [include/aws/http/http.h]: the members the
    connection code raises. *)
Definition AWS_ERROR_HTTP_UNKNOWN : Z := 0x0800.
Definition AWS_ERROR_HTTP_CONNECTION_CLOSED : Z := AWS_ERROR_HTTP_UNKNOWN + 10.
Definition AWS_ERROR_HTTP_UNSUPPORTED_PROTOCOL : Z := AWS_ERROR_HTTP_UNKNOWN + 12.
Definition AWS_ERROR_HTTP_REACTION_REQUIRED : Z := AWS_ERROR_HTTP_UNKNOWN + 13.

(** [enum aws_http_version]. *)
Inductive aws_http_version :=
  | AWS_HTTP_VERSION_UNKNOWN
  | AWS_HTTP_VERSION_1_0
  | AWS_HTTP_VERSION_1_1
  | AWS_HTTP_VERSION_2.

(** ** Byte cursors *)

(** A cursor is a length and a pointer; the pointer is an offset into the
    byte memory it views. *)
Record aws_byte_cursor := { len : nat; ptr : nat }.

Definition mem_read (mem : list byte) (addr : nat) : byte := nth addr mem x00.

(** [cursor.ptr[i]] *)
Definition cursor_at (mem : list byte) (cursor : aws_byte_cursor) (i : nat) : byte :=
  mem_read mem (ptr cursor + i)%nat.

(** The bytes a cursor views, first to last. *)
Definition cursor_bytes (mem : list byte) (cursor : aws_byte_cursor) : list byte :=
  map (cursor_at mem cursor) (seq 0 (len cursor)).

(** The cursor over a whole byte string. *)
Definition cursor_of (s : list byte) : aws_byte_cursor := {| len := length s; ptr := 0 |}.

Definition bytes_of (s : string) : list byte := list_byte_of_string s.

(** ** [source/strutil.c] *)

Definition UINT64_MAX : Z := 2 ^ 64 - 1.

(** Arithmetic on [uint64_t] wraps modulo [2 ^ 64]. *)
Definition wrap64 (z : Z) : Z := z mod 2 ^ 64.

(** Lookup from '0' -> 0, 'f' -> 0xf, 'F' -> 0xF, etc;
    invalid characters have value 255. *)
Definition s_ascii_to_num_table : list Z := [
    255; 255; 255; 255; 255; 255; 255; 255; 255; 255; 255; 255; 255; 255; 255; 255; 255; 255; 255;
    255; 255; 255; 255; 255; 255; 255; 255; 255; 255; 255; 255; 255; 255; 255; 255; 255; 255; 255;
    255; 255; 255; 255; 255; 255; 255; 255; 255; 255;
    (* 0 - 9 *)
    0; 1; 2; 3; 4; 5; 6; 7; 8; 9;
    255; 255; 255; 255; 255; 255; 255;
    (* A - F *)
    10; 11; 12; 13; 14; 15;
    255; 255; 255; 255; 255; 255; 255; 255; 255; 255; 255; 255; 255; 255; 255; 255; 255; 255; 255;
    255; 255; 255; 255; 255; 255; 255;
    (* a - f *)
    10; 11; 12; 13; 14; 15;
    255; 255; 255; 255; 255; 255; 255; 255; 255; 255; 255; 255; 255; 255; 255; 255; 255; 255; 255;
    255; 255; 255; 255; 255; 255; 255; 255; 255; 255; 255; 255; 255; 255; 255; 255; 255; 255; 255;
    255; 255; 255; 255; 255; 255; 255; 255; 255; 255; 255; 255; 255; 255; 255; 255; 255; 255; 255;
    255; 255; 255; 255; 255; 255; 255; 255; 255; 255; 255; 255; 255; 255; 255; 255; 255; 255; 255;
    255; 255; 255; 255; 255; 255; 255; 255; 255; 255; 255; 255; 255; 255; 255; 255; 255; 255; 255;
    255; 255; 255; 255; 255; 255; 255; 255; 255; 255; 255; 255; 255; 255; 255; 255; 255; 255; 255;
    255; 255; 255; 255; 255; 255; 255; 255; 255; 255; 255; 255; 255; 255; 255; 255; 255; 255; 255;
    255; 255; 255; 255; 255; 255; 255; 255; 255; 255; 255; 255; 255; 255; 255; 255; 255; 255; 255;
    255
  ].

Definition table_lookup {A} (table : list A) (d : A) (c : byte) : A :=
  nth (Byte.to_nat c) table d.

(** What a call leaves behind: [AWS_OP_SUCCESS], or [AWS_OP_ERR] with the
    error that [aws_raise_error] recorded. *)
Inductive op_status :=
  | OpSuccess
  | OpErr (raised : Z).

Definition return_code (st : op_status) : Z :=
  match st with OpSuccess => AWS_OP_SUCCESS | OpErr _ => AWS_OP_ERR end.

Section Strutil.
Context {common : aws_common_error}.

(** The [for] loop of [s_read_unsigned]: [n] iterations remain, [i] is the
    index, [val] the accumulator.  The result is the status and [*dst],
    which the function zeroes on entry and only writes on success. *)
Fixpoint s_read_unsigned_loop (mem : list byte) (cursor : aws_byte_cursor) (base : Z)
    (n i : nat) (val : Z) : op_status * Z :=
  match n with
  | O => (OpSuccess, val)
  | S n' =>
      let c := cursor_at mem cursor i in
      let cval := table_lookup s_ascii_to_num_table 255 c in
      if cval >=? base then (OpErr AWS_ERROR_INVALID_ARGUMENT, 0)
      else
        let prev_val := val in
        let val := wrap64 (val * base) in
        if val <? prev_val then (OpErr AWS_ERROR_OVERFLOW_DETECTED, 0)
        else
          let val := wrap64 (val + cval) in
          if val <? prev_val then (OpErr AWS_ERROR_OVERFLOW_DETECTED, 0)
          else s_read_unsigned_loop mem cursor base n' (S i) val
  end.

Definition s_read_unsigned (mem : list byte) (cursor : aws_byte_cursor) (base : Z)
    : op_status * Z :=
  if (len cursor =? 0)%nat then (OpErr AWS_ERROR_INVALID_ARGUMENT, 0)
  else s_read_unsigned_loop mem cursor base (len cursor) 0 0.

Definition aws_strutil_read_unsigned_num mem cursor := s_read_unsigned mem cursor 10.
Definition aws_strutil_read_unsigned_hex mem cursor := s_read_unsigned mem cursor 16.

End Strutil.

(** The first loop of [s_trim]: the index at which it stops. *)
Fixpoint s_trim_leading (mem : list byte) (cursor : aws_byte_cursor) (trim_table : list bool)
    (n i : nat) : nat :=
  match n with
  | O => i
  | S n' =>
      let c := cursor_at mem cursor i in
      if negb (table_lookup trim_table false c) then i
      else s_trim_leading mem cursor trim_table n' (S i)
  end.

(** The second loop of [s_trim], which decrements [cursor.len] in place:
    the length at which it stops. *)
Fixpoint s_trim_trailing (mem : list byte) (p : nat) (trim_table : list bool) (l : nat) : nat :=
  match l with
  | O => O
  | S l' =>
      let c := mem_read mem (p + l') in
      if negb (table_lookup trim_table false c) then l
      else s_trim_trailing mem p trim_table l'
  end.

Definition s_trim (mem : list byte) (cursor : aws_byte_cursor) (trim_table : list bool)
    : aws_byte_cursor :=
  let i := s_trim_leading mem cursor trim_table (len cursor) 0 in
  let p := (ptr cursor + i)%nat in
  let l := (len cursor - i)%nat in
  {| len := s_trim_trailing mem p trim_table l; ptr := p |}.

(** [[' '] = true, ['\t'] = true], every other entry zero-initialised. *)
Definition s_http_whitespace_table : list bool :=
  <[Byte.to_nat " " := true]> (<[Byte.to_nat x09 := true]> (replicate 256 false)).

Definition aws_strutil_trim_http_whitespace (mem : list byte) (cursor : aws_byte_cursor)
    : aws_byte_cursor :=
  s_trim mem cursor s_http_whitespace_table.

(** *** What the specification says of the string utilities *)

(** The digit set of a base, as the specification words it: the decimal
    digits, and for base 16 also the letters a to f in either case. *)
Definition is_decimal_digit (c : byte) : bool :=
  (Byte.to_N "0" <=? Byte.to_N c)%N && (Byte.to_N c <=? Byte.to_N "9")%N.

Definition is_hex_letter (c : byte) : bool :=
  ((Byte.to_N "a" <=? Byte.to_N c)%N && (Byte.to_N c <=? Byte.to_N "f")%N)
  || ((Byte.to_N "A" <=? Byte.to_N c)%N && (Byte.to_N c <=? Byte.to_N "F")%N).

Definition is_digit_of (base : Z) (c : byte) : bool :=
  is_decimal_digit c || ((base =? 16) && is_hex_letter c).

(** The number a digit stands for. *)
Definition digit_value (c : byte) : Z :=
  if is_decimal_digit c then Z.of_N (Byte.to_N c) - Z.of_N (Byte.to_N "0")
  else if (Byte.to_N "a" <=? Byte.to_N c)%N
       then Z.of_N (Byte.to_N c) - Z.of_N (Byte.to_N "a") + 10
       else Z.of_N (Byte.to_N c) - Z.of_N (Byte.to_N "A") + 10.

(** The numeric value of a digit string read left to right, unbounded. *)
Definition numeric_value (base : Z) (s : list byte) : Z :=
  fold_left (fun acc c => acc * base + digit_value c) s 0.

(** The set {SP, HT}. *)
Definition is_http_whitespace (c : byte) : bool :=
  match c with
  | x20 | x09 => true
  | _ => false
  end.

#[global] Instance byte_eq_dec : EqDecision byte := Byte.byte_eq_dec.

Section ReadingWords.
Context {common : aws_common_error}.

(** The loop of [s_read_unsigned] as a recursion over the bytes it reads. *)
Fixpoint read_digits (base : Z) (s : list byte) (val : Z) : op_status * Z :=
  match s with
  | [] => (OpSuccess, val)
  | c :: s' =>
      let cval := table_lookup s_ascii_to_num_table 255 c in
      if cval >=? base then (OpErr AWS_ERROR_INVALID_ARGUMENT, 0)
      else if wrap64 (val * base) <? val then (OpErr AWS_ERROR_OVERFLOW_DETECTED, 0)
      else if wrap64 (wrap64 (val * base) + cval) <? val
           then (OpErr AWS_ERROR_OVERFLOW_DETECTED, 0)
           else read_digits base s' (wrap64 (wrap64 (val * base) + cval))
  end.

(** One step of the numeric value. *)
Definition digit_step (base : Z) (acc : Z) (c : byte) : Z := acc * base + digit_value c.

(** A failed read raised one of the two errors and left [*dst] zero. *)
Definition read_failed (r : op_status * Z) : Prop :=
  r = (OpErr AWS_ERROR_INVALID_ARGUMENT, 0) \/ r = (OpErr AWS_ERROR_OVERFLOW_DETECTED, 0).

End ReadingWords.

(** ** [source/connection.c] *)

(** *** The world the callbacks run in *)

(** Pointers are addresses; a nullable pointer is an [option]. *)
Definition conn_ptr := nat.
Definition void_ptr := nat.
(** The address of a user function that a connection stores. *)
Definition fn_ptr := nat.

(** [aws_http_server_connection_options]: the fields [configure_server] reads. *)
Record aws_http_server_connection_options := {
  connection_user_data : void_ptr;
  opt_on_incoming_request : option fn_ptr;
  opt_on_shutdown : option fn_ptr
}.

(** What user code does inside a callback, or between callbacks: calls of
    the public operations of this file on the connections and the servers
    it holds. *)
Inductive user_call :=
  | CallConfigureServer (connection : option conn_ptr)
      (options : option aws_http_server_connection_options)
  | CallAcquire (connection : conn_ptr)
  | CallRelease (connection : conn_ptr)
  | CallServerRelease (server : option nat).

(** A callback the core invokes: given the connection (or NULL), the error
    code and the user data, the calls the user's function makes. *)
Definition user_callback := option conn_ptr -> Z -> void_ptr -> list user_call.

(** [aws_http_server_on_incoming_connection_fn]: it is handed the server
    as well. *)
Definition server_callback := nat -> user_callback.

Record aws_http_connection_server_data := {
  on_incoming_request : option fn_ptr;
  on_shutdown : option fn_ptr
}.

(** Modelled from the spec: [struct aws_http_connection], declared in
    [private/connection_impl.h], which is not among the sources; the
    attributes of a connection as section 3 lists them.  [channel_slot] is
    the channel at whose end the slot sits; [client_data] is a bare
    presence marker. *)
Record aws_http_connection := {
  http_version : aws_http_version;
  channel_slot : option nat;
  proxy_request_transform : option fn_ptr;
  user_data : void_ptr;
  refcount : Z;
  client_data : option unit;
  server_data : option aws_http_connection_server_data
}.

(** [struct aws_http_server]; [is_shutting_down] and
    [channel_to_connection_map] are its [synced_data]. *)
Record aws_http_server := {
  server_alloc : nat;
  server_bootstrap : nat;
  server_is_using_tls : bool;
  server_initial_window_size : Z;
  server_user_data : void_ptr;
  on_incoming_connection : server_callback;
  server_socket : nat;
  is_shutting_down : bool;
  channel_to_connection_map : gmap nat conn_ptr
}.

(** Modelled from the spec: [struct aws_http_client_bootstrap], declared in
    [private/connection_impl.h], which is not among the sources; the
    per-attempt record of section 3. *)
Record aws_http_client_bootstrap := {
  bootstrap_alloc : nat;
  bootstrap_is_using_tls : bool;
  bootstrap_initial_window_size : Z;
  bootstrap_proxy_request_transform : option fn_ptr;
  bootstrap_user_data : void_ptr;
  on_setup : option user_callback;
  bootstrap_on_shutdown : option user_callback;
  bootstrap_connection : option conn_ptr
}.

(** A channel as the setup callbacks see it.  The channel runtime, the TLS
    handler, the allocator and the hash table of the registry are other
    libraries: the record holds what they answer while the connection is
    spliced into this channel and registered ([None]: success; [Some err]:
    failure raising [err]). *)
Record aws_channel := {
  channel_id : nat;
  slot_new_error : option Z;
  slot_insert_end_error : option Z;
  (** [connection_slot->adj_left], and inside it the slot's handler, and
      inside that what [aws_tls_handler_protocol] returns. *)
  adj_left : option (option (list byte));
  engine_new_error : option Z;
  slot_set_handler_error : option Z;
  (** Whether [connection_slot->handler] is set when
      [aws_channel_slot_set_handler] has failed: the runtime may have put
      the handler into the slot before it met the error. *)
  slot_handler_after_error : bool;
  hash_table_put_error : option Z
}.

(** The accesses to a server's [synced_data]: reads and writes of
    [is_shutting_down], and the calls on [channel_to_connection_map]. *)
Inductive synced_access :=
  | LoadIsShuttingDown
  | StoreIsShuttingDown
  | HashTablePut (channel : nat) (connection : conn_ptr)
  | HashTableRemove (channel : nat)
  | HashIterBegin.

(** Calls out of the core and accesses to synchronised data, in the order
    they happen. *)
Inductive event :=
  | EvChannelSlotInsertEnd (channel : nat)
  | EvChannelSlotSetHandler (channel : nat) (connection : conn_ptr)
  | EvChannelSlotRemove (channel : nat)
  | EvChannelHandlerDestroy (connection : conn_ptr)
  | EvChannelAcquireHold (channel : nat)
  | EvChannelReleaseHold (channel : nat)
  | EvChannelShutdown (channel : nat) (error_code : Z)
  | EvMutexLock (server : nat)
  | EvMutexUnlock (server : nat)
  | EvSyncedData (server : nat) (access : synced_access)
  | EvDestroySocketListener (bootstrap socket : nat)
  | EvMemRelease (alloc : nat) (record : nat)
  | EvOnSetup (connection : option conn_ptr) (error_code : Z) (user_data : void_ptr)
  | EvOnShutdown (connection : option conn_ptr) (error_code : Z) (user_data : void_ptr)
  | EvOnIncomingConnection (server : nat) (connection : option conn_ptr) (error_code : Z)
      (user_data : void_ptr).

Record world := {
  trace : list event;
  (** the thread's last error, [aws_last_error()] *)
  last_error : Z;
  connections : gmap conn_ptr aws_http_connection;
  servers : gmap nat aws_http_server;
  client_bootstraps : gmap nat aws_http_client_bootstrap
}.

(** A call returns a value in a new world, or the process aborts: a fatal
    assertion, or a dereference of a pointer that holds no object. *)
Inductive outcome (A : Type) :=
  | Ret (a : A) (w : world)
  | Abort (w : world).
Arguments Ret {A} a w.
Arguments Abort {A} w.

Definition M (A : Type) : Type := world -> outcome A.

#[global] Instance M_ret : MRet M := fun A a w => Ret a w.
#[global] Instance M_bind : MBind M := fun A B k m w =>
  match m w with
  | Ret a w' => k a w'
  | Abort w' => Abort w'
  end.

Definition outcome_world {A} (o : outcome A) : world :=
  match o with Ret _ w => w | Abort w => w end.

Definition abort {A} : M A := fun w => Abort w.

Definition AWS_FATAL_ASSERT (cond : bool) : M unit :=
  if cond then mret tt else abort.

Definition emit (e : event) : M unit := fun w =>
  Ret tt {| trace := trace w ++ [e]; last_error := last_error w;
            connections := connections w; servers := servers w;
            client_bootstraps := client_bootstraps w |}.

Definition aws_raise_error (err : Z) : M Z := fun w =>
  Ret AWS_OP_ERR {| trace := trace w; last_error := err;
                    connections := connections w; servers := servers w;
                    client_bootstraps := client_bootstraps w |}.

Definition aws_last_error : M Z := fun w => Ret (last_error w) w.

Definition get_connection (p : conn_ptr) : M aws_http_connection := fun w =>
  match connections w !! p with
  | Some c => Ret c w
  | None => Abort w
  end.

Definition put_connection (p : conn_ptr) (c : aws_http_connection) : M unit := fun w =>
  Ret tt {| trace := trace w; last_error := last_error w;
            connections := <[p := c]> (connections w); servers := servers w;
            client_bootstraps := client_bootstraps w |}.

Definition free_connection (p : conn_ptr) : M unit := fun w =>
  Ret tt {| trace := trace w; last_error := last_error w;
            connections := delete p (connections w); servers := servers w;
            client_bootstraps := client_bootstraps w |}.

Definition new_connection (c : aws_http_connection) : M conn_ptr := fun w =>
  let p := fresh (dom (connections w)) in
  Ret p {| trace := trace w; last_error := last_error w;
           connections := <[p := c]> (connections w); servers := servers w;
           client_bootstraps := client_bootstraps w |}.

Definition get_server (p : nat) : M aws_http_server := fun w =>
  match servers w !! p with
  | Some s => Ret s w
  | None => Abort w
  end.

Definition put_server (p : nat) (s : aws_http_server) : M unit := fun w =>
  Ret tt {| trace := trace w; last_error := last_error w;
            connections := connections w; servers := <[p := s]> (servers w);
            client_bootstraps := client_bootstraps w |}.

Definition get_bootstrap (p : nat) : M aws_http_client_bootstrap := fun w =>
  match client_bootstraps w !! p with
  | Some b => Ret b w
  | None => Abort w
  end.

Definition put_bootstrap (p : nat) (b : aws_http_client_bootstrap) : M unit := fun w =>
  Ret tt {| trace := trace w; last_error := last_error w;
            connections := connections w; servers := servers w;
            client_bootstraps := <[p := b]> (client_bootstraps w) |}.

(** [aws_mem_release] of a bootstrap record. *)
Definition aws_mem_release (alloc p : nat) : M unit := fun w =>
  Ret tt {| trace := trace w ++ [EvMemRelease alloc p]; last_error := last_error w;
            connections := connections w; servers := servers w;
            client_bootstraps := delete p (client_bootstraps w) |}.

Fixpoint for_each {A} (l : list A) (body : A -> M unit) : M unit :=
  match l with
  | [] => mret tt
  | a :: l' => body a;; for_each l' body
  end.

(** The channel runtime's entry points the core calls. *)
Definition aws_channel_shutdown (channel : nat) (error_code : Z) : M unit :=
  emit (EvChannelShutdown channel error_code).
Definition aws_channel_acquire_hold (channel : nat) : M unit :=
  emit (EvChannelAcquireHold channel).
Definition aws_channel_release_hold (channel : nat) : M unit :=
  emit (EvChannelReleaseHold channel).
Definition aws_channel_handler_destroy (connection : conn_ptr) : M unit :=
  emit (EvChannelHandlerDestroy connection);; free_connection connection.
(** [handler] is [slot->handler].  A slot owns the handler it holds, and
    the runtime destroys the two together (the comment in
    [aws_http_connection_release]: the channel "destroys its slots/handlers,
    which will destroy the connection"; section 4.5 of the specification:
    only a handler "not yet bound" is the factory's to destroy). *)
Definition aws_channel_slot_remove (channel : nat) (handler : option conn_ptr) : M unit :=
  emit (EvChannelSlotRemove channel);;
  match handler with
  | Some connection => free_connection connection
  | None => mret tt
  end.

(** [size_t] arithmetic of the reference count. *)
Definition SIZE_MAX : Z := 2 ^ 64 - 1.
Definition wrap_size (z : Z) : Z := z mod (SIZE_MAX + 1).

(** The events that are invocations of user callbacks. *)
Definition is_callback (e : event) : bool :=
  match e with
  | EvOnSetup _ _ _ | EvOnShutdown _ _ _ | EvOnIncomingConnection _ _ _ _ => true
  | _ => false
  end.

Definition callbacks_of (tr : list event) : list event := List.filter is_callback tr.

(** *** The functions *)

Definition s_alpn_protocol_http_1_1 : list byte := bytes_of "http/1.1".
Definition s_alpn_protocol_http_2 : list byte := bytes_of "h2".

(** [aws_string_eq_byte_buf] of the common library: equal lengths and equal
    bytes. *)
Definition aws_string_eq_byte_buf (str buf : list byte) : bool :=
  (length str =? length buf)%nat && forallb (fun p => Byte.eqb p.1 p.2) (zip str buf).

(** The block of [s_connection_new] under "Determine HTTP version": the
    version, or [None] where the code raises invalid-state for want of a
    TLS handler to the left. *)
Definition determine_http_version (is_using_tls : bool)
    (adj_left : option (option (list byte))) : option aws_http_version :=
  let version := AWS_HTTP_VERSION_1_1 in
  if is_using_tls then
    match adj_left with
    | None | Some None => None
    | Some (Some protocol) =>
        if negb (length protocol =? 0)%nat then
          if aws_string_eq_byte_buf s_alpn_protocol_http_1_1 protocol
          then Some AWS_HTTP_VERSION_1_1
          else if aws_string_eq_byte_buf s_alpn_protocol_http_2 protocol
          then Some AWS_HTTP_VERSION_2
          else Some AWS_HTTP_VERSION_1_1
        else Some version
    end
  else Some version.

(** Modelled from the spec: the engine constructors
    [aws_http_connection_new_http1_1_server] and [..._client] of
    [h1_connection.c], which is not among the sources.  Sections 3 and 4.5:
    a connection of version 1.1 whose role data is that of its role and
    whose reference count is 1, or NULL with an error raised. *)
Definition aws_http_connection_new_http1_1 (is_server : bool) (failure : option Z)
    : M (option conn_ptr) :=
  match failure with
  | Some err => aws_raise_error err;; mret None
  | None =>
      p ← new_connection
        {| http_version := AWS_HTTP_VERSION_1_1;
           channel_slot := None;
           proxy_request_transform := None;
           user_data := 0%nat;
           refcount := 1;
           client_data := if is_server then None else Some tt;
           server_data :=
             if is_server
             then Some {| on_incoming_request := None; on_shutdown := None |}
             else None |};
      mret (Some p)
  end.

Section Connection.
Context {common : aws_common_error}.

(** The code under the [error:] label of [s_connection_new], reached with
    a slot; [slot_handler] is [connection_slot->handler]. *)
Definition s_connection_new_error (channel : aws_channel)
    (slot_handler connection : option conn_ptr) : M (option conn_ptr) :=
  match slot_handler, connection with
  | None, Some c => aws_channel_handler_destroy c
  | _, _ => mret tt
  end;;
  aws_channel_slot_remove (channel_id channel) slot_handler;;
  mret None.

(** Determine the http-version, create appropriate type of connection, and
    insert it into the channel. *)
Definition s_connection_new (alloc : nat) (channel : aws_channel)
    (is_server is_using_tls : bool) (initial_window_size : Z) : M (option conn_ptr) :=
  match slot_new_error channel with
  | Some err => aws_raise_error err;; mret None
  | None =>
  match slot_insert_end_error channel with
  | Some err => aws_raise_error err;; s_connection_new_error channel None None
  | None =>
  emit (EvChannelSlotInsertEnd (channel_id channel));;
  match determine_http_version is_using_tls (adj_left channel) with
  | None => aws_raise_error AWS_ERROR_INVALID_STATE;; s_connection_new_error channel None None
  | Some AWS_HTTP_VERSION_1_1 =>
      connection ← aws_http_connection_new_http1_1 is_server (engine_new_error channel);
      match connection with
      | None => s_connection_new_error channel None None
      | Some c =>
          match slot_set_handler_error channel with
          | Some err =>
              aws_raise_error err;;
              s_connection_new_error channel
                (if slot_handler_after_error channel then Some c else None) (Some c)
          | None =>
              emit (EvChannelSlotSetHandler (channel_id channel) c);;
              conn ← get_connection c;
              put_connection c
                {| http_version := http_version conn;
                   channel_slot := Some (channel_id channel);
                   proxy_request_transform := proxy_request_transform conn;
                   user_data := user_data conn;
                   refcount := refcount conn;
                   client_data := client_data conn;
                   server_data := server_data conn |};;
              aws_channel_acquire_hold (channel_id channel);;
              mret (Some c)
          end
      end
  | Some AWS_HTTP_VERSION_2 =>
      (* AWS_FATAL_ASSERT(false && "H2 is not currently supported") *)
      AWS_FATAL_ASSERT false;; mret None
  | Some _ =>
      aws_raise_error AWS_ERROR_HTTP_UNSUPPORTED_PROTOCOL;;
      s_connection_new_error channel None None
  end
  end
  end.

Definition aws_http_connection_acquire (connection : conn_ptr) : M unit :=
  conn ← get_connection connection;
  put_connection connection
    {| http_version := http_version conn;
       channel_slot := channel_slot conn;
       proxy_request_transform := proxy_request_transform conn;
       user_data := user_data conn;
       refcount := wrap_size (refcount conn + 1);
       client_data := client_data conn;
       server_data := server_data conn |}.

Definition aws_http_connection_release (connection : conn_ptr) : M unit :=
  conn ← get_connection connection;
  let prev_refcount := refcount conn in
  put_connection connection
    {| http_version := http_version conn;
       channel_slot := channel_slot conn;
       proxy_request_transform := proxy_request_transform conn;
       user_data := user_data conn;
       refcount := wrap_size (prev_refcount - 1);
       client_data := client_data conn;
       server_data := server_data conn |};;
  if prev_refcount =? 1 then
    match channel_slot conn with
    | None => abort
    | Some channel =>
        (* Channel might already be shut down, but make sure *)
        aws_channel_shutdown channel AWS_ERROR_SUCCESS;;
        aws_channel_release_hold channel
    end
  else mret tt.

Definition aws_http_connection_configure_server (connection : option conn_ptr)
    (options : option aws_http_server_connection_options) : M Z :=
  match connection, options with
  | Some p, Some opts =>
      match opt_on_incoming_request opts with
      | None => aws_raise_error AWS_ERROR_INVALID_ARGUMENT
      | Some incoming =>
          conn ← get_connection p;
          match server_data conn with
          | None => aws_raise_error AWS_ERROR_INVALID_STATE
          | Some sd =>
              match on_incoming_request sd with
              | Some _ => aws_raise_error AWS_ERROR_INVALID_STATE
              | None =>
                  put_connection p
                    {| http_version := http_version conn;
                       channel_slot := channel_slot conn;
                       proxy_request_transform := proxy_request_transform conn;
                       user_data := connection_user_data opts;
                       refcount := refcount conn;
                       client_data := client_data conn;
                       server_data :=
                         Some {| on_incoming_request := Some incoming;
                                 on_shutdown := opt_on_shutdown opts |} |};;
                  mret AWS_OP_SUCCESS
              end
          end
      end
  | _, _ => aws_raise_error AWS_ERROR_INVALID_ARGUMENT
  end.

Definition s_server_lock_synced_data (server : nat) : M unit := emit (EvMutexLock server).
Definition s_server_unlock_synced_data (server : nat) : M unit := emit (EvMutexUnlock server).

Definition set_is_shutting_down (s : aws_http_server) : aws_http_server :=
  {| server_alloc := server_alloc s;
     server_bootstrap := server_bootstrap s;
     server_is_using_tls := server_is_using_tls s;
     server_initial_window_size := server_initial_window_size s;
     server_user_data := server_user_data s;
     on_incoming_connection := on_incoming_connection s;
     server_socket := server_socket s;
     is_shutting_down := true;
     channel_to_connection_map := channel_to_connection_map s |}.

(** [server->synced_data.is_shutting_down], read and written. *)
Definition load_is_shutting_down (server : nat) : M bool :=
  emit (EvSyncedData server LoadIsShuttingDown);;
  s ← get_server server;
  mret (is_shutting_down s).

Definition store_is_shutting_down (server : nat) : M unit :=
  emit (EvSyncedData server StoreIsShuttingDown);;
  s ← get_server server;
  put_server server (set_is_shutting_down s).

Definition aws_server_bootstrap_destroy_socket_listener (bootstrap socket : nat) : M unit :=
  emit (EvDestroySocketListener bootstrap socket).

(** [aws_http_server_release] stands here, before the callbacks that the
    source has above it, because user code may call it from a callback. *)
Definition aws_http_server_release (server : option nat) : M unit :=
  match server with
  | None => mret tt
  | Some p =>
      (* BEGIN CRITICAL SECTION *)
      s_server_lock_synced_data p;;
      flag ← load_is_shutting_down p;
      already_shutting_down ←
        (if flag : bool then mret true else store_is_shutting_down p;; mret false);
      (if negb already_shutting_down then
         (* shutdown all existing channels *)
         emit (EvSyncedData p HashIterBegin);;
         s ← get_server p;
         for_each (map_to_list (channel_to_connection_map s)).*1
           (fun channel => aws_channel_shutdown channel AWS_ERROR_HTTP_CONNECTION_CLOSED)
       else mret tt);;
      s_server_unlock_synced_data p;;
      (* END CRITICAL SECTION *)
      if already_shutting_down : bool then mret tt
      else
        s ← get_server p;
        aws_server_bootstrap_destroy_socket_listener (server_bootstrap s) (server_socket s)
  end.

(** User code runs its calls one after the other and ignores what they
    return. *)
Definition run_user_call (call : user_call) : M unit :=
  match call with
  | CallConfigureServer connection options =>
      aws_http_connection_configure_server connection options;; mret tt
  | CallAcquire connection => aws_http_connection_acquire connection
  | CallRelease connection => aws_http_connection_release connection
  | CallServerRelease server => aws_http_server_release server
  end.

Definition run_user (calls : list user_call) : M unit := for_each calls run_user_call.

(** [aws_hash_table_put] on the server's registry. *)
Definition aws_hash_table_put (server : nat) (channel : aws_channel) (connection : conn_ptr)
    : M Z :=
  emit (EvSyncedData server (HashTablePut (channel_id channel) connection));;
  match hash_table_put_error channel with
  | Some err => aws_raise_error err
  | None =>
      s ← get_server server;
      put_server server
        {| server_alloc := server_alloc s;
           server_bootstrap := server_bootstrap s;
           server_is_using_tls := server_is_using_tls s;
           server_initial_window_size := server_initial_window_size s;
           server_user_data := server_user_data s;
           on_incoming_connection := on_incoming_connection s;
           server_socket := server_socket s;
           is_shutting_down := is_shutting_down s;
           channel_to_connection_map :=
             <[channel_id channel := connection]> (channel_to_connection_map s) |};;
      mret AWS_OP_SUCCESS
  end.

(** [server->on_incoming_connection(server, connection, error_code,
    server->user_data)] *)
Definition call_on_incoming_connection (server : nat) (connection : option conn_ptr)
    (error_code : Z) : M unit :=
  s ← get_server server;
  emit (EvOnIncomingConnection server connection error_code (server_user_data s));;
  run_user (on_incoming_connection s server connection error_code (server_user_data s)).

(** The code under the [error:] label of the accept-setup callback. *)
Definition s_server_bootstrap_on_accept_channel_setup_error (server : nat)
    (error_code : Z) (user_cb_invoked : bool) (channel : option aws_channel)
    (connection : option conn_ptr) : M unit :=
  error_code ← (if error_code =? 0 then aws_last_error else mret error_code);
  (if negb user_cb_invoked
   then call_on_incoming_connection server None error_code
   else mret tt);;
  match channel with
  | Some ch => aws_channel_shutdown (channel_id ch) error_code
  | None => mret tt
  end;;
  match connection with
  | Some c => aws_http_connection_release c
  | None => mret tt
  end.

(** The critical section of the accept-setup callback: the error code and
    [put_err] it leaves. *)
Definition s_server_bootstrap_on_accept_channel_setup_critical (server : nat)
    (channel : aws_channel) (connection : conn_ptr) (error_code : Z) : M (Z * Z) :=
  s_server_lock_synced_data server;;
  flag ← load_is_shutting_down server;
  let error_code :=
    if flag : bool then AWS_ERROR_HTTP_CONNECTION_CLOSED else error_code in
  put_err ← (if error_code =? 0
             then aws_hash_table_put server channel connection
             else mret 0);
  s_server_unlock_synced_data server;;
  mret (error_code, put_err).

Definition s_server_bootstrap_on_accept_channel_setup (error_code : Z)
    (channel : option aws_channel) (user_data : nat) : M unit :=
  let server := user_data in
  s ← get_server server;
  if negb (error_code =? 0) then
    s_server_bootstrap_on_accept_channel_setup_error server error_code false channel None
  else
    match channel with
    | None => abort
    | Some ch =>
        (* Create connection *)
        connection ← s_connection_new (server_alloc s) ch true (server_is_using_tls s)
                       (server_initial_window_size s);
        match connection with
        | None =>
            s_server_bootstrap_on_accept_channel_setup_error server error_code false
              channel None
        | Some c =>
            '(error_code, put_err) ←
              s_server_bootstrap_on_accept_channel_setup_critical server ch c error_code;
            if negb (error_code =? 0) then
              s_server_bootstrap_on_accept_channel_setup_error server error_code false
                channel (Some c)
            else if negb (put_err =? 0) then
              s_server_bootstrap_on_accept_channel_setup_error server error_code false
                channel (Some c)
            else
              (* Tell user of successful connection. *)
              call_on_incoming_connection server (Some c) AWS_ERROR_SUCCESS;;
              let user_cb_invoked := true in
              (* If user failed to configure the server during callback, shut down
                 the channel. *)
              conn ← get_connection c;
              match server_data conn with
              | None => abort
              | Some sd =>
                  match on_incoming_request sd with
                  | None =>
                      aws_raise_error AWS_ERROR_HTTP_REACTION_REQUIRED;;
                      s_server_bootstrap_on_accept_channel_setup_error server error_code
                        user_cb_invoked channel (Some c)
                  | Some _ => mret tt
                  end
              end
        end
    end.

(** [http_bootstrap->on_setup(connection, error_code, http_bootstrap->user_data)];
    calling through a null pointer aborts. *)
Definition call_on_setup (http_bootstrap : nat) (connection : option conn_ptr)
    (error_code : Z) : M unit :=
  b ← get_bootstrap http_bootstrap;
  match on_setup b with
  | None => abort
  | Some f =>
      emit (EvOnSetup connection error_code (bootstrap_user_data b));;
      run_user (f connection error_code (bootstrap_user_data b))
  end.

Definition set_bootstrap_connection (b : aws_http_client_bootstrap)
    (connection : option conn_ptr) : aws_http_client_bootstrap :=
  {| bootstrap_alloc := bootstrap_alloc b;
     bootstrap_is_using_tls := bootstrap_is_using_tls b;
     bootstrap_initial_window_size := bootstrap_initial_window_size b;
     bootstrap_proxy_request_transform := bootstrap_proxy_request_transform b;
     bootstrap_user_data := bootstrap_user_data b;
     on_setup := on_setup b;
     bootstrap_on_shutdown := bootstrap_on_shutdown b;
     bootstrap_connection := connection |}.

Definition clear_on_setup (b : aws_http_client_bootstrap) : aws_http_client_bootstrap :=
  {| bootstrap_alloc := bootstrap_alloc b;
     bootstrap_is_using_tls := bootstrap_is_using_tls b;
     bootstrap_initial_window_size := bootstrap_initial_window_size b;
     bootstrap_proxy_request_transform := bootstrap_proxy_request_transform b;
     bootstrap_user_data := bootstrap_user_data b;
     on_setup := None;
     bootstrap_on_shutdown := bootstrap_on_shutdown b;
     bootstrap_connection := bootstrap_connection b |}.

Definition s_client_bootstrap_on_channel_setup (error_code : Z)
    (channel : option aws_channel) (user_data : nat) : M unit :=
  let http_bootstrap := user_data in
  b ← get_bootstrap http_bootstrap;
  (* Contract for setup callbacks is: channel is NULL if error_code is non-zero. *)
  AWS_FATAL_ASSERT (eqb (negb (error_code =? 0)) (bool_decide (channel = None)));;
  if negb (error_code =? 0) then
    (* Immediately tell user of failed connection.
       No channel exists, so there will be no channel_shutdown callback. *)
    call_on_setup http_bootstrap None error_code;;
    (* Clean up the http_bootstrap, it has no more work to do. *)
    b ← get_bootstrap http_bootstrap;
    aws_mem_release (bootstrap_alloc b) http_bootstrap
  else
    match channel with
    | None => abort
    | Some ch =>
        connection ← s_connection_new (bootstrap_alloc b) ch false
                       (bootstrap_is_using_tls b) (bootstrap_initial_window_size b);
        b ← get_bootstrap http_bootstrap;
        put_bootstrap http_bootstrap (set_bootstrap_connection b connection);;
        match connection with
        | None =>
            (* Something went wrong. Invoke channel shutdown. *)
            err ← aws_last_error;
            aws_channel_shutdown (channel_id ch) err
        | Some c =>
            conn ← get_connection c;
            put_connection c
              {| http_version := http_version conn;
                 channel_slot := channel_slot conn;
                 proxy_request_transform := bootstrap_proxy_request_transform b;
                 user_data := bootstrap_user_data b;
                 refcount := refcount conn;
                 client_data := client_data conn;
                 server_data := server_data conn |};;
            (* Tell user of successful connection.
               Then clear the on_setup callback so that we know it's been called *)
            call_on_setup http_bootstrap (Some c) AWS_ERROR_SUCCESS;;
            b ← get_bootstrap http_bootstrap;
            put_bootstrap http_bootstrap (clear_on_setup b)
        end
    end.

(** At this point, the channel for a client connection has completed its
    shutdown. *)
Definition s_client_bootstrap_on_channel_shutdown (error_code : Z) (channel : aws_channel)
    (user_data : nat) : M unit :=
  let http_bootstrap := user_data in
  b ← get_bootstrap http_bootstrap;
  match on_setup b with
  | Some f =>
      (* make super duper sure that failed setup receives a non-zero error_code *)
      let error_code := if error_code =? 0 then AWS_ERROR_UNKNOWN else error_code in
      call_on_setup http_bootstrap None error_code
  | None =>
      match bootstrap_on_shutdown b with
      | Some g =>
          emit (EvOnShutdown (bootstrap_connection b) error_code (bootstrap_user_data b));;
          run_user (g (bootstrap_connection b) error_code (bootstrap_user_data b))
      | None => mret tt
      end
  end;;
  (* Clean up bootstrapper *)
  b ← get_bootstrap http_bootstrap;
  aws_mem_release (bootstrap_alloc b) http_bootstrap.

(** One connect attempt, as the client bootstrap of the I/O library drives
    the two callbacks (section 6.1 of the specification, and the comment in
    the setup callback): setup fires once, with a channel and a zero code
    or with no channel and a non-zero code; when there is a channel, its
    shutdown callback fires once later, with the code the channel shut down
    with.  [between] is what user code does in the meantime. *)
Definition client_connect_attempt (http_bootstrap : nat) (error_code : Z)
    (channel : option aws_channel) (between : list user_call) (shutdown_error_code : Z)
    : M unit :=
  s_client_bootstrap_on_channel_setup error_code channel http_bootstrap;;
  match channel with
  | None => mret tt
  | Some ch =>
      run_user between;;
      s_client_bootstrap_on_channel_shutdown shutdown_error_code ch http_bootstrap
  end.

End Connection.

(** *** Worlds the statements name *)

Definition add_events (w : world) (evs : list event) : world :=
  {| trace := trace w ++ evs; last_error := last_error w;
     connections := connections w; servers := servers w;
     client_bootstraps := client_bootstraps w |}.

Definition with_last_error (w : world) (err : Z) : world :=
  {| trace := trace w; last_error := err;
     connections := connections w; servers := servers w;
     client_bootstraps := client_bootstraps w |}.

Definition with_connection (w : world) (p : conn_ptr) (conn : aws_http_connection) : world :=
  {| trace := trace w; last_error := last_error w;
     connections := <[p := conn]> (connections w); servers := servers w;
     client_bootstraps := client_bootstraps w |}.

Definition with_server (w : world) (p : nat) (s : aws_http_server) : world :=
  {| trace := trace w; last_error := last_error w;
     connections := connections w; servers := <[p := s]> (servers w);
     client_bootstraps := client_bootstraps w |}.

Definition set_refcount (conn : aws_http_connection) (n : Z) : aws_http_connection :=
  {| http_version := http_version conn;
     channel_slot := channel_slot conn;
     proxy_request_transform := proxy_request_transform conn;
     user_data := user_data conn;
     refcount := n;
     client_data := client_data conn;
     server_data := server_data conn |}.

(** A server connection after [configure_server] took [opts]. *)
Definition configured_with (conn : aws_http_connection)
    (opts : aws_http_server_connection_options) : aws_http_connection :=
  {| http_version := http_version conn;
     channel_slot := channel_slot conn;
     proxy_request_transform := proxy_request_transform conn;
     user_data := connection_user_data opts;
     refcount := refcount conn;
     client_data := client_data conn;
     server_data :=
       Some {| on_incoming_request := opt_on_incoming_request opts;
               on_shutdown := opt_on_shutdown opts |} |}.

Section Coerced.
Context {common : aws_common_error}.

(** The error a failed setup reports from the shutdown callback. *)
Definition coerced (error_code : Z) : Z :=
  if error_code =? 0 then AWS_ERROR_UNKNOWN else error_code.

End Coerced.

(** The callbacks invoked so far. *)
Definition callback_log (w : world) : list event := callbacks_of (trace w).

(** A call preserves an observation [f] of the world when the world it
    ends in, returning or aborting, has the same [f]. *)
Definition preserves {A B} (f : world -> B) (m : M A) : Prop :=
  forall w, f (outcome_world (m w)) = f w.

(** Whether a call returned. *)
Definition returned {A} (o : outcome A) : bool :=
  match o with Ret _ _ => true | Abort _ => false end.

(** The discipline of the lock along a trace, [held] being the servers
    whose lock is held: a held lock is not taken again, only a held lock is
    dropped, the synced data of a server is touched only while its lock is
    held, and a user callback is invoked only while no lock is held.  The
    locks held at the end, or [None] where the trace breaks the
    discipline. *)
Fixpoint lock_step (held : list nat) (tr : list event) : option (list nat) :=
  match tr with
  | [] => Some held
  | e :: tr' =>
      match e with
      | EvMutexLock p =>
          if bool_decide (p ∈ held) then None else lock_step (p :: held) tr'
      | EvMutexUnlock p =>
          if bool_decide (p ∈ held)
          then lock_step (List.filter (fun q => negb (q =? p)%nat) held) tr'
          else None
      | EvSyncedData p _ =>
          if bool_decide (p ∈ held) then lock_step held tr' else None
      | _ =>
          if is_callback e && negb (bool_decide (held = [])) then None
          else lock_step held tr'
      end
  end.

(** *** Concrete worlds to evaluate on *)

(** A model of the codes of [aws/common/error.h] to evaluate examples on. *)
Definition example_codes : aws_common_error :=
  Build_aws_common_error 2 5 33 34 ltac:(apply (bool_decide_unpack _); vm_compute; exact I).

(** A plain channel on which every collaborator succeeds. *)
Definition example_channel : aws_channel :=
  {| channel_id := 7%nat; slot_new_error := None; slot_insert_end_error := None;
     adj_left := None; engine_new_error := None; slot_set_handler_error := None;
     slot_handler_after_error := false; hash_table_put_error := None |}.

(** A TLS channel whose handler negotiated [protocol]. *)
Definition example_tls_channel (protocol : string) : aws_channel :=
  {| channel_id := 7%nat; slot_new_error := None; slot_insert_end_error := None;
     adj_left := Some (Some (bytes_of protocol)); engine_new_error := None;
     slot_set_handler_error := None; slot_handler_after_error := false;
     hash_table_put_error := None |}.

Definition idle_callback : user_callback := fun _ _ _ => [].

Definition example_bootstrap (is_using_tls : bool) (shutdown : option user_callback)
    : aws_http_client_bootstrap :=
  {| bootstrap_alloc := 1%nat; bootstrap_is_using_tls := is_using_tls;
     bootstrap_initial_window_size := 65535;
     bootstrap_proxy_request_transform := None; bootstrap_user_data := 99%nat;
     on_setup := Some idle_callback;
     bootstrap_on_shutdown := shutdown; bootstrap_connection := None |}.

(** A world holding one bootstrap record, at address 3. *)
Definition example_client_world (is_using_tls : bool) (shutdown : option user_callback)
    : world :=
  {| trace := []; last_error := 0; connections := ∅; servers := ∅;
     client_bootstraps := {[ 3%nat := example_bootstrap is_using_tls shutdown ]} |}.

Definition example_server (shutting_down : bool) (registry : gmap nat conn_ptr)
    : aws_http_server :=
  {| server_alloc := 1%nat; server_bootstrap := 2%nat; server_is_using_tls := false;
     server_initial_window_size := 65535; server_user_data := 42%nat;
     on_incoming_connection := fun _ => idle_callback; server_socket := 5%nat;
     is_shutting_down := shutting_down; channel_to_connection_map := registry |}.

(** A world holding one server, at address 4. *)
Definition example_server_world (registry : gmap nat conn_ptr) : world :=
  {| trace := []; last_error := 0; connections := ∅;
     servers := {[ 4%nat := example_server false registry ]}; client_bootstraps := ∅ |}.

Definition example_connection (count : Z) (is_server : bool) : aws_http_connection :=
  {| http_version := AWS_HTTP_VERSION_1_1; channel_slot := Some 7%nat;
     proxy_request_transform := None; user_data := 11%nat; refcount := count;
     client_data := if is_server then None else Some tt;
     server_data :=
       if is_server then Some {| on_incoming_request := None; on_shutdown := None |}
       else None |}.

(** A world holding one connection, at address 0. *)
Definition example_connection_world (count : Z) (is_server : bool) : world :=
  {| trace := []; last_error := 0;
     connections := {[ 0%nat := example_connection count is_server ]};
     servers := ∅; client_bootstraps := ∅ |}.

Definition example_options : aws_http_server_connection_options :=
  {| connection_user_data := 77%nat; opt_on_incoming_request := Some 100%nat;
     opt_on_shutdown := Some 101%nat |}.

(** A callback that configures the connection it is handed, and a world
    whose server, at address 4, has it as [on_incoming_connection]. *)
Definition configuring_callback : user_callback :=
  fun connection _ _ => [CallConfigureServer connection (Some example_options)].

Definition example_configuring_world : world :=
  {| trace := []; last_error := 0; connections := ∅;
     servers :=
       {[ 4%nat :=
            {| server_alloc := 1%nat; server_bootstrap := 2%nat;
               server_is_using_tls := false; server_initial_window_size := 65535;
               server_user_data := 42%nat;
               on_incoming_connection := fun _ => configuring_callback;
               server_socket := 5%nat;
               is_shutting_down := false; channel_to_connection_map := ∅ |} ]};
     client_bootstraps := ∅ |}.

(** The worlds of an accept on a server with an empty registry whose
    [on_incoming_connection] does nothing: after the factory, after the
    critical section, and when the callback returns. *)
Definition accepted_world_1 : world :=
  outcome_world
    (@s_connection_new example_codes 1%nat example_channel true false 65535
       (example_server_world ∅)).
Definition accepted_world_2 : world :=
  outcome_world
    (s_server_bootstrap_on_accept_channel_setup_critical 4%nat example_channel 0%nat 0
       accepted_world_1).
Definition accepted_world_3 : world :=
  outcome_world
    (@call_on_incoming_connection example_codes 4%nat (Some 0%nat) AWS_ERROR_SUCCESS
       accepted_world_2).
(** ** [source/connection.c], the rest of the lifecycle *)

(** Queries on a connection: the role is read off which role data is
    present. *)
Definition aws_http_connection_is_client (connection : conn_ptr) : M bool :=
  conn ← get_connection connection;
  mret (match client_data conn with Some _ => true | None => false end).

Definition aws_http_connection_is_server (connection : conn_ptr) : M bool :=
  conn ← get_connection connection;
  mret (match server_data conn with Some _ => true | None => false end).

(** [connection->channel_slot->channel] *)
Definition aws_http_connection_get_channel (connection : conn_ptr) : M nat :=
  conn ← get_connection connection;
  match channel_slot conn with
  | Some channel => mret channel
  | None => abort
  end.

Definition aws_http_connection_get_version (connection : conn_ptr) : M aws_http_version :=
  conn ← get_connection connection;
  mret (http_version conn).

Definition set_channel_to_connection_map (s : aws_http_server) (registry : gmap nat conn_ptr)
    : aws_http_server :=
  {| server_alloc := server_alloc s;
     server_bootstrap := server_bootstrap s;
     server_is_using_tls := server_is_using_tls s;
     server_initial_window_size := server_initial_window_size s;
     server_user_data := server_user_data s;
     on_incoming_connection := on_incoming_connection s;
     server_socket := server_socket s;
     is_shutting_down := is_shutting_down s;
     channel_to_connection_map := registry |}.

(** [aws_hash_table_remove] on the server's registry: the error it returns
    and the element it found.  The table belongs to the common library;
    [failure] is what it answers, and a failed removal is taken to leave
    the table as it was. *)
Definition aws_hash_table_remove (server : nat) (channel : nat) (failure : option Z)
    : M (Z * option conn_ptr) :=
  emit (EvSyncedData server (HashTableRemove channel));;
  match failure with
  | Some err => rc ← aws_raise_error err; mret (rc, None)
  | None =>
      s ← get_server server;
      put_server server
        (set_channel_to_connection_map s (delete channel (channel_to_connection_map s)));;
      mret (AWS_OP_SUCCESS, channel_to_connection_map s !! channel)
  end.

Section ConnectionShutdown.
Context {common : aws_common_error}.

(** At this point, the channel for a server connection has completed
    shutdown, but hasn't been destroyed yet.  [user_code] resolves the
    [on_shutdown] pointer a connection stores to the user's function;
    [server] is the callback's [user_data]. *)
Definition s_server_bootstrap_on_accept_channel_shutdown (user_code : fn_ptr -> user_callback)
    (remove_failure : option Z) (error_code : Z) (channel : nat) (server : nat) : M unit :=
  (* BEGIN CRITICAL SECTION *)
  s_server_lock_synced_data server;;
  '(remove_err, map_elem) ← aws_hash_table_remove server channel remove_failure;
  s_server_unlock_synced_data server;;
  (* END CRITICAL SECTION *)
  match negb (remove_err =? 0), map_elem with
  | false, Some connection =>
      conn ← get_connection connection;
      match server_data conn with
      | None => abort
      | Some sd =>
          (* Tell user about shutdown *)
          match on_shutdown sd with
          | Some f =>
              emit (EvOnShutdown (Some connection) error_code (user_data conn));;
              run_user (user_code f (Some connection) error_code (user_data conn))
          | None => mret tt
          end
      end
  | _, _ => mret tt
  end.

End ConnectionShutdown.

(** [struct aws_http_client_connection_options]: the fields
    [aws_http_client_connect_internal] reads.  Of [host_name] only the
    bytes matter. *)
Record aws_http_client_connection_options := {
  connect_self_size : nat;
  connect_allocator : option nat;
  connect_bootstrap : option nat;
  connect_host_name : list byte;
  connect_port : Z;
  connect_socket_options : option nat;
  connect_tls_options : option nat;
  connect_proxy_options : option nat;
  connect_user_data : void_ptr;
  connect_initial_window_size : Z;
  connect_on_setup : option user_callback;
  connect_on_shutdown : option user_callback
}.

(** [struct aws_http_connection_system_vtable]: the two entry points of
    the client bootstrap, which tests replace.  Each is given the host
    name, the port and the bootstrap record, and answers an error code; the
    setup and shutdown callbacks it is handed are always those of this
    file. *)
Record aws_http_connection_system_vtable := {
  new_socket_channel : list byte -> Z -> nat -> M Z;
  new_tls_socket_channel : list byte -> Z -> nat -> M Z
}.

(** [aws_mem_calloc] of a bootstrap record: a fresh address holding it. *)
Definition new_bootstrap (b : aws_http_client_bootstrap) : M nat := fun w =>
  let p := fresh (dom (client_bootstraps w)) in
  Ret p {| trace := trace w; last_error := last_error w;
           connections := connections w; servers := servers w;
           client_bootstraps := <[p := b]> (client_bootstraps w) |}.

Section ClientConnect.
Context {common : aws_common_error}.

(** [s_system_vtable_ptr] is the argument [system_vtable];
    [host_name_failure] and [calloc_failure] are what the allocator
    answers to the copy of the host name and to the record ([None]:
    success).  The copy of the host name lives outside the modelled heaps;
    destroying it changes nothing here.  A null allocator pointer is the
    address 0. *)
Definition aws_http_client_connect_internal (system_vtable : aws_http_connection_system_vtable)
    (host_name_failure calloc_failure : option Z)
    (options : option aws_http_client_connection_options)
    (proxy_request_transform : option fn_ptr) : M Z :=
  match options with
  | None => abort
  | Some o =>
      AWS_FATAL_ASSERT (bool_decide (connect_proxy_options o = None));;
      if (connect_self_size o =? 0)%nat
         || bool_decide (connect_allocator o = None)
         || bool_decide (connect_bootstrap o = None)
         || (length (connect_host_name o) =? 0)%nat
         || bool_decide (connect_socket_options o = None)
         || match connect_on_setup o with None => true | Some _ => false end
      then
        aws_raise_error AWS_ERROR_INVALID_ARGUMENT;; mret AWS_OP_ERR
      else
        (* bootstrap_new() functions requires a null-terminated c-str *)
        match host_name_failure with
        | Some err => aws_raise_error err;; mret AWS_OP_ERR
        | None =>
            match calloc_failure with
            | Some err => aws_raise_error err;; mret AWS_OP_ERR
            | None =>
                http_bootstrap ← new_bootstrap
                  {| bootstrap_alloc := default 0%nat (connect_allocator o);
                     bootstrap_is_using_tls :=
                       match connect_tls_options o with Some _ => true | None => false end;
                     bootstrap_initial_window_size := connect_initial_window_size o;
                     bootstrap_proxy_request_transform := proxy_request_transform;
                     bootstrap_user_data := connect_user_data o;
                     on_setup := connect_on_setup o;
                     bootstrap_on_shutdown := connect_on_shutdown o;
                     bootstrap_connection := None |};
                err ← match connect_tls_options o with
                      | Some _ =>
                          new_tls_socket_channel system_vtable (connect_host_name o)
                            (connect_port o) http_bootstrap
                      | None =>
                          new_socket_channel system_vtable (connect_host_name o)
                            (connect_port o) http_bootstrap
                      end;
                if negb (err =? 0) then
                  b ← get_bootstrap http_bootstrap;
                  aws_mem_release (bootstrap_alloc b) http_bootstrap;;
                  mret AWS_OP_ERR
                else mret AWS_OP_SUCCESS
            end
        end
  end.

End ClientConnect.



(** The [on_shutdown] invocation a server connection is due when its
    channel has shut down: none unless it stored an [on_shutdown]. *)
Definition shutdown_notice (w : world) (connection : conn_ptr) (error_code : Z)
    : list event :=
  match connections w !! connection with
  | Some conn =>
      match server_data conn with
      | Some sd =>
          match on_shutdown sd with
          | Some _ => [EvOnShutdown (Some connection) error_code (user_data conn)]
          | None => []
          end
      | None => []
      end
  | None => []
  end.

(** The servers that user code releases in a run of calls, and a server
    with [is_shutting_down] set when it is among them ([b]). *)
Fixpoint released_servers (calls : list user_call) : list nat :=
  match calls with
  | [] => []
  | CallServerRelease (Some server) :: calls' => server :: released_servers calls'
  | _ :: calls' => released_servers calls'
  end.

Definition flagged (b : bool) (s : aws_http_server) : aws_http_server :=
  if b then set_is_shutting_down s else s.

(** A run from [w] to [w'] keeps the discipline of the lock when the
    events it adds do, from no lock held to no lock held. *)
Definition keeps_lock_discipline (w w' : world) : Prop :=
  exists evs, trace w' = trace w ++ evs /\ lock_step [] evs = Some [].

(** A call keeps the discipline when each of its runs that returns does. *)
Definition disciplined {A} (m : M A) : Prop :=
  forall w a w', m w = Ret a w' -> keeps_lock_discipline w w'.

(** An event outside the lock's concern: no taking or dropping of a lock
    and no access to synced data. *)
Definition unlocked_event (e : event) : bool :=
  match e with
  | EvMutexLock _ | EvMutexUnlock _ | EvSyncedData _ _ => false
  | _ => true
  end.

(** The calls that the user's [on_shutdown] makes when a server connection
    is told that its channel has shut down: none unless it stored an
    [on_shutdown]. *)
Definition shutdown_calls (user_code : fn_ptr -> user_callback) (w : world)
    (connection : conn_ptr) (error_code : Z) : list user_call :=
  match connections w !! connection with
  | Some conn =>
      match server_data conn with
      | Some sd =>
          match on_shutdown sd with
          | Some f => user_code f (Some connection) error_code (user_data conn)
          | None => []
          end
      | None => []
      end
  | None => []
  end.

(** *** More concrete worlds *)

(** A channel on which binding the handler into the slot fails, with
    the handler left in the slot ([kept]) or not. *)
Definition example_unbindable_channel (kept : bool) : aws_channel :=
  {| channel_id := 7%nat; slot_new_error := None; slot_insert_end_error := None;
     adj_left := None; engine_new_error := None; slot_set_handler_error := Some 5;
     slot_handler_after_error := kept; hash_table_put_error := None |}.

(** A callback that configures the connection it is handed and then
    releases the server it is handed, and a world whose server, at address
    4, has it as [on_incoming_connection]. *)
Definition releasing_callback : server_callback :=
  fun server connection _ _ =>
    [CallConfigureServer connection (Some example_options);
     CallServerRelease (Some server)].

Definition example_releasing_world : world :=
  {| trace := []; last_error := 0; connections := ∅;
     servers :=
       {[ 4%nat :=
            {| server_alloc := 1%nat; server_bootstrap := 2%nat;
               server_is_using_tls := false; server_initial_window_size := 65535;
               server_user_data := 42%nat;
               on_incoming_connection := releasing_callback; server_socket := 5%nat;
               is_shutting_down := false; channel_to_connection_map := ∅ |} ]};
     client_bootstraps := ∅ |}.

(** An [on_shutdown] that releases the server at address 4. *)
Definition releasing_on_shutdown : user_callback :=
  fun _ _ _ => [CallServerRelease (Some 4%nat)].


(** A world whose server, at address 4, has channel 7 registered for the
    configured connection at address 0. *)
Definition example_registered_world : world :=
  {| trace := []; last_error := 0;
     connections :=
       {[ 0%nat := configured_with (example_connection 1 true) example_options ]};
     servers := {[ 4%nat := example_server false {[ 7%nat := 0%nat ]} ]};
     client_bootstraps := ∅ |}.

Definition example_connect_options (setup : option user_callback)
    : aws_http_client_connection_options :=
  {| connect_self_size := 96%nat; connect_allocator := Some 1%nat;
     connect_bootstrap := Some 2%nat; connect_host_name := bytes_of "example.com";
     connect_port := 80; connect_socket_options := Some 3%nat;
     connect_tls_options := None; connect_proxy_options := None;
     connect_user_data := 99%nat; connect_initial_window_size := 65535;
     connect_on_setup := setup; connect_on_shutdown := Some idle_callback |}.

(** A bootstrap whose entry points do nothing but answer [rc]. *)
Definition example_vtable (rc : Z) : aws_http_connection_system_vtable :=
  {| new_socket_channel := fun _ _ _ => mret rc;
     new_tls_socket_channel := fun _ _ _ => mret rc |}.

Definition example_empty_world : world :=
  {| trace := []; last_error := 0; connections := ∅; servers := ∅;
     client_bootstraps := ∅ |}.

(** The world after the accept of [example_configuring_world], and after
    that of [example_releasing_world]. *)
Definition configured_accept_world : world :=
  outcome_world
    (@s_server_bootstrap_on_accept_channel_setup example_codes 0 (Some example_channel) 4%nat
       example_configuring_world).

Definition released_accept_world : world :=
  outcome_world
    (@s_server_bootstrap_on_accept_channel_setup example_codes 0 (Some example_channel) 4%nat
       example_releasing_world).


(** * Proofs: string utilities *)

Module StrutilFacts.

(** The table agrees with the digit sets and digit values of the
    specification, byte by byte. *)
Lemma s_ascii_to_num_table_spec (c : byte) :
  let v := table_lookup s_ascii_to_num_table 255 c in
  (v >=? 10) = negb (is_digit_of 10 c) /\
  (v >=? 16) = negb (is_digit_of 16 c) /\
  (is_digit_of 16 c = true -> v = digit_value c) /\
  (0 <=? v) = true.
Proof. destruct c; vm_compute; intuition congruence. Qed.

Lemma is_digit_of_16 (base : Z) (c : byte) :
  base = 10 \/ base = 16 -> is_digit_of base c = true -> is_digit_of 16 c = true.
Proof.
  intros [-> | ->] H; [|done].
  unfold is_digit_of in *. by destruct (is_decimal_digit c).
Qed.

Lemma table_geb_base (base : Z) (c : byte) :
  base = 10 \/ base = 16 ->
  (table_lookup s_ascii_to_num_table 255 c >=? base) = negb (is_digit_of base c).
Proof. intros [-> | ->]; apply s_ascii_to_num_table_spec. Qed.

Lemma digit_value_table (base : Z) (c : byte) :
  base = 10 \/ base = 16 -> is_digit_of base c = true ->
  table_lookup s_ascii_to_num_table 255 c = digit_value c /\ 0 <= digit_value c.
Proof.
  intros Hb Hd. apply (is_digit_of_16 _ _ Hb) in Hd.
  destruct (s_ascii_to_num_table_spec c) as (_ & _ & Hv & Hpos).
  rewrite <- (Hv Hd). split; [done|]. by apply Z.leb_le.
Qed.

Section Reading.
Context {common : aws_common_error}.

Lemma s_read_unsigned_loop_bytes mem cursor base n i val :
  s_read_unsigned_loop mem cursor base n i val
  = read_digits base (map (cursor_at mem cursor) (seq i n)) val.
Proof.
  revert i val. induction n as [|n IH]; intros i val; simpl; [done|].
  repeat case_match; auto.
Qed.

Lemma s_read_unsigned_bytes mem cursor base :
  s_read_unsigned mem cursor base
  = match cursor_bytes mem cursor with
    | [] => (OpErr AWS_ERROR_INVALID_ARGUMENT, 0)
    | s => read_digits base s 0
    end.
Proof.
  unfold s_read_unsigned, cursor_bytes. rewrite s_read_unsigned_loop_bytes.
  by destruct (len cursor).
Qed.

Lemma digit_fold_ge base s acc :
  base = 10 \/ base = 16 -> forallb (is_digit_of base) s = true -> 0 <= acc ->
  acc <= fold_left (digit_step base) s acc.
Proof.
  intros Hb. revert acc. induction s as [|c s IH]; intros acc Hs Hacc; simpl; [lia|].
  simpl in Hs. apply andb_true_iff in Hs as [Hc Hs].
  destruct (digit_value_table base c Hb Hc) as [_ Hpos].
  assert (acc <= digit_step base acc c) by (unfold digit_step; destruct Hb; subst; lia).
  etrans; [done|]. apply IH; [done|lia].
Qed.

(** Without overflow the loop computes the value of the digits. *)
Lemma read_digits_value base s val :
  base = 10 \/ base = 16 -> forallb (is_digit_of base) s = true -> 0 <= val ->
  fold_left (digit_step base) s val <= UINT64_MAX ->
  read_digits base s val = (OpSuccess, fold_left (digit_step base) s val).
Proof.
  intros Hb. revert val. induction s as [|c s IH]; intros val Hs Hval Hmax; simpl; [done|].
  simpl in Hs, Hmax. apply andb_true_iff in Hs as [Hc Hs].
  destruct (digit_value_table base c Hb Hc) as [Hv Hpos].
  rewrite (table_geb_base _ _ Hb), Hc. simpl. rewrite Hv.
  assert (Hstep : val <= val * base /\ val * base <= digit_step base val c)
    by (unfold digit_step; destruct Hb; subst; lia).
  assert (Hle : digit_step base val c <= UINT64_MAX).
  { etrans; [|exact Hmax]. apply digit_fold_ge; [done..|lia]. }
  unfold UINT64_MAX in Hle.
  assert (Hw1 : wrap64 (val * base) = val * base)
    by (unfold wrap64; apply Z.mod_small; lia).
  rewrite Hw1.
  assert (Hw2 : wrap64 (val * base + digit_value c) = digit_step base val c)
    by (unfold wrap64, digit_step in *; apply Z.mod_small; lia).
  rewrite Hw2.
  destruct (Z.ltb_spec (val * base) val); [lia|].
  destruct (Z.ltb_spec (digit_step base val c) val); [lia|].
  apply IH; [done|lia|done].
Qed.

Lemma read_digits_app base pre rest val :
  (exists v, read_digits base pre val = (OpSuccess, v)
             /\ read_digits base (pre ++ rest) val = read_digits base rest v)
  \/ (read_failed (read_digits base pre val)
      /\ read_digits base (pre ++ rest) val = read_digits base pre val).
Proof.
  revert val. induction pre as [|c pre IH]; intros val; simpl; [by left; eexists|].
  repeat case_match; try (right; split; [|done]; unfold read_failed; by auto).
  apply IH.
Qed.

Lemma read_digits_invalid_head base c rest val :
  base = 10 \/ base = 16 -> is_digit_of base c = false ->
  read_digits base (c :: rest) val = (OpErr AWS_ERROR_INVALID_ARGUMENT, 0).
Proof. intros Hb Hc. simpl. by rewrite (table_geb_base _ _ Hb), Hc. Qed.

(** A character outside the digit set makes the read fail. *)
Lemma read_digits_invalid base pre c post val :
  base = 10 \/ base = 16 -> is_digit_of base c = false ->
  read_failed (read_digits base (pre ++ c :: post) val).
Proof.
  intros Hb Hc. destruct (read_digits_app base pre (c :: post) val) as [(v & _ & ->) | [Hf ->]].
  - left. by apply read_digits_invalid_head.
  - done.
Qed.

(** ... with invalid-argument when the digits before it did not overflow. *)
Lemma read_digits_invalid_first base pre c post val :
  base = 10 \/ base = 16 -> is_digit_of base c = false ->
  forallb (is_digit_of base) pre = true -> 0 <= val ->
  fold_left (digit_step base) pre val <= UINT64_MAX ->
  read_digits base (pre ++ c :: post) val = (OpErr AWS_ERROR_INVALID_ARGUMENT, 0).
Proof.
  intros Hb Hc Hpre Hval Hmax.
  pose proof (read_digits_value base pre val Hb Hpre Hval Hmax) as Hok.
  destruct (read_digits_app base pre (c :: post) val) as [(v & _ & ->) | [Hf _]].
  - by apply read_digits_invalid_head.
  - rewrite Hok in Hf. destruct Hf; discriminate.
Qed.

End Reading.
End StrutilFacts.

Module TrimFacts.

Lemma s_http_whitespace_table_spec (c : byte) :
  table_lookup s_http_whitespace_table false c = is_http_whitespace c.
Proof. by destruct c. Qed.

Section Trim.
Variables (mem : list byte) (trim_table : list bool).

Local Abbreviation trimmed c := (table_lookup trim_table false c).

(** Where the leading loop stops: every index it passed holds a trimmed
    byte, and it stopped at the end or at a byte that is kept. *)
Lemma s_trim_leading_spec cursor n i :
  let j := s_trim_leading mem cursor trim_table n i in
  (i <= j <= i + n)%nat /\
  (forall k, (i <= k < j)%nat -> trimmed (cursor_at mem cursor k) = true) /\
  ((j < i + n)%nat -> trimmed (cursor_at mem cursor j) = false).
Proof.
  revert i. induction n as [|n IH]; intros i; simpl.
  - split; [lia|]. split; intros; lia.
  - destruct (trimmed (cursor_at mem cursor i)) eqn:Hc; simpl.
    + destruct (IH (S i)) as (Hr & Hall & Hstop). split; [lia|]. split.
      * intros k Hk. destruct (decide (k = i)) as [->|]; [done|]. apply Hall. lia.
      * intros Hj. apply Hstop. lia.
    + split; [lia|]. split; [intros; lia|done].
Qed.

Lemma s_trim_trailing_spec p l :
  let l' := s_trim_trailing mem p trim_table l in
  (l' <= l)%nat /\
  (forall k, (l' <= k < l)%nat -> trimmed (mem_read mem (p + k)) = true) /\
  ((0 < l')%nat -> trimmed (mem_read mem (p + (l' - 1))) = false).
Proof.
  induction l as [|l IH]; simpl.
  - split; [lia|]. split; intros; lia.
  - destruct (trimmed (mem_read mem (p + l))) eqn:Hc; simpl.
    + destruct IH as (Hr & Hall & Hstop). split; [lia|]. split; [|done].
      intros k Hk. destruct (decide (k = l)) as [->|]; [done|]. apply Hall. lia.
    + split; [lia|]. split; [intros; lia|]. intros _.
      by replace (l - 0)%nat with l by lia.
Qed.

(** Both loops stop at once on a cursor that is empty or already starts
    and ends with a kept byte. *)
Lemma s_trim_leading_stop cursor n i :
  (n = 0%nat \/ trimmed (cursor_at mem cursor i) = false) ->
  s_trim_leading mem cursor trim_table n i = i.
Proof. destruct n; simpl; [done|]. by intros [ ? | -> ]. Qed.

Lemma s_trim_trailing_stop p l :
  (l = 0%nat \/ trimmed (mem_read mem (p + (l - 1))) = false) ->
  s_trim_trailing mem p trim_table l = l.
Proof.
  destruct l; simpl; [done|]. replace (l - 0)%nat with l by lia. by intros [ ? | -> ].
Qed.

Lemma s_trim_bounds cursor :
  let r := s_trim mem cursor trim_table in
  (ptr cursor <= ptr r)%nat /\ (ptr r + len r <= ptr cursor + len cursor)%nat.
Proof.
  unfold s_trim; simpl.
  destruct (s_trim_leading_spec cursor (len cursor) 0) as (Hj & _).
  set (j := s_trim_leading mem cursor trim_table (len cursor) 0) in *.
  destruct (s_trim_trailing_spec (ptr cursor + j) (len cursor - j)) as (Hl & _).
  lia.
Qed.

(** The first and the last byte of a trimmed cursor are kept bytes. *)
Lemma s_trim_ends cursor :
  let r := s_trim mem cursor trim_table in
  len r = 0%nat \/
  (trimmed (cursor_at mem r 0) = false /\ trimmed (cursor_at mem r (len r - 1)) = false).
Proof.
  unfold s_trim; simpl.
  destruct (s_trim_leading_spec cursor (len cursor) 0) as (Hj & _ & Hstop).
  set (j := s_trim_leading mem cursor trim_table (len cursor) 0) in *.
  destruct (s_trim_trailing_spec (ptr cursor + j) (len cursor - j)) as (Hl & _ & Hlast).
  set (l := s_trim_trailing mem (ptr cursor + j) trim_table (len cursor - j)) in *.
  destruct l as [|l'] eqn:El; [by left|right].
  unfold cursor_at; simpl. split.
  - replace (ptr cursor + j + 0)%nat with (ptr cursor + j)%nat by lia.
    apply Hstop. lia.
  - apply Hlast. lia.
Qed.

Lemma s_trim_idempotent cursor :
  s_trim mem (s_trim mem cursor trim_table) trim_table = s_trim mem cursor trim_table.
Proof.
  pose proof (s_trim_ends cursor) as Hends.
  set (r := s_trim mem cursor trim_table) in *. simpl in Hends.
  unfold s_trim at 1.
  rewrite (s_trim_leading_stop r (len r) 0) by (destruct Hends as [?|[? _]]; auto).
  replace (ptr r + 0)%nat with (ptr r) by lia.
  replace (len r - 0)%nat with (len r) by lia.
  rewrite s_trim_trailing_stop; [by destruct r|].
  destruct Hends as [?|[_ H]]; [by left|right]. exact H.
Qed.

(** The bytes of the input are a run of trimmed bytes, the bytes of the
    result, and another run of trimmed bytes. *)
Lemma s_trim_split cursor :
  let r := s_trim mem cursor trim_table in
  exists pre post,
    cursor_bytes mem cursor = pre ++ cursor_bytes mem r ++ post /\
    Forall (fun c => trimmed c = true) pre /\
    Forall (fun c => trimmed c = true) post.
Proof.
  unfold s_trim; simpl.
  destruct (s_trim_leading_spec cursor (len cursor) 0) as (Hj & Hpre & _).
  set (j := s_trim_leading mem cursor trim_table (len cursor) 0) in *.
  destruct (s_trim_trailing_spec (ptr cursor + j) (len cursor - j)) as (Hl & Hpost & _).
  set (l := s_trim_trailing mem (ptr cursor + j) trim_table (len cursor - j)) in *.
  exists (map (cursor_at mem cursor) (seq 0 j)),
         (map (cursor_at mem cursor) (seq (j + l) (len cursor - j - l))).
  split; [|split].
  - unfold cursor_bytes; simpl.
    replace (len cursor) with (j + (l + (len cursor - j - l)))%nat at 1 by lia.
    rewrite !seq_app, !map_app. simpl. f_equal. f_equal.
    replace j with (j + 0)%nat at 1 by lia.
    rewrite <- (fmap_add_seq j 0 l), map_map.
    apply map_ext. intros k. unfold cursor_at; simpl. f_equal. lia.
  - apply Forall_forall. intros c Hin. apply list_elem_of_In, in_map_iff in Hin as (k & <- & Hk).
    apply in_seq in Hk. apply Hpre. lia.
  - apply Forall_forall. intros c Hin. apply list_elem_of_In, in_map_iff in Hin as (k & <- & Hk).
    apply in_seq in Hk. unfold cursor_at.
    replace (ptr cursor + k)%nat with (ptr cursor + j + (k - j))%nat by lia.
    apply Hpost. lia.
Qed.

End Trim.
End TrimFacts.

(** * Proofs: connection lifecycle *)

Module ConnectionFacts.

Lemma callbacks_of_app tr1 tr2 :
  callbacks_of (tr1 ++ tr2) = callbacks_of tr1 ++ callbacks_of tr2.
Proof. apply List.filter_app. Qed.

Lemma bind_Ret {A B} (m : M A) (k : A -> M B) w b w' :
  (m ≫= k) w = Ret b w' -> exists a w1, m w = Ret a w1 /\ k a w1 = Ret b w'.
Proof.
  unfold mbind, M_bind. destruct (m w) as [a w1|w1]; [|done]. intros H. by exists a, w1.
Qed.

Lemma bind_eq {A B} (m : M A) (k : A -> M B) w a w1 :
  m w = Ret a w1 -> (m ≫= k) w = k a w1.
Proof. unfold mbind, M_bind. by intros ->. Qed.

Lemma preserves_Ret {A B} (f : world -> B) (m : M A) w a w' :
  preserves f m -> m w = Ret a w' -> f w' = f w.
Proof. intros Hm Hw. specialize (Hm w). by rewrite Hw in Hm. Qed.

Lemma preserves_ret {A B} (f : world -> B) (a : A) : preserves f (mret a).
Proof. done. Qed.

Lemma preserves_abort {A B} (f : world -> B) : preserves f (@abort A).
Proof. done. Qed.

Lemma preserves_bind {A A' B} (f : world -> B) (m : M A) (k : A -> M A') :
  preserves f m -> (forall a, preserves f (k a)) -> preserves f (m ≫= k).
Proof.
  intros Hm Hk w. specialize (Hm w). unfold mbind, M_bind.
  destruct (m w) as [a w1|w1]; simpl in *; [|done]. by rewrite Hk.
Qed.

Lemma preserves_for_each {A B} (f : world -> B) (l : list A) body :
  (forall a, preserves f (body a)) -> preserves f (for_each l body).
Proof.
  intros Hb. induction l as [|a l IH]; simpl; [apply preserves_ret|].
  apply preserves_bind; auto.
Qed.

Lemma preserves_fatal_assert {B} (f : world -> B) cond : preserves f (AWS_FATAL_ASSERT cond).
Proof. by destruct cond. Qed.

Create HintDb frame.

#[local] Hint Resolve preserves_ret preserves_abort preserves_fatal_assert : frame.

Lemma emit_callback_log e : is_callback e = false -> preserves callback_log (emit e).
Proof.
  intros He w. unfold callback_log; simpl. rewrite callbacks_of_app; simpl.
  rewrite He. apply app_nil_r.
Qed.

Lemma primitives_callback_log :
  (forall err, preserves callback_log (aws_raise_error err)) /\
  preserves callback_log aws_last_error /\
  (forall p, preserves callback_log (get_connection p)) /\
  (forall p c, preserves callback_log (put_connection p c)) /\
  (forall p, preserves callback_log (free_connection p)) /\
  (forall c, preserves callback_log (new_connection c)) /\
  (forall p, preserves callback_log (get_server p)) /\
  (forall p s, preserves callback_log (put_server p s)) /\
  (forall p, preserves callback_log (get_bootstrap p)).
Proof.
  repeat split; try done; intros p w; unfold callback_log;
    unfold get_connection, get_server, get_bootstrap; by case_match.
Qed.

Lemma primitives_client_bootstraps :
  (forall e, preserves client_bootstraps (emit e)) /\
  (forall err, preserves client_bootstraps (aws_raise_error err)) /\
  preserves client_bootstraps aws_last_error /\
  (forall p, preserves client_bootstraps (get_connection p)) /\
  (forall p c, preserves client_bootstraps (put_connection p c)) /\
  (forall p, preserves client_bootstraps (free_connection p)) /\
  (forall c, preserves client_bootstraps (new_connection c)) /\
  (forall p, preserves client_bootstraps (get_server p)) /\
  (forall p s, preserves client_bootstraps (put_server p s)).
Proof.
  repeat split; try done; intros p w; unfold get_connection, get_server; by case_match.
Qed.

Section Frames.
Context {common : aws_common_error}.
Context {B : Type} (f : world -> B).
Hypothesis f_emit : forall e, is_callback e = false -> preserves f (emit e).
Hypothesis f_raise : forall err, preserves f (aws_raise_error err).
Hypothesis f_last : preserves f aws_last_error.
Hypothesis f_get : forall p, preserves f (get_connection p).
Hypothesis f_put : forall p c, preserves f (put_connection p c).
Hypothesis f_free : forall p, preserves f (free_connection p).
Hypothesis f_new : forall c, preserves f (new_connection c).
Hypothesis f_get_server : forall p, preserves f (get_server p).
Hypothesis f_put_server : forall p s, preserves f (put_server p s).

#[local] Hint Resolve f_raise f_last f_get f_put f_free f_new f_get_server f_put_server
  : frame.

Ltac frame_step :=
  repeat first
    [ progress intros
    | solve [eauto with frame]
    | solve [apply f_emit; reflexivity]
    | apply preserves_bind
    | apply preserves_for_each
    | case_match ].

Lemma preserves_s_connection_new alloc channel is_server is_using_tls window :
  preserves f (s_connection_new alloc channel is_server is_using_tls window).
Proof.
  unfold s_connection_new, s_connection_new_error, aws_http_connection_new_http1_1,
    aws_channel_slot_remove, aws_channel_handler_destroy, aws_channel_acquire_hold.
  frame_step.
Qed.

Lemma preserves_release c : preserves f (aws_http_connection_release c).
Proof.
  unfold aws_http_connection_release, aws_channel_shutdown, aws_channel_release_hold.
  frame_step.
Qed.

Lemma preserves_acquire c : preserves f (aws_http_connection_acquire c).
Proof. unfold aws_http_connection_acquire. frame_step. Qed.

Lemma preserves_configure_server c o :
  preserves f (aws_http_connection_configure_server c o).
Proof. unfold aws_http_connection_configure_server. frame_step. Qed.

(** [aws_http_server_release] preserves what the server heap does not
    enter into. *)
Lemma preserves_server_release server : preserves f (aws_http_server_release server).
Proof.
  unfold aws_http_server_release, s_server_lock_synced_data, s_server_unlock_synced_data,
    load_is_shutting_down, store_is_shutting_down, aws_channel_shutdown,
    aws_server_bootstrap_destroy_socket_listener.
  frame_step.
Qed.

Lemma preserves_run_user calls : preserves f (run_user calls).
Proof.
  unfold run_user. apply preserves_for_each. intros [c o|c|c|server]; simpl.
  - apply preserves_bind; [apply preserves_configure_server|frame_step].
  - apply preserves_acquire.
  - apply preserves_release.
  - apply preserves_server_release.
Qed.

End Frames.
End ConnectionFacts.

Module LifecycleFacts.
Import ConnectionFacts.

Lemma aws_string_eq_byte_buf_spec (str buf : list byte) :
  aws_string_eq_byte_buf str buf = true <-> str = buf.
Proof.
  unfold aws_string_eq_byte_buf. revert buf.
  induction str as [|a str IH]; intros [|b buf]; simpl; try done.
  specialize (IH buf). rewrite andb_true_iff in IH |- *. rewrite andb_true_iff.
  split.
  - intros (Hlen & Hab & Hrest). apply Byte.byte_dec_bl in Hab as ->.
    f_equal. apply IH. done.
  - intros [= -> ->]. destruct IH as [_ IH]. destruct (IH eq_refl) as [? ?].
    split; [done|]. split; [by apply Byte.byte_dec_lb|done].
Qed.

Lemma for_each_emit {A} (l : list A) (ev : A -> event) w :
  for_each l (fun a => emit (ev a)) w = Ret tt (add_events w (map ev l)).
Proof.
  revert w. induction l as [|a l IH]; intros w; simpl.
  - unfold add_events. rewrite app_nil_r. by destruct w.
  - unfold mbind, M_bind; simpl. rewrite IH. unfold add_events; simpl.
    by rewrite <- app_assoc.
Qed.

Lemma lock_step_shutdowns (l : list nat) err held tr :
  lock_step held (map (fun ch => EvChannelShutdown ch err) l ++ tr) = lock_step held tr.
Proof. induction l as [|ch l IH]; simpl; [done|]. exact IH. Qed.

Section Lifecycle.
Context {common : aws_common_error}.

Lemma common_codes_nonzero :
  AWS_ERROR_UNKNOWN <> 0 /\ AWS_ERROR_INVALID_ARGUMENT <> 0 /\ AWS_ERROR_INVALID_STATE <> 0 /\
  AWS_ERROR_OVERFLOW_DETECTED <> 0 /\ AWS_ERROR_INVALID_ARGUMENT <> AWS_ERROR_OVERFLOW_DETECTED.
Proof.
  pose proof aws_common_error_enum as H. unfold AWS_ERROR_SUCCESS in H.
  rewrite !NoDup_cons, !not_elem_of_cons in H. intuition congruence.
Qed.

(** What [release] does, by the count it finds. *)
Lemma release_last w c conn channel :
  connections w !! c = Some conn -> refcount conn = 1 -> channel_slot conn = Some channel ->
  aws_http_connection_release c w
  = Ret tt (add_events (with_connection w c (set_refcount conn 0))
              [EvChannelShutdown channel AWS_ERROR_SUCCESS; EvChannelReleaseHold channel]).
Proof.
  intros Hc Hr Hs. unfold aws_http_connection_release, mbind, M_bind, get_connection.
  rewrite Hc; simpl. rewrite Hr, Hs; simpl.
  unfold add_events, with_connection, set_refcount, aws_channel_release_hold, emit; simpl.
  rewrite Hs, <- app_assoc. reflexivity.
Qed.

Lemma release_not_last w c conn :
  connections w !! c = Some conn -> refcount conn <> 1 ->
  aws_http_connection_release c w
  = Ret tt (with_connection w c (set_refcount conn (wrap_size (refcount conn - 1)))).
Proof.
  intros Hc Hr. unfold aws_http_connection_release, mbind, M_bind, get_connection.
  rewrite Hc; simpl. destruct (Z.eqb_spec (refcount conn) 1); [done|]. done.
Qed.

(** What [configure_server] does, case by case. *)
Lemma configure_server_missing w connection options :
  connection = None \/ options = None \/
  (exists opts, options = Some opts /\ opt_on_incoming_request opts = None) ->
  aws_http_connection_configure_server connection options w
  = Ret AWS_OP_ERR (with_last_error w AWS_ERROR_INVALID_ARGUMENT).
Proof.
  unfold aws_http_connection_configure_server.
  intros [-> | [-> | (opts & -> & Ho)]]; [done|by destruct connection|].
  rewrite Ho. by destruct connection.
Qed.

Lemma configure_server_present w p opts incoming conn :
  opt_on_incoming_request opts = Some incoming -> connections w !! p = Some conn ->
  aws_http_connection_configure_server (Some p) (Some opts) w
  = match server_data conn with
    | None => Ret AWS_OP_ERR (with_last_error w AWS_ERROR_INVALID_STATE)
    | Some sd =>
        match on_incoming_request sd with
        | Some _ => Ret AWS_OP_ERR (with_last_error w AWS_ERROR_INVALID_STATE)
        | None => Ret AWS_OP_SUCCESS (with_connection w p (configured_with conn opts))
        end
    end.
Proof.
  intros Ho Hc. unfold aws_http_connection_configure_server. rewrite Ho.
  unfold mbind, M_bind, get_connection. rewrite Hc.
  destruct (server_data conn) as [sd|]; [|done].
  destruct (on_incoming_request sd); [done|].
  simpl. unfold with_connection, configured_with. by rewrite Ho.
Qed.

End Lifecycle.

(** What [server_release] does, by the flag it finds. *)
Lemma server_release_later w p s :
  servers w !! p = Some s -> is_shutting_down s = true ->
  aws_http_server_release (Some p) w
  = Ret tt (add_events w
              [EvMutexLock p; EvSyncedData p LoadIsShuttingDown; EvMutexUnlock p]).
Proof.
  intros Hs Hflag.
  unfold aws_http_server_release, load_is_shutting_down, mbind, M_bind, get_server; simpl.
  rewrite Hs; simpl. rewrite Hflag; simpl.
  unfold add_events; simpl. by rewrite <- !app_assoc.
Qed.

Lemma server_release_first w p s :
  servers w !! p = Some s -> is_shutting_down s = false ->
  aws_http_server_release (Some p) w
  = Ret tt
      (add_events (with_server w p (set_is_shutting_down s))
         (EvMutexLock p :: EvSyncedData p LoadIsShuttingDown ::
          EvSyncedData p StoreIsShuttingDown :: EvSyncedData p HashIterBegin ::
          map (fun ch => EvChannelShutdown ch AWS_ERROR_HTTP_CONNECTION_CLOSED)
            (map_to_list (channel_to_connection_map s)).*1 ++
          [EvMutexUnlock p;
           EvDestroySocketListener (server_bootstrap s) (server_socket s)])).
Proof.
  intros Hs Hflag.
  unfold aws_http_server_release, load_is_shutting_down, store_is_shutting_down,
    mbind, M_bind, get_server; simpl.
  rewrite Hs; simpl. rewrite Hflag; simpl. rewrite Hs; simpl.
  rewrite lookup_insert_eq; simpl.
  unfold aws_channel_shutdown. rewrite for_each_emit; simpl.
  rewrite lookup_insert_eq; simpl.
  unfold add_events, with_server, aws_server_bootstrap_destroy_socket_listener, emit; simpl.
  rewrite <- !app_assoc. reflexivity.
Qed.

End LifecycleFacts.

Module ClientFacts.
Import ConnectionFacts LifecycleFacts.

Section Client.
Context {common : aws_common_error}.

(** Neither the factory nor user code invokes a callback or touches a
    bootstrap record. *)
Lemma quiet_callback_log :
  (forall alloc channel is_server is_using_tls window,
     preserves callback_log (s_connection_new alloc channel is_server is_using_tls window)) /\
  (forall calls, preserves callback_log (run_user calls)) /\
  (forall c, preserves callback_log (aws_http_connection_release c)).
Proof.
  pose proof primitives_callback_log as (? & ? & ? & ? & ? & ? & ? & ? & _).
  repeat split; intros;
    [apply preserves_s_connection_new|apply preserves_run_user|apply preserves_release];
    auto using emit_callback_log.
Qed.

Lemma quiet_client_bootstraps :
  (forall alloc channel is_server is_using_tls window,
     preserves client_bootstraps
       (s_connection_new alloc channel is_server is_using_tls window)) /\
  (forall calls, preserves client_bootstraps (run_user calls)).
Proof.
  pose proof primitives_client_bootstraps as (? & ? & ? & ? & ? & ? & ? & ? & ?).
  repeat split; intros; [apply preserves_s_connection_new|apply preserves_run_user]; auto.
Qed.

Lemma get_bootstrap_Ret p w b w' :
  get_bootstrap p w = Ret b w' -> w' = w /\ client_bootstraps w !! p = Some b.
Proof. unfold get_bootstrap. destruct (client_bootstraps w !! p); [|done]. by intros [= -> ->]. Qed.

Lemma put_bootstrap_Ret p b w a w' :
  put_bootstrap p b w = Ret a w' ->
  callback_log w' = callback_log w /\ client_bootstraps w' !! p = Some b.
Proof. intros [= _ <-]. split; [done|]. simpl. apply lookup_insert_eq. Qed.

Lemma aws_mem_release_Ret alloc p w a w' :
  aws_mem_release alloc p w = Ret a w' -> callback_log w' = callback_log w.
Proof.
  intros [= _ <-]. unfold callback_log; simpl. rewrite callbacks_of_app. apply app_nil_r.
Qed.

(** Invoking [on_setup] logs exactly that invocation. *)
Lemma call_on_setup_Ret p connection error_code w w' b :
  client_bootstraps w !! p = Some b ->
  call_on_setup p connection error_code w = Ret tt w' ->
  callback_log w' = callback_log w ++ [EvOnSetup connection error_code (bootstrap_user_data b)]
  /\ client_bootstraps w' = client_bootstraps w /\ on_setup b <> None.
Proof.
  intros Hb H. unfold call_on_setup in H.
  apply bind_Ret in H as (b0 & w0 & [-> Hb0]%get_bootstrap_Ret & H).
  assert (b0 = b) as -> by congruence.
  destruct (on_setup b) as [f|]; [|done].
  apply bind_Ret in H as ([] & w1 & [= <-] & H).
  destruct quiet_callback_log as (_ & Hlog & _). destruct quiet_client_bootstraps as (_ & Hbs).
  rewrite (preserves_Ret _ _ _ _ _ (Hlog _) H), (preserves_Ret _ _ _ _ _ (Hbs _) H).
  split; [|done]. unfold callback_log; simpl. by rewrite callbacks_of_app.
Qed.

Lemma coerced_nonzero error_code : coerced error_code <> 0.
Proof.
  unfold coerced. destruct (Z.eqb_spec error_code 0); [|done].
  apply common_codes_nonzero.
Qed.

(** The setup callback: it reports a failure that came without a channel,
    or it reports success and clears [on_setup], or, when the factory
    failed, it reports nothing and leaves [on_setup] set. *)
Lemma s_client_bootstrap_on_channel_setup_Ret p error_code channel w w' b :
  client_bootstraps w !! p = Some b ->
  s_client_bootstrap_on_channel_setup error_code channel p w = Ret tt w' ->
  let ud := bootstrap_user_data b in
  (error_code <> 0 /\ channel = None /\
   callback_log w' = callback_log w ++ [EvOnSetup None error_code ud])
  \/ (error_code = 0 /\ channel <> None /\
      ((callback_log w' = callback_log w /\
        client_bootstraps w' !! p = Some (set_bootstrap_connection b None))
       \/ (exists c,
            callback_log w' = callback_log w ++ [EvOnSetup (Some c) 0 ud] /\
            client_bootstraps w' !! p
            = Some (clear_on_setup (set_bootstrap_connection b (Some c)))))).
Proof.
  intros Hb H ud. unfold s_client_bootstrap_on_channel_setup in H.
  destruct quiet_callback_log as (Hnew_log & _ & _).
  destruct quiet_client_bootstraps as (Hnew_bs & _).
  apply bind_Ret in H as (b0 & w0 & [-> Hb0]%get_bootstrap_Ret & H).
  assert (b0 = b) as -> by congruence.
  apply bind_Ret in H as ([] & w0 & Hassert & H).
  unfold AWS_FATAL_ASSERT in Hassert.
  destruct (eqb _ _) eqn:Hcontract in Hassert; [|done].
  injection Hassert as <-. apply eqb_prop in Hcontract.
  destruct (Z.eqb_spec error_code 0) as [->|Hne]; simpl in H; cbn [negb] in Hcontract.
  - right. destruct channel as [ch|]; [|done]. split; [done|]. split; [done|].
    apply bind_Ret in H as (connection & w1 & Hnew & H).
    pose proof (preserves_Ret _ _ _ _ _ (Hnew_log _ _ _ _ _) Hnew) as Hlog1.
    pose proof (preserves_Ret _ _ _ _ _ (Hnew_bs _ _ _ _ _) Hnew) as Hbs1.
    apply bind_Ret in H as (b1 & w2 & [-> Hb1]%get_bootstrap_Ret & H).
    assert (b1 = b) as -> by congruence.
    apply bind_Ret in H as ([] & w2 & [Hlog2 Hb2]%put_bootstrap_Ret & H).
    destruct connection as [c|].
    + right. exists c.
      apply bind_Ret in H as (conn & w3 & Hget & H).
      apply bind_Ret in H as ([] & w4 & Hput & H).
      apply bind_Ret in H as ([] & w5 & Hcall & H).
      assert (client_bootstraps w4 = client_bootstraps w2 /\ callback_log w4 = callback_log w2)
        as [Hbs4 Hlog4].
      { unfold get_connection in Hget. destruct (connections w2 !! c); [|done].
        injection Hget as <- <-. by injection Hput as <-. }
      apply (call_on_setup_Ret _ _ _ _ _ (set_bootstrap_connection b (Some c))) in Hcall
        as (Hlog5 & Hbs5 & _); [|by rewrite Hbs4].
      apply bind_Ret in H as (b5 & w6 & [-> Hb5]%get_bootstrap_Ret & H).
      apply put_bootstrap_Ret in H as [Hlog6 Hb6].
      rewrite Hbs5, Hbs4, Hb2 in Hb5. injection Hb5 as <-.
      split; [|done]. rewrite Hlog6, Hlog5, Hlog4, Hlog2, Hlog1. done.
    + left.
      apply bind_Ret in H as (err & w3 & [= _ <-] & H).
      injection H as <-. split; [|done].
      rewrite <- Hlog1, <- Hlog2. unfold callback_log; simpl.
      rewrite callbacks_of_app. apply app_nil_r.
  - left. symmetry in Hcontract. apply bool_decide_eq_true in Hcontract as ->.
    split; [done|]. split; [done|].
    apply bind_Ret in H as ([] & w1 & Hcall & H).
    apply (call_on_setup_Ret _ _ _ _ _ b Hb) in Hcall as (Hlog1 & Hbs1 & _).
    apply bind_Ret in H as (b1 & w2 & [-> _]%get_bootstrap_Ret & H).
    apply aws_mem_release_Ret in H. by rewrite H.
Qed.

(** The shutdown callback: one callback, chosen by whether [on_setup] is
    still set, and none when setup succeeded and no [on_shutdown] was given. *)
Lemma s_client_bootstrap_on_channel_shutdown_Ret p error_code channel w w' b :
  client_bootstraps w !! p = Some b ->
  s_client_bootstrap_on_channel_shutdown error_code channel p w = Ret tt w' ->
  let ud := bootstrap_user_data b in
  callback_log w'
  = callback_log w ++
    match on_setup b, bootstrap_on_shutdown b with
    | Some _, _ => [EvOnSetup None (coerced error_code) ud]
    | None, Some _ => [EvOnShutdown (bootstrap_connection b) error_code ud]
    | None, None => []
    end.
Proof.
  intros Hb H ud. unfold s_client_bootstrap_on_channel_shutdown in H.
  destruct quiet_callback_log as (_ & Huser & _).
  apply bind_Ret in H as (b0 & w0 & [-> Hb0]%get_bootstrap_Ret & H).
  assert (b0 = b) as -> by congruence.
  apply bind_Ret in H as ([] & w1 & Hcb & H).
  apply bind_Ret in H as (b1 & w2 & [-> _]%get_bootstrap_Ret & H).
  apply aws_mem_release_Ret in H. rewrite H. clear H.
  destruct (on_setup b) as [f|] eqn:Hf.
  - by apply (call_on_setup_Ret _ _ _ _ _ b Hb) in Hcb as (-> & _).
  - destruct (bootstrap_on_shutdown b) as [g|].
    + apply bind_Ret in Hcb as ([] & w2 & [= <-] & Hcb).
      rewrite (preserves_Ret _ _ _ _ _ (Huser _) Hcb).
      unfold callback_log; simpl. by rewrite callbacks_of_app.
    + injection Hcb as <-. by rewrite app_nil_r.
Qed.

Lemma primitives_servers :
  (forall e, preserves servers (emit e)) /\
  (forall err, preserves servers (aws_raise_error err)) /\
  preserves servers aws_last_error /\
  (forall p, preserves servers (get_connection p)) /\
  (forall p c, preserves servers (put_connection p c)) /\
  (forall p, preserves servers (free_connection p)) /\
  (forall c, preserves servers (new_connection c)).
Proof.
  repeat split; try done; intros p w; unfold get_connection; by case_match.
Qed.

Lemma get_server_Ret p w s w' :
  get_server p w = Ret s w' -> w' = w /\ servers w !! p = Some s.
Proof. unfold get_server. destruct (servers w !! p); [|done]. by intros [= -> ->]. Qed.

Lemma call_on_incoming_connection_Ret p connection error_code w w' s :
  servers w !! p = Some s ->
  call_on_incoming_connection p connection error_code w = Ret tt w' ->
  callback_log w'
  = callback_log w ++ [EvOnIncomingConnection p connection error_code (server_user_data s)].
Proof.
  intros Hs H. unfold call_on_incoming_connection in H.
  apply bind_Ret in H as (s0 & w0 & [-> Hs0]%get_server_Ret & H).
  assert (s0 = s) as -> by congruence.
  apply bind_Ret in H as ([] & w1 & [= <-] & H).
  destruct quiet_callback_log as (_ & Hlog & _).
  rewrite (preserves_Ret _ _ _ _ _ (Hlog _) H).
  unfold callback_log; simpl. by rewrite callbacks_of_app.
Qed.

Lemma load_is_shutting_down_Ret p w flag w' :
  load_is_shutting_down p w = Ret flag w' ->
  exists s, servers w !! p = Some s /\ flag = is_shutting_down s /\
            w' = add_events w [EvSyncedData p LoadIsShuttingDown].
Proof.
  intros H. unfold load_is_shutting_down in H.
  apply bind_Ret in H as ([] & w1 & [= <-] & H).
  apply bind_Ret in H as (s & w2 & [-> Hs]%get_server_Ret & H). injection H as <- <-.
  by exists s.
Qed.

Lemma accept_critical_Ret p channel c error_code w w' r s :
  servers w !! p = Some s ->
  s_server_bootstrap_on_accept_channel_setup_critical p channel c error_code w = Ret r w' ->
  callback_log w' = callback_log w /\
  exists s', servers w' !! p = Some s' /\ server_user_data s' = server_user_data s.
Proof.
  intros Hs H. unfold s_server_bootstrap_on_accept_channel_setup_critical in H.
  apply bind_Ret in H as ([] & w1 & [= <-] & H).
  apply bind_Ret in H as (flag & w0 & (s0 & Hs0 & -> & ->)%load_is_shutting_down_Ret & H).
  simpl in Hs0. assert (s0 = s) as -> by congruence.
  apply bind_Ret in H as (put_err & w2 & Hput & H).
  apply bind_Ret in H as ([] & w3 & [= <-] & H). injection H as _ <-.
  assert (Hw2 : callback_log w2 = callback_log w /\
                exists s', servers w2 !! p = Some s' /\
                           server_user_data s' = server_user_data s).
  { destruct (_ =? 0) in Hput.
    - unfold aws_hash_table_put in Hput.
      apply bind_Ret in Hput as ([] & w4 & [= <-] & Hput).
      destruct (hash_table_put_error channel).
      + injection Hput as _ <-. unfold callback_log; simpl.
        rewrite !callbacks_of_app, !app_nil_r. split; [done|]. by exists s.
      + apply bind_Ret in Hput as (s1 & w5 & [-> Hs1]%get_server_Ret & Hput).
        apply bind_Ret in Hput as ([] & w6 & [= <-] & Hput). injection Hput as _ <-.
        unfold callback_log; simpl. rewrite !callbacks_of_app, !app_nil_r. split; [done|].
        eexists. rewrite lookup_insert_eq. split; [done|]. simpl in Hs1. simpl. congruence.
    - injection Hput as _ <-. unfold callback_log; simpl.
      rewrite !callbacks_of_app, !app_nil_r. split; [done|]. by exists s. }
  destruct Hw2 as [Hlog Hsrv]. split; [|exact Hsrv].
  unfold callback_log in *; simpl. by rewrite callbacks_of_app, app_nil_r.
Qed.

(** Runs complete: unless version 2 was negotiated, the factory returns,
    and the connection it returns is on the heap. *)
Lemma s_connection_new_returns alloc ch is_server tls window w :
  determine_http_version tls (adj_left ch) <> Some AWS_HTTP_VERSION_2 ->
  exists r w',
    s_connection_new alloc ch is_server tls window w = Ret r w' /\
    client_bootstraps w' = client_bootstraps w /\
    forall c, r = Some c -> is_Some (connections w' !! c).
Proof.
  intros Hv. unfold s_connection_new.
  destruct (slot_new_error ch); [by eexists _, _|].
  destruct (slot_insert_end_error ch); [by eexists _, _|].
  erewrite bind_eq by reflexivity.
  destruct (determine_http_version tls (adj_left ch)) as [[| | |]|];
    [by eexists _, _|by eexists _, _| |done|by eexists _, _].
  unfold aws_http_connection_new_http1_1.
  destruct (engine_new_error ch); [by eexists _, _|].
  erewrite bind_eq by reflexivity.
  destruct (slot_set_handler_error ch);
    [destruct (slot_handler_after_error ch); by eexists _, _|].
  erewrite bind_eq by reflexivity.
  erewrite bind_eq
    by (unfold get_connection; cbn [connections]; by rewrite lookup_insert_eq).
  eexists _, _. split; [reflexivity|]. split; [done|].
  intros c [= <-]. cbn [connections]. rewrite lookup_insert_eq. by eexists.
Qed.

Lemma call_on_setup_idle p connection error_code w b :
  client_bootstraps w !! p = Some b -> on_setup b = Some idle_callback ->
  call_on_setup p connection error_code w
  = Ret tt (add_events w [EvOnSetup connection error_code (bootstrap_user_data b)]).
Proof.
  intros Hb Hf. unfold call_on_setup, mbind, M_bind, get_bootstrap. by rewrite Hb, Hf.
Qed.

Lemma get_bootstrap_eq p w b :
  client_bootstraps w !! p = Some b -> get_bootstrap p w = Ret b w.
Proof. intros Hb. unfold get_bootstrap. by rewrite Hb. Qed.

(** The setup callback returns when its [on_setup] makes no calls, and
    leaves the record in place when there was a channel. *)
Lemma s_client_bootstrap_on_channel_setup_returns p error_code channel w b :
  client_bootstraps w !! p = Some b ->
  on_setup b = Some idle_callback ->
  (error_code <> 0 <-> channel = None) ->
  (forall ch, channel = Some ch ->
     determine_http_version (bootstrap_is_using_tls b) (adj_left ch)
     <> Some AWS_HTTP_VERSION_2) ->
  exists w',
    s_client_bootstrap_on_channel_setup error_code channel p w = Ret tt w' /\
    (channel <> None ->
     exists b', client_bootstraps w' !! p = Some b' /\
                (on_setup b' = None \/ on_setup b' = Some idle_callback) /\
                bootstrap_on_shutdown b' = bootstrap_on_shutdown b).
Proof.
  intros Hb Hf Hcontract Hv. unfold s_client_bootstrap_on_channel_setup.
  erewrite bind_eq by (by apply get_bootstrap_eq).
  destruct channel as [ch|].
  - assert (error_code = 0) as ->
      by (destruct (decide (error_code = 0)) as [|Hne]; [done|]; by apply Hcontract in Hne).
    cbn [Z.eqb negb]. rewrite bool_decide_eq_false_2 by done.
    erewrite bind_eq by reflexivity. cbn [negb].
    destruct (s_connection_new_returns (bootstrap_alloc b) ch false (bootstrap_is_using_tls b)
                (bootstrap_initial_window_size b) w (Hv ch eq_refl))
      as (r & w1 & Hnew & Hbs1 & Hconn).
    erewrite bind_eq by exact Hnew. rewrite <- Hbs1 in Hb.
    erewrite bind_eq by (by apply get_bootstrap_eq).
    erewrite bind_eq by reflexivity.
    destruct r as [c|].
    + destruct (Hconn c eq_refl) as [conn Hc].
      erewrite bind_eq by (unfold get_connection; cbn [connections]; by rewrite Hc).
      erewrite bind_eq by reflexivity.
      erewrite bind_eq
        by (apply call_on_setup_idle; [apply lookup_insert_eq|exact Hf]).
      erewrite bind_eq by (apply get_bootstrap_eq; apply lookup_insert_eq).
      eexists. split; [reflexivity|]. intros _. eexists.
      split; [apply lookup_insert_eq|]. split; [by left|done].
    + erewrite bind_eq by reflexivity.
      eexists. split; [reflexivity|]. intros _. eexists.
      split; [apply lookup_insert_eq|]. split; [by right|done].
  - assert (error_code <> 0) as Hne by (by apply Hcontract).
    destruct (Z.eqb_spec error_code 0) as [|_]; [done|].
    cbn [negb]. rewrite bool_decide_eq_true_2 by done.
    erewrite bind_eq by reflexivity.
    erewrite bind_eq by (by apply call_on_setup_idle).
    erewrite bind_eq by (by apply get_bootstrap_eq).
    eexists. split; [reflexivity|done].
Qed.

Lemma s_client_bootstrap_on_channel_shutdown_returns p error_code ch w b :
  client_bootstraps w !! p = Some b ->
  on_setup b = None \/ on_setup b = Some idle_callback ->
  bootstrap_on_shutdown b = None \/ bootstrap_on_shutdown b = Some idle_callback ->
  exists w', s_client_bootstrap_on_channel_shutdown error_code ch p w = Ret tt w'.
Proof.
  intros Hb Hf Hshut. unfold s_client_bootstrap_on_channel_shutdown.
  erewrite bind_eq by (by apply get_bootstrap_eq).
  destruct Hf as [Hf | Hf]; rewrite Hf.
  - destruct Hshut as [-> | ->].
    + erewrite bind_eq by reflexivity.
      erewrite bind_eq by (by apply get_bootstrap_eq). by eexists.
    + erewrite bind_eq by reflexivity.
      erewrite bind_eq by (by apply get_bootstrap_eq). by eexists.
  - erewrite bind_eq by (by apply call_on_setup_idle).
    erewrite bind_eq by (by apply get_bootstrap_eq). by eexists.
Qed.

(** An attempt whose callbacks make no calls returns, whatever the channel
    runtime answers, unless version 2 was negotiated. *)
Lemma client_connect_attempt_returns p error_code channel shutdown_error_code w b :
  client_bootstraps w !! p = Some b ->
  on_setup b = Some idle_callback ->
  bootstrap_on_shutdown b = None \/ bootstrap_on_shutdown b = Some idle_callback ->
  (error_code <> 0 <-> channel = None) ->
  (forall ch, channel = Some ch ->
     determine_http_version (bootstrap_is_using_tls b) (adj_left ch)
     <> Some AWS_HTTP_VERSION_2) ->
  exists w', client_connect_attempt p error_code channel [] shutdown_error_code w = Ret tt w'.
Proof.
  intros Hb Hf Hshut Hcontract Hv. unfold client_connect_attempt.
  destruct (s_client_bootstrap_on_channel_setup_returns p error_code channel w b
              Hb Hf Hcontract Hv) as (w1 & Hsetup & Hrec).
  erewrite bind_eq by exact Hsetup.
  destruct channel as [ch|]; [|by eexists].
  destruct Hrec as (b' & Hb' & Hf' & Hshut'); [done|].
  erewrite bind_eq by reflexivity.
  apply (s_client_bootstrap_on_channel_shutdown_returns p _ ch w1 b' Hb' Hf').
  by rewrite Hshut'.
Qed.

End Client.
End ClientFacts.

(** * Properties of the specification: string utilities *)

Section StrutilProperties.
Import StrutilFacts TrimFacts.
Context {common : aws_common_error}.

(** C2 (defect).  The claim: a digit string whose value exceeds 2^64 - 1
    is refused with overflow-detected, never answered with a wrapped value.
    The code's test after the multiplication, [val < prev_val], misses
    wrap-arounds: "30000000000000000000" (3 * 10^19) is accepted in base 10
    and "1FFFFFFFFFFFFFFF0" in base 16, each with the value reduced modulo
    2^64. *)
Theorem read_unsigned_overflow_undetected :
  (forallb (is_digit_of 10) (bytes_of "30000000000000000000") = true /\
   numeric_value 10 (bytes_of "30000000000000000000") = 3 * 10 ^ 19 /\
   3 * 10 ^ 19 > UINT64_MAX /\
   aws_strutil_read_unsigned_num (bytes_of "30000000000000000000")
     (cursor_of (bytes_of "30000000000000000000"))
   = (OpSuccess, wrap64 (3 * 10 ^ 19))) /\
  (forallb (is_digit_of 16) (bytes_of "1FFFFFFFFFFFFFFF0") = true /\
   numeric_value 16 (bytes_of "1FFFFFFFFFFFFFFF0") = 0x1FFFFFFFFFFFFFFF0 /\
   0x1FFFFFFFFFFFFFFF0 > UINT64_MAX /\
   aws_strutil_read_unsigned_hex (bytes_of "1FFFFFFFFFFFFFFF0")
     (cursor_of (bytes_of "1FFFFFFFFFFFFFFF0"))
   = (OpSuccess, wrap64 0x1FFFFFFFFFFFFFFF0)).
Proof. repeat split; vm_compute; reflexivity. Qed.

(** C3 (as amended).  For base 10 ([aws_strutil_read_unsigned_num]) and
    base 16 ([aws_strutil_read_unsigned_hex]): a non-empty string of digits
    of the base whose value is at most 2^64 - 1 is read to exactly that
    value, letters of either case being hex digits; the empty string fails
    with invalid-argument; a string with a character outside the digit set
    fails, with invalid-argument when the digits before the first such
    character are worth at most 2^64 - 1. *)
Theorem read_unsigned_digits mem cursor base :
  base = 10 \/ base = 16 ->
  (cursor_bytes mem cursor <> [] ->
   forallb (is_digit_of base) (cursor_bytes mem cursor) = true ->
   numeric_value base (cursor_bytes mem cursor) <= UINT64_MAX ->
   s_read_unsigned mem cursor base = (OpSuccess, numeric_value base (cursor_bytes mem cursor)))
  /\ (cursor_bytes mem cursor = [] ->
      s_read_unsigned mem cursor base = (OpErr AWS_ERROR_INVALID_ARGUMENT, 0))
  /\ (forall pre c post,
        cursor_bytes mem cursor = pre ++ c :: post ->
        forallb (is_digit_of base) pre = true -> is_digit_of base c = false ->
        read_failed (s_read_unsigned mem cursor base) /\
        (numeric_value base pre <= UINT64_MAX ->
         s_read_unsigned mem cursor base = (OpErr AWS_ERROR_INVALID_ARGUMENT, 0)))
  /\ aws_strutil_read_unsigned_hex (bytes_of "deadBEEF") (cursor_of (bytes_of "deadBEEF"))
     = (OpSuccess, 0xDEADBEEF).
Proof.
  intros Hb.
  assert (Hrun : cursor_bytes mem cursor <> [] ->
                 s_read_unsigned mem cursor base
                 = read_digits base (cursor_bytes mem cursor) 0).
  { rewrite s_read_unsigned_bytes. by destruct (cursor_bytes mem cursor). }
  split; [|split; [|split]].
  - intros Hne Hd Hmax. rewrite (Hrun Hne). by apply read_digits_value.
  - intros Hs. rewrite s_read_unsigned_bytes. by rewrite Hs.
  - intros pre c post Hs Hpre Hc.
    rewrite Hrun by (rewrite Hs; by destruct pre). rewrite Hs. split.
    + by apply read_digits_invalid.
    + intros Hmax. by apply read_digits_invalid_first.
  - vm_compute. reflexivity.
Qed.

(** C4.  [trim_http_whitespace] returns a view inside its input; what it
    leaves out are a leading and a trailing run of SP and HT bytes, and what
    it keeps neither starts nor ends with SP or HT; trimming the result
    again returns the same view. *)
Theorem trim_http_whitespace_idempotent mem cursor :
  let r := aws_strutil_trim_http_whitespace mem cursor in
  ((ptr cursor <= ptr r)%nat /\ (ptr r + len r <= ptr cursor + len cursor)%nat) /\
  (exists pre post,
     cursor_bytes mem cursor = pre ++ cursor_bytes mem r ++ post /\
     forallb is_http_whitespace pre = true /\ forallb is_http_whitespace post = true) /\
  (forall c, head (cursor_bytes mem r) = Some c \/ last (cursor_bytes mem r) = Some c ->
             is_http_whitespace c = false) /\
  aws_strutil_trim_http_whitespace mem r = r.
Proof.
  intros r. unfold aws_strutil_trim_http_whitespace in *.
  split; [apply s_trim_bounds|]. split; [|split].
  - destruct (s_trim_split mem s_http_whitespace_table cursor) as (pre & post & Heq & Hpre & Hpost).
    exists pre, post. split; [exact Heq|].
    split; apply forallb_forall; intros c Hc; apply list_elem_of_In in Hc;
      rewrite <- s_http_whitespace_table_spec.
    + by apply (proj1 (Forall_forall _ _) Hpre).
    + by apply (proj1 (Forall_forall _ _) Hpost).
  - intros c Hc. rewrite <- s_http_whitespace_table_spec.
    assert (Hends : len r = 0%nat \/
              (table_lookup s_http_whitespace_table false (cursor_at mem r 0) = false /\
               table_lookup s_http_whitespace_table false (cursor_at mem r (len r - 1))
               = false))
      by apply s_trim_ends.
    clearbody r. unfold cursor_bytes in Hc. destruct Hends as [Hz | [Hfirst Hlast]].
    + rewrite Hz in Hc. simpl in Hc. by destruct Hc.
    + destruct Hc as [Hc | Hc].
      * destruct (len r); [done|]. simpl in Hc. by injection Hc as <-.
      * rewrite last_lookup, length_map, length_seq, list_lookup_fmap in Hc.
        destruct (seq 0 (len r) !! Nat.pred (len r)) as [k|] eqn:Hk; [|done].
        apply lookup_seq in Hk as [-> _]. injection Hc as <-.
        replace (len r - 1)%nat with (Nat.pred (len r)) in Hlast by lia. exact Hlast.
  - apply s_trim_idempotent.
Qed.

End StrutilProperties.

(** C3: [read_unsigned_digits] on "deadBEEF" in base 16, on the empty
    string, and on "12x" in base 10. *)
Lemma read_unsigned_digits_witness :
  @s_read_unsigned example_codes (bytes_of "deadBEEF") (cursor_of (bytes_of "deadBEEF")) 16
  = (OpSuccess, numeric_value 16 (bytes_of "deadBEEF"))
  /\ @s_read_unsigned example_codes [] (cursor_of []) 16 = (OpErr 33, 0)
  /\ @s_read_unsigned example_codes (bytes_of "12x") (cursor_of (bytes_of "12x")) 10
     = (OpErr 33, 0).
Proof.
  split; [|split].
  - refine (proj1 (@read_unsigned_digits example_codes (bytes_of "deadBEEF")
                     (cursor_of (bytes_of "deadBEEF")) 16 (or_intror eq_refl)) _ _ _).
    + discriminate.
    + reflexivity.
    + vm_compute. discriminate.
  - refine (proj1 (proj2 (@read_unsigned_digits example_codes [] (cursor_of []) 16
                            (or_intror eq_refl))) _).
    reflexivity.
  - refine (proj2 (proj1 (proj2 (proj2
              (@read_unsigned_digits example_codes (bytes_of "12x")
                 (cursor_of (bytes_of "12x")) 10 (or_introl eq_refl))))
              (bytes_of "12") "x"%byte [] _ _ _) _).
    + reflexivity.
    + reflexivity.
    + reflexivity.
    + vm_compute. discriminate.
Defined.

(** C3, as first stated, fails: "18446744073709551616x" holds a character
    outside the decimal digits, and the read fails with overflow-detected,
    raised at the digit before it, not with invalid-argument. *)
Lemma read_unsigned_invalid_after_overflow :
  existsb (fun c => negb (is_digit_of 10 c)) (bytes_of "18446744073709551616x") = true /\
  @aws_strutil_read_unsigned_num example_codes (bytes_of "18446744073709551616x")
    (cursor_of (bytes_of "18446744073709551616x"))
  = (OpErr (@AWS_ERROR_OVERFLOW_DETECTED example_codes), 0) /\
  @AWS_ERROR_OVERFLOW_DETECTED example_codes <> @AWS_ERROR_INVALID_ARGUMENT example_codes.
Proof. split; [|split]; vm_compute; [reflexivity|reflexivity|discriminate]. Qed.

(** C4: [trim_http_whitespace_idempotent] on the bytes SP HT a b SP HT SP:
    the first kept byte is no whitespace, and trimming twice is trimming
    once. *)
Lemma trim_http_whitespace_idempotent_witness :
  is_http_whitespace "a" = false /\
  aws_strutil_trim_http_whitespace [x20; x09; "a"; "b"; x20; x09; x20]%byte
    (aws_strutil_trim_http_whitespace [x20; x09; "a"; "b"; x20; x09; x20]%byte
       (cursor_of [x20; x09; "a"; "b"; x20; x09; x20]%byte))
  = aws_strutil_trim_http_whitespace [x20; x09; "a"; "b"; x20; x09; x20]%byte
      (cursor_of [x20; x09; "a"; "b"; x20; x09; x20]%byte).
Proof.
  split.
  - apply (proj1 (proj2 (proj2
             (trim_http_whitespace_idempotent [x20; x09; "a"; "b"; x20; x09; x20]%byte
                (cursor_of [x20; x09; "a"; "b"; x20; x09; x20]%byte))))).
    left. reflexivity.
  - apply (proj2 (proj2 (proj2
             (trim_http_whitespace_idempotent [x20; x09; "a"; "b"; x20; x09; x20]%byte
                (cursor_of [x20; x09; "a"; "b"; x20; x09; x20]%byte))))).
Defined.

(** Scenario 7 of the specification. *)
Example trim_http_whitespace_scenario :
  cursor_bytes [x20; x09; "a"; "b"; x20; x09; x20]%byte
    (aws_strutil_trim_http_whitespace [x20; x09; "a"; "b"; x20; x09; x20]%byte
       (cursor_of [x20; x09; "a"; "b"; x20; x09; x20]%byte))
  = bytes_of "ab".
Proof. reflexivity. Qed.

(** * Properties of the specification: connection lifecycle *)

Section LifecycleProperties.
Import ConnectionFacts LifecycleFacts ClientFacts.
Context {common : aws_common_error}.

(** C1 (as amended).  A client connect attempt whose record carries an
    [on_setup] callback, as [client_connect] requires, and whose callbacks
    run to their end (no fatal assertion fires) invokes [on_setup] exactly
    once: with no connection and a non-zero code, or with a connection and
    code 0.  After a successful setup, and only then, [on_shutdown] is
    invoked, once and after [on_setup], provided an [on_shutdown] callback
    was supplied; without one nothing more is invoked.  When setup fails
    after a channel existed, the code [on_setup] receives is the shutdown
    code with zero replaced by the unknown error. *)
Theorem client_connect_attempt_callbacks p error_code channel between shutdown_error_code w w' b f :
  client_bootstraps w !! p = Some b -> on_setup b = Some f ->
  client_connect_attempt p error_code channel between shutdown_error_code w = Ret tt w' ->
  let ud := bootstrap_user_data b in
  (exists err, err <> 0 /\
     callback_log w' = callback_log w ++ [EvOnSetup None err ud] /\
     (channel = None -> err = error_code) /\
     (channel <> None -> err = coerced shutdown_error_code))
  \/ (exists c, channel <> None /\ error_code = 0 /\
        callback_log w'
        = callback_log w ++
          EvOnSetup (Some c) 0 ud ::
          match bootstrap_on_shutdown b with
          | Some _ => [EvOnShutdown (Some c) shutdown_error_code ud]
          | None => []
          end).
Proof.
  intros Hb Hf H ud. unfold client_connect_attempt in H.
  destruct quiet_callback_log as (_ & Huser_log & _).
  destruct quiet_client_bootstraps as (_ & Huser_bs).
  apply bind_Ret in H as ([] & w1 & Hsetup & H).
  apply (s_client_bootstrap_on_channel_setup_Ret _ _ _ _ _ b Hb) in Hsetup
    as [(Hne & -> & Hlog1) | (-> & Hch & Hsetup)].
  - injection H as <-. left. exists error_code. by repeat split.
  - destruct channel as [ch|]; [|done].
    apply bind_Ret in H as ([] & w2 & Hbetween & H).
    pose proof (preserves_Ret _ _ _ _ _ (Huser_log _) Hbetween) as Hlog2.
    pose proof (preserves_Ret _ _ _ _ _ (Huser_bs _) Hbetween) as Hbs2.
    destruct Hsetup as [[Hlog1 Hb1] | (c & Hlog1 & Hb1)]; rewrite <- Hbs2 in Hb1;
      apply (s_client_bootstrap_on_channel_shutdown_Ret _ _ _ _ _ _ Hb1) in H;
      simpl in H; rewrite Hlog2, Hlog1 in H.
    + rewrite Hf in H. left. exists (coerced shutdown_error_code).
      split; [apply coerced_nonzero|]. by repeat split.
    + right. exists c. split; [done|]. split; [done|].
      rewrite H, <- app_assoc. by destruct (bootstrap_on_shutdown b).
Qed.

(** C5.  Version determination: without TLS the version is 1.1 whatever
    sits in the channel; with TLS the negotiated protocol "h2" gives
    version 2 and every other protocol gives 1.1, among them "http/1.1",
    the other non-empty strings, and the empty selection. *)
Theorem determine_http_version_alpn :
  (forall left, determine_http_version false left = Some AWS_HTTP_VERSION_1_1) /\
  (forall protocol,
     determine_http_version true (Some (Some protocol))
     = Some (if bool_decide (protocol = bytes_of "h2")
             then AWS_HTTP_VERSION_2 else AWS_HTTP_VERSION_1_1)) /\
  determine_http_version true (Some (Some (bytes_of "http/1.1")))
  = Some AWS_HTTP_VERSION_1_1 /\
  determine_http_version true (Some (Some (bytes_of "h2"))) = Some AWS_HTTP_VERSION_2 /\
  determine_http_version true (Some (Some [])) = Some AWS_HTTP_VERSION_1_1.
Proof.
  split; [done|]. split; [|done].
  intros protocol. unfold determine_http_version.
  destruct protocol as [|c protocol]; [done|]. cbn [length Nat.eqb negb].
  destruct (aws_string_eq_byte_buf s_alpn_protocol_http_1_1 (c :: protocol)) eqn:H11.
  - apply aws_string_eq_byte_buf_spec in H11 as <-. done.
  - destruct (aws_string_eq_byte_buf s_alpn_protocol_http_2 (c :: protocol)) eqn:H2.
    + apply aws_string_eq_byte_buf_spec in H2 as <-. done.
    + case_bool_decide as Heq; [|done].
      rewrite Heq in H2. by vm_compute in H2.
Qed.

(** C6.  [release] decrements the reference count.  When the count it
    found was 1 it requests channel shutdown with the success code and
    releases the hold on the channel, once each and in that order; when the
    count was greater than 1 only the count changes; and the channel is
    left alone whenever the count found was not 1. *)
Theorem aws_http_connection_release_last_only w c conn :
  connections w !! c = Some conn ->
  (refcount conn = 1 -> forall channel, channel_slot conn = Some channel ->
   aws_http_connection_release c w
   = Ret tt (add_events (with_connection w c (set_refcount conn 0))
               [EvChannelShutdown channel AWS_ERROR_SUCCESS; EvChannelReleaseHold channel]))
  /\ (1 < refcount conn <= SIZE_MAX ->
      aws_http_connection_release c w
      = Ret tt (with_connection w c (set_refcount conn (refcount conn - 1))))
  /\ (refcount conn <> 1 -> trace (outcome_world (aws_http_connection_release c w)) = trace w).
Proof.
  intros Hc. split; [|split].
  - intros Hr channel Hs. by apply release_last.
  - intros Hr. rewrite (release_not_last w c conn Hc) by lia.
    unfold wrap_size, SIZE_MAX in *. by rewrite Z.mod_small by lia.
  - intros Hr. by rewrite (release_not_last w c conn Hc).
Qed.

(** C7.  [configure_server] raises invalid-argument when the connection,
    the options or the options' [on_incoming_request] is missing; with all
    three present it raises invalid-state on a connection without server
    data and on one whose [on_incoming_request] is already set; otherwise
    it installs [on_incoming_request] and [on_shutdown] and returns
    success.  A failing call changes nothing but the last error. *)
Theorem configure_server_outcomes w connection options :
  ((connection = None \/ options = None \/
    (exists opts, options = Some opts /\ opt_on_incoming_request opts = None)) ->
   aws_http_connection_configure_server connection options w
   = Ret AWS_OP_ERR (with_last_error w AWS_ERROR_INVALID_ARGUMENT))
  /\ (forall p opts incoming conn,
        connection = Some p -> options = Some opts ->
        opt_on_incoming_request opts = Some incoming -> connections w !! p = Some conn ->
        (server_data conn = None ->
         aws_http_connection_configure_server connection options w
         = Ret AWS_OP_ERR (with_last_error w AWS_ERROR_INVALID_STATE))
        /\ (forall sd, server_data conn = Some sd -> on_incoming_request sd <> None ->
            aws_http_connection_configure_server connection options w
            = Ret AWS_OP_ERR (with_last_error w AWS_ERROR_INVALID_STATE))
        /\ (forall sd, server_data conn = Some sd -> on_incoming_request sd = None ->
            aws_http_connection_configure_server connection options w
            = Ret AWS_OP_SUCCESS (with_connection w p (configured_with conn opts))
            /\ server_data (configured_with conn opts)
               = Some {| on_incoming_request := Some incoming;
                         on_shutdown := opt_on_shutdown opts |})).
Proof.
  split; [apply configure_server_missing|].
  intros p opts incoming conn -> -> Ho Hc.
  rewrite (configure_server_present w p opts incoming conn Ho Hc).
  split; [by intros ->|]. split.
  - intros sd -> Hset. by destruct (on_incoming_request sd).
  - intros sd -> ->. split; [done|]. unfold configured_with; simpl. by rewrite Ho.
Qed.

(** C8.  In the accept-setup callback, once the factory has built the
    connection [c] and the registry has taken it, if
    [on_incoming_connection(c, 0)] returns in a world where the connection's
    [on_incoming_request] is still unset, the callback goes on to raise
    reaction-required, to shut the channel down with that code and to
    release the connection, and that is all it does; of user callbacks it
    has invoked [on_incoming_connection], once. *)
Theorem accept_setup_unconfigured p s ch c w w1 w2 w3 conn sd :
  servers w !! p = Some s ->
  s_connection_new (server_alloc s) ch true (server_is_using_tls s)
    (server_initial_window_size s) w = Ret (Some c) w1 ->
  s_server_bootstrap_on_accept_channel_setup_critical p ch c 0 w1 = Ret (0, 0) w2 ->
  call_on_incoming_connection p (Some c) AWS_ERROR_SUCCESS w2 = Ret tt w3 ->
  connections w3 !! c = Some conn -> server_data conn = Some sd ->
  on_incoming_request sd = None ->
  let w4 := add_events (with_last_error w3 AWS_ERROR_HTTP_REACTION_REQUIRED)
              [EvChannelShutdown (channel_id ch) AWS_ERROR_HTTP_REACTION_REQUIRED] in
  s_server_bootstrap_on_accept_channel_setup 0 (Some ch) p w
  = aws_http_connection_release c w4
  /\ callback_log (outcome_world (aws_http_connection_release c w4))
     = callback_log w ++ [EvOnIncomingConnection p (Some c) 0 (server_user_data s)].
Proof.
  intros Hs Hnew Hcrit Hcall Hc Hsd Hreq w4. split.
  - unfold s_server_bootstrap_on_accept_channel_setup.
    assert (Hget : get_server p w = Ret s w) by (unfold get_server; by rewrite Hs).
    rewrite (bind_eq _ _ _ _ _ Hget). simpl.
    rewrite (bind_eq _ _ _ _ _ Hnew), (bind_eq _ _ _ _ _ Hcrit). simpl.
    rewrite (bind_eq _ _ _ _ _ Hcall).
    assert (Hgetc : get_connection c w3 = Ret conn w3)
      by (unfold get_connection; by rewrite Hc).
    rewrite (bind_eq _ _ _ _ _ Hgetc), Hsd, Hreq. reflexivity.
  - destruct quiet_callback_log as (Hnew_log & _ & Hrel).
    rewrite (Hrel c w4).
    pose proof (preserves_Ret _ _ _ _ _ (Hnew_log _ _ _ _ _) Hnew) as Hlog1.
    destruct primitives_servers as (? & ? & ? & ? & ? & ? & ?).
    assert (Hs1 : servers w1 = servers w).
    { eapply preserves_Ret; [|exact Hnew]. apply preserves_s_connection_new; auto. }
    rewrite <- Hs1 in Hs.
    destruct (accept_critical_Ret _ _ _ _ _ _ _ _ Hs Hcrit) as (Hlog2 & s' & Hs' & <-).
    apply (call_on_incoming_connection_Ret _ _ _ _ _ _ Hs') in Hcall.
    unfold w4, callback_log; simpl. rewrite callbacks_of_app; simpl. rewrite app_nil_r.
    fold (callback_log w3). by rewrite Hcall, Hlog2, Hlog1.
Qed.

(** C9 (as amended).  [server_release] on a server that is not shutting
    down takes the lock, reads [is_shutting_down], sets it, requests
    shutdown with connection-closed of every channel in the registry, once
    each, and only then drops the lock; after that it has the bootstrap
    destroy the listening socket.  On a server that is already shutting down
    it takes the lock, reads the flag and drops the lock, and does nothing
    else, so a second release adds nothing to the first.  Both runs keep the
    discipline of the lock.  On a null server it returns at once: it takes
    no lock and reads no flag. *)
Theorem aws_http_server_release_idempotent w p s :
  servers w !! p = Some s ->
  let channels := (map_to_list (channel_to_connection_map s)).*1 in
  let first_call :=
    EvMutexLock p :: EvSyncedData p LoadIsShuttingDown ::
    EvSyncedData p StoreIsShuttingDown :: EvSyncedData p HashIterBegin ::
    map (fun ch => EvChannelShutdown ch AWS_ERROR_HTTP_CONNECTION_CLOSED) channels ++
    [EvMutexUnlock p; EvDestroySocketListener (server_bootstrap s) (server_socket s)] in
  let later_call :=
    [EvMutexLock p; EvSyncedData p LoadIsShuttingDown; EvMutexUnlock p] in
  let released := add_events (with_server w p (set_is_shutting_down s)) first_call in
  (is_shutting_down s = false -> aws_http_server_release (Some p) w = Ret tt released)
  /\ (NoDup channels /\
      forall ch, ch ∈ channels <-> is_Some (channel_to_connection_map s !! ch))
  /\ (is_shutting_down s = true ->
      aws_http_server_release (Some p) w = Ret tt (add_events w later_call))
  /\ (is_shutting_down s = false ->
      (aws_http_server_release (Some p);; aws_http_server_release (Some p)) w
      = Ret tt (add_events released later_call))
  /\ lock_step [] first_call = Some [] /\ lock_step [] later_call = Some []
  /\ aws_http_server_release None w = Ret tt w.
Proof.
  intros Hs channels first_call later_call released.
  assert (Hfirst : is_shutting_down s = false ->
            aws_http_server_release (Some p) w = Ret tt released)
    by (intros Hflag; by apply server_release_first).
  split; [exact Hfirst|]. split; [|split; [|split; [|split; [|split]]]].
  - split; [apply NoDup_fst_map_to_list|].
    intros ch. unfold channels. rewrite list_elem_of_fmap. split.
    + intros ([ch' c] & -> & Hin). apply elem_of_map_to_list in Hin. by exists c.
    + intros [c Hc]. exists (ch, c). split; [done|]. by apply elem_of_map_to_list.
  - intros Hflag. by apply (server_release_later w p s).
  - intros Hflag. rewrite (bind_eq _ _ _ _ _ (Hfirst Hflag)).
    apply (server_release_later released p (set_is_shutting_down s)); [|done].
    unfold released; simpl. apply lookup_insert_eq.
  - unfold first_call. cbn [lock_step is_callback andb].
    rewrite bool_decide_eq_false_2 by apply not_elem_of_nil.
    rewrite !bool_decide_eq_true_2 by apply list_elem_of_here.
    rewrite lock_step_shutdowns. cbn [lock_step is_callback andb List.filter].
    rewrite bool_decide_eq_true_2 by apply list_elem_of_here.
    by rewrite Nat.eqb_refl.
  - unfold later_call. cbn [lock_step].
    rewrite bool_decide_eq_false_2 by apply not_elem_of_nil.
    rewrite !bool_decide_eq_true_2 by apply list_elem_of_here.
    cbn [List.filter]. by rewrite Nat.eqb_refl.
  - done.
Qed.


End LifecycleProperties.

(** * The properties on concrete worlds *)

(** C1: a plain attempt that sets up, then shuts down with code 7, with an
    [on_shutdown] callback supplied. *)
Lemma client_connect_attempt_callbacks_witness :
  exists c,
    callback_log
      (outcome_world
         (@client_connect_attempt example_codes 3%nat 0 (Some example_channel) [] 7
            (example_client_world false (Some idle_callback))))
    = [EvOnSetup (Some c) 0 99%nat; EvOnShutdown (Some c) 7 99%nat].
Proof.
  destruct (@client_connect_attempt_callbacks example_codes 3%nat 0 (Some example_channel)
              [] 7 (example_client_world false (Some idle_callback))
              (outcome_world
                 (@client_connect_attempt example_codes 3%nat 0 (Some example_channel) [] 7
                    (example_client_world false (Some idle_callback))))
              (example_bootstrap false (Some idle_callback)) idle_callback)
    as [(err & _ & Hlog & _) | (c & _ & _ & Hlog)].
  - reflexivity.
  - reflexivity.
  - vm_compute. reflexivity.
  - vm_compute in Hlog. discriminate Hlog.
  - exists c. exact Hlog.
Defined.

(** C1, as first stated, fails twice.  With no [on_shutdown] callback
    supplied, setup succeeds, the channel later shuts down with code 7, and
    nothing is invoked after [on_setup].  And when the TLS handler
    negotiated "h2", the factory's fatal assertion ends the process before
    any callback is invoked. *)
Lemma client_attempt_without_on_shutdown :
  (returned (@client_connect_attempt example_codes 3%nat 0 (Some example_channel) [] 7
               (example_client_world false None)) = true /\
   callback_log
     (outcome_world
        (@client_connect_attempt example_codes 3%nat 0 (Some example_channel) [] 7
           (example_client_world false None)))
   = [EvOnSetup (Some 0%nat) 0 99%nat]) /\
  (returned (@client_connect_attempt example_codes 3%nat 0 (Some (example_tls_channel "h2")) [] 7
               (example_client_world true (Some idle_callback))) = false /\
   callback_log
     (outcome_world
        (@client_connect_attempt example_codes 3%nat 0 (Some (example_tls_channel "h2")) [] 7
           (example_client_world true (Some idle_callback))))
   = []).
Proof. repeat split; vm_compute; reflexivity. Qed.

(** C6: the last release of a connection, and a release at count 2. *)
Lemma aws_http_connection_release_last_only_witness :
  aws_http_connection_release 0%nat (example_connection_world 1 false)
  = Ret tt (add_events
              (with_connection (example_connection_world 1 false) 0%nat
                 (set_refcount (example_connection 1 false) 0))
              [EvChannelShutdown 7%nat AWS_ERROR_SUCCESS; EvChannelReleaseHold 7%nat])
  /\ aws_http_connection_release 0%nat (example_connection_world 2 false)
     = Ret tt (with_connection (example_connection_world 2 false) 0%nat
                 (set_refcount (example_connection 2 false) 1)).
Proof.
  split.
  - refine (proj1 (aws_http_connection_release_last_only
                     (example_connection_world 1 false) 0%nat
                     (example_connection 1 false) _) _ 7%nat _); reflexivity.
  - refine (proj1 (proj2 (aws_http_connection_release_last_only
                     (example_connection_world 2 false) 0%nat
                     (example_connection 2 false) _)) _); [reflexivity|].
    vm_compute. split; [reflexivity|discriminate].
Defined.

(** C7: a null connection, a client connection, and an unconfigured server
    connection. *)
Lemma configure_server_outcomes_witness :
  @aws_http_connection_configure_server example_codes None (Some example_options)
    (example_connection_world 1 true)
  = Ret AWS_OP_ERR (with_last_error (example_connection_world 1 true) 33)
  /\ @aws_http_connection_configure_server example_codes (Some 0%nat) (Some example_options)
       (example_connection_world 1 false)
     = Ret AWS_OP_ERR (with_last_error (example_connection_world 1 false) 34)
  /\ @aws_http_connection_configure_server example_codes (Some 0%nat) (Some example_options)
       (example_connection_world 1 true)
     = Ret AWS_OP_SUCCESS
         (with_connection (example_connection_world 1 true) 0%nat
            (configured_with (example_connection 1 true) example_options)).
Proof.
  split; [|split].
  - refine (proj1 (@configure_server_outcomes example_codes
                     (example_connection_world 1 true) None (Some example_options)) _).
    left. reflexivity.
  - refine (proj1 (proj2 (@configure_server_outcomes example_codes
                     (example_connection_world 1 false) (Some 0%nat) (Some example_options))
                     0%nat example_options 100%nat (example_connection 1 false) _ _ _ _) _);
      reflexivity.
  - refine (proj1 (proj2 (proj2 (proj2 (@configure_server_outcomes example_codes
                     (example_connection_world 1 true) (Some 0%nat) (Some example_options))
                     0%nat example_options 100%nat (example_connection 1 true) _ _ _ _))
                     {| on_incoming_request := None; on_shutdown := None |} _ _));
      reflexivity.
Defined.

(** C8: the accept of that server, whose callback leaves the connection
    unconfigured. *)
Lemma accept_setup_unconfigured_witness :
  trace
    (outcome_world
       (@s_server_bootstrap_on_accept_channel_setup example_codes 0 (Some example_channel) 4%nat
          (example_server_world ∅)))
  = [EvChannelSlotInsertEnd 7%nat; EvChannelSlotSetHandler 7%nat 0%nat;
     EvChannelAcquireHold 7%nat; EvMutexLock 4%nat;
     EvSyncedData 4%nat LoadIsShuttingDown; EvSyncedData 4%nat (HashTablePut 7%nat 0%nat);
     EvMutexUnlock 4%nat;
     EvOnIncomingConnection 4%nat (Some 0%nat) 0 42%nat;
     EvChannelShutdown 7%nat AWS_ERROR_HTTP_REACTION_REQUIRED;
     EvChannelShutdown 7%nat AWS_ERROR_SUCCESS; EvChannelReleaseHold 7%nat].
Proof.
  rewrite (proj1 (@accept_setup_unconfigured example_codes 4%nat (example_server false ∅)
                    example_channel 0%nat (example_server_world ∅)
                    accepted_world_1 accepted_world_2 accepted_world_3
                    {| http_version := AWS_HTTP_VERSION_1_1; channel_slot := Some 7%nat;
                       proxy_request_transform := None; user_data := 0%nat; refcount := 1;
                       client_data := None;
                       server_data :=
                         Some {| on_incoming_request := None; on_shutdown := None |} |}
                    {| on_incoming_request := None; on_shutdown := None |}
                    ltac:(reflexivity) ltac:(vm_compute; reflexivity)
                    ltac:(vm_compute; reflexivity) ltac:(vm_compute; reflexivity)
                    ltac:(vm_compute; reflexivity) eq_refl eq_refl)).
  vm_compute. reflexivity.
Defined.

(** The other branch: a callback that configures the connection leaves
    the channel running. *)
Example accept_setup_configured :
  trace
    (outcome_world
       (@s_server_bootstrap_on_accept_channel_setup example_codes 0 (Some example_channel) 4%nat
          example_configuring_world))
  = [EvChannelSlotInsertEnd 7%nat; EvChannelSlotSetHandler 7%nat 0%nat;
     EvChannelAcquireHold 7%nat; EvMutexLock 4%nat;
     EvSyncedData 4%nat LoadIsShuttingDown; EvSyncedData 4%nat (HashTablePut 7%nat 0%nat);
     EvMutexUnlock 4%nat;
     EvOnIncomingConnection 4%nat (Some 0%nat) 0 42%nat].
Proof. vm_compute. reflexivity. Qed.

(** C9: the first release of a server with channels 7 and 8 in its
    registry. *)
Lemma aws_http_server_release_idempotent_witness :
  trace
    (outcome_world
       (aws_http_server_release (Some 4%nat)
          (example_server_world {[ 7%nat := 0%nat; 8%nat := 1%nat ]})))
  = EvMutexLock 4%nat :: EvSyncedData 4%nat LoadIsShuttingDown ::
    EvSyncedData 4%nat StoreIsShuttingDown :: EvSyncedData 4%nat HashIterBegin ::
    map (fun ch => EvChannelShutdown ch AWS_ERROR_HTTP_CONNECTION_CLOSED)
      (map_to_list ({[ 7%nat := 0%nat; 8%nat := 1%nat ]} : gmap nat conn_ptr)).*1 ++
    [EvMutexUnlock 4%nat; EvDestroySocketListener 2%nat 5%nat].
Proof.
  rewrite (proj1 (aws_http_server_release_idempotent
                    (example_server_world {[ 7%nat := 0%nat; 8%nat := 1%nat ]}) 4%nat
                    (example_server false {[ 7%nat := 0%nat; 8%nat := 1%nat ]})
                    ltac:(reflexivity)) eq_refl).
  reflexivity.
Defined.

(** C9, as first stated, fails for the null server: the call returns
    without having taken a lock or read a flag, in a world whose only
    server is not shutting down, so it has not observed [is_shutting_down]
    set. *)
Lemma aws_http_server_release_null_observes_nothing :
  returned (aws_http_server_release None (example_server_world ∅)) = true /\
  trace (outcome_world (aws_http_server_release None (example_server_world ∅))) = [] /\
  is_shutting_down <$>
    servers (outcome_world (aws_http_server_release None (example_server_world ∅))) !! 4%nat
  = Some false.
Proof. repeat split. Qed.


(** * Further properties: string utilities *)

Module StrutilMore.
Import StrutilFacts TrimFacts.

Lemma cursor_bytes_cursor_of (s : list byte) : cursor_bytes s (cursor_of s) = s.
Proof.
  unfold cursor_bytes, cursor_of, cursor_at, mem_read; simpl.
  apply nth_ext with (d := x00) (d' := x00).
  - by rewrite length_map, length_seq.
  - intros n Hn. rewrite length_map, length_seq in Hn.
    rewrite (nth_indep _ x00 (nth (0 + 0) s x00)) by (by rewrite length_map, length_seq).
    rewrite (map_nth (fun i => nth (0 + i) s x00)), seq_nth by done. done.
Qed.

Section More.
Context {common : aws_common_error}.

Lemma s_read_unsigned_cursor_of (s : list byte) base :
  s <> [] -> s_read_unsigned s (cursor_of s) base = read_digits base s 0.
Proof.
  intros Hs. rewrite s_read_unsigned_bytes, cursor_bytes_cursor_of. by destruct s.
Qed.

Lemma wrap64_idem_add x d : wrap64 (wrap64 x + d) = wrap64 (x + d).
Proof. unfold wrap64. by rewrite Zplus_mod_idemp_l. Qed.

Lemma digit_fold_wrap base s x :
  wrap64 (fold_left (digit_step base) s (wrap64 x))
  = wrap64 (fold_left (digit_step base) s x).
Proof.
  revert x. induction s as [|c s IH]; intros x; simpl.
  - unfold wrap64. by rewrite Zmod_mod.
  - rewrite <- (IH (digit_step base (wrap64 x) c)), <- (IH (digit_step base x c)).
    f_equal. f_equal. unfold digit_step, wrap64.
    rewrite <- (Zplus_mod_idemp_l (x mod 2 ^ 64 * base)), Zmult_mod_idemp_l.
    by rewrite Zplus_mod_idemp_l.
Qed.

(** A successful loop read digits only, and its value is the value of the
    digits reduced modulo 2^64. *)
Lemma read_digits_success base s val v :
  base = 10 \/ base = 16 ->
  read_digits base s val = (OpSuccess, v) ->
  forallb (is_digit_of base) s = true /\
  wrap64 v = wrap64 (fold_left (digit_step base) s val).
Proof.
  intros Hb. revert val. induction s as [|c s IH]; intros val H; simpl in *.
  - by injection H as ->.
  - rewrite (table_geb_base _ _ Hb) in H.
    destruct (is_digit_of base c) eqn:Hc; simpl in H; [|done].
    destruct (_ <? val) in H; [done|]. destruct (_ <? val) in H; [done|].
    apply IH in H as [Hs Hv]. split; [done|].
    rewrite Hv. destruct (digit_value_table base c Hb Hc) as [-> _].
    rewrite (digit_fold_wrap base s (wrap64 (val * base) + digit_value c)).
    rewrite <- (digit_fold_wrap base s (wrap64 (val * base) + digit_value c)).
    rewrite wrap64_idem_add. apply digit_fold_wrap.
Qed.

Lemma read_digits_range base s val v :
  0 <= val < 2 ^ 64 -> read_digits base s val = (OpSuccess, v) -> 0 <= v < 2 ^ 64.
Proof.
  revert val. induction s as [|c s IH]; intros val Hval H; simpl in *.
  - by injection H as <-.
  - repeat case_match; try done. eapply IH; [|exact H].
    unfold wrap64. by apply Z.mod_pos_bound.
Qed.

Lemma read_digits_shape base s val :
  (exists v, read_digits base s val = (OpSuccess, v)) \/ read_failed (read_digits base s val).
Proof.
  destruct (read_digits_app base s [] val) as [(v & Hv & _) | [Hf _]]; [left; by exists v|by right].
Qed.

(** X1.  Whatever [s_read_unsigned] returns in base 10 or 16: on success
    the input was a non-empty string of digits of the base and the stored
    value is the value of the digits reduced modulo 2^64; on failure the
    stored value is 0 and the error is invalid-argument or
    overflow-detected. *)
Theorem read_unsigned_result mem cursor base :
  base = 10 \/ base = 16 ->
  (forall v, s_read_unsigned mem cursor base = (OpSuccess, v) ->
     cursor_bytes mem cursor <> [] /\
     forallb (is_digit_of base) (cursor_bytes mem cursor) = true /\
     v = wrap64 (numeric_value base (cursor_bytes mem cursor)))
  /\ (forall e v, s_read_unsigned mem cursor base = (OpErr e, v) ->
        v = 0 /\ (e = AWS_ERROR_INVALID_ARGUMENT \/ e = AWS_ERROR_OVERFLOW_DETECTED)).
Proof.
  intros Hb. rewrite s_read_unsigned_bytes. split.
  - intros v H. destruct (cursor_bytes mem cursor) as [|c s] eqn:Hs; [done|].
    split; [done|]. destruct (read_digits_success base _ _ _ Hb H) as [Hd Hv].
    split; [done|]. change (wrap64 v = wrap64 (numeric_value base (c :: s))) in Hv.
    rewrite <- Hv. unfold wrap64. symmetry. apply Z.mod_small.
    by apply (read_digits_range base (c :: s) 0).
  - intros e v H. destruct (cursor_bytes mem cursor) as [|c s] eqn:Hs.
    + injection H as <- <-. auto.
    + destruct (read_digits_shape base (c :: s) 0) as [[v' Hv'] | [Hf | Hf]];
        rewrite H in *; [done|by injection Hf as -> ->; auto..].
Qed.

Lemma digit_value_lt base c :
  base = 10 \/ base = 16 -> is_digit_of base c = true -> 0 <= digit_value c < base.
Proof.
  intros Hb Hc. destruct (digit_value_table base c Hb Hc) as [Hv Hpos].
  pose proof (table_geb_base base c Hb) as Hge. rewrite Hc, Hv in Hge. simpl in Hge.
  rewrite Z.geb_leb in Hge. apply Z.leb_gt in Hge. lia.
Qed.

Lemma digit_fold_bound base s acc :
  base = 10 \/ base = 16 -> forallb (is_digit_of base) s = true -> 0 <= acc ->
  fold_left (digit_step base) s acc <= (acc + 1) * base ^ Z.of_nat (length s) - 1.
Proof.
  intros Hb. revert acc. induction s as [|c s IH]; intros acc Hs Hacc.
  - simpl. lia.
  - simpl in Hs. apply andb_true_iff in Hs as [Hc Hs].
    pose proof (digit_value_lt base c Hb Hc) as Hd.
    cbn [fold_left length]. rewrite Nat2Z.inj_succ, Z.pow_succ_r by lia.
    assert (0 <= base ^ Z.of_nat (length s)) by (apply Z.pow_nonneg; lia).
    specialize (IH (digit_step base acc c) Hs).
    unfold digit_step in *. nia.
Qed.

Lemma digit_fold_mono base s acc acc' :
  0 <= base -> acc <= acc' ->
  fold_left (digit_step base) s acc <= fold_left (digit_step base) s acc'.
Proof.
  intros Hb. revert acc acc'. induction s as [|c s IH]; intros acc acc' Hle; simpl; [done|].
  apply IH. unfold digit_step. nia.
Qed.

(** X2.  A non-empty string of at most 19 decimal digits, or of at most
    16 hex digits, is read to its exact value: it is too short to
    overflow. *)
Theorem read_unsigned_short mem cursor base :
  base = 10 \/ base = 16 ->
  cursor_bytes mem cursor <> [] ->
  forallb (is_digit_of base) (cursor_bytes mem cursor) = true ->
  (len cursor <= if (base =? 10)%Z then 19 else 16)%nat ->
  s_read_unsigned mem cursor base
  = (OpSuccess, numeric_value base (cursor_bytes mem cursor)).
Proof.
  intros Hb Hne Hd Hlen. rewrite s_read_unsigned_bytes.
  destruct (cursor_bytes mem cursor) as [|c s] eqn:Hs; [done|].
  apply read_digits_value; [done..|].
  pose proof (digit_fold_bound base (c :: s) 0 Hb Hd) as Hbound.
  assert (Hl : length (c :: s) = len cursor).
  { rewrite <- Hs. unfold cursor_bytes. by rewrite length_map, length_seq. }
  rewrite Hl in Hbound. unfold UINT64_MAX.
  assert (base ^ Z.of_nat (len cursor) <= 2 ^ 64); [|lia].
  destruct Hb as [-> | ->]; simpl in Hlen.
  - etrans; [apply (Z.pow_le_mono_r 10 _ 19); lia|done].
  - etrans; [apply (Z.pow_le_mono_r 16 _ 16); lia|done].
Qed.

Lemma read_digits_zero base rest :
  base = 10 \/ base = 16 -> read_digits base ("0"%byte :: rest) 0 = read_digits base rest 0.
Proof. by intros [-> | ->]. Qed.

(** X3.  Leading zeros do not change the outcome: any number of '0' bytes
    in front of a non-empty input gives the result of the input alone. *)
Theorem read_unsigned_leading_zeros (n : nat) (s : list byte) base :
  base = 10 \/ base = 16 -> s <> [] ->
  s_read_unsigned (replicate n "0"%byte ++ s) (cursor_of (replicate n "0"%byte ++ s)) base
  = s_read_unsigned s (cursor_of s) base.
Proof.
  intros Hb Hs. rewrite !s_read_unsigned_cursor_of by (by destruct n, s).
  induction n as [|n IH]; [done|]. cbn [replicate app]. by rewrite read_digits_zero.
Qed.

(** X4.  A failure is decided by the bytes read so far: when a non-empty
    input fails, every extension of it fails with the same error. *)
Theorem read_unsigned_failure_prefix (s t : list byte) base e :
  s <> [] ->
  s_read_unsigned s (cursor_of s) base = (OpErr e, 0) ->
  s_read_unsigned (s ++ t) (cursor_of (s ++ t)) base = (OpErr e, 0).
Proof.
  intros Hs. rewrite !s_read_unsigned_cursor_of by (by destruct s). intros Hfail.
  destruct (read_digits_app base s t 0) as [(v & Hv & _) | [_ ->]]; [|done].
  by rewrite Hfail in Hv.
Qed.

Lemma read_digits_overflow base s val :
  base = 10 \/ base = 16 -> 0 <= val ->
  read_digits base s val = (OpErr AWS_ERROR_OVERFLOW_DETECTED, 0) ->
  exists pre, pre `prefix_of` s /\ forallb (is_digit_of base) pre = true /\
              fold_left (digit_step base) pre val > UINT64_MAX.
Proof.
  intros Hb. revert val. induction s as [|c s IH]; intros val Hval H; simpl in H; [done|].
  rewrite (table_geb_base _ _ Hb) in H.
  destruct (is_digit_of base c) eqn:Hc; simpl in H.
  2:{ injection H as H. by destruct LifecycleFacts.common_codes_nonzero as (_ & _ & _ & _ & ?). }
  destruct (digit_value_table base c Hb Hc) as [Hv Hpos]. rewrite Hv in H.
  assert (Hbase : 1 <= base) by (destruct Hb; lia).
  assert (Hsingle : digit_step base val c > UINT64_MAX ->
            exists pre, pre `prefix_of` c :: s /\ forallb (is_digit_of base) pre = true /\
                        fold_left (digit_step base) pre val > UINT64_MAX).
  { intros Hgt. exists [c]. split; [by apply prefix_cons, prefix_nil|].
    split; [by simpl; rewrite Hc|done]. }
  unfold UINT64_MAX in *.
  destruct (Z.ltb_spec (wrap64 (val * base)) val) as [Hlt1|Hge1].
  { apply Hsingle. unfold digit_step, wrap64 in *.
    destruct (decide (val * base < 2 ^ 64)); [|lia].
    rewrite Z.mod_small in Hlt1 by nia. nia. }
  destruct (Z.ltb_spec (wrap64 (wrap64 (val * base) + digit_value c)) val) as [Hlt2|Hge2].
  { apply Hsingle. unfold digit_step. rewrite wrap64_idem_add in Hlt2. unfold wrap64 in Hlt2.
    destruct (decide (val * base + digit_value c < 2 ^ 64)); [|lia].
    rewrite Z.mod_small in Hlt2 by nia. nia. }
  apply IH in H as (pre & Hpre & Hd & Hgt); [|unfold wrap64; apply Z.mod_pos_bound; lia].
  exists (c :: pre). split; [by apply prefix_cons|]. split; [by simpl; rewrite Hc|].
  cbn [fold_left]. rewrite wrap64_idem_add in Hgt.
  assert (Hle : wrap64 (val * base + digit_value c) <= digit_step base val c)
    by (unfold wrap64, digit_step; apply Z.mod_le; nia).
  pose proof (digit_fold_mono base pre _ _ ltac:(lia) Hle). lia.
Qed.

(** X5.  Overflow-detected is never raised without cause: when it is,
    some leading run of digits of the input is worth more than 2^64 - 1. *)
Theorem read_unsigned_overflow_sound mem cursor base :
  base = 10 \/ base = 16 ->
  s_read_unsigned mem cursor base = (OpErr AWS_ERROR_OVERFLOW_DETECTED, 0) ->
  exists pre,
    pre `prefix_of` cursor_bytes mem cursor /\
    forallb (is_digit_of base) pre = true /\
    numeric_value base pre > UINT64_MAX.
Proof.
  intros Hb. rewrite s_read_unsigned_bytes.
  destruct (cursor_bytes mem cursor) as [|c s].
  - intros [= H]. by destruct LifecycleFacts.common_codes_nonzero as (_ & _ & _ & _ & ?).
  - intros H. by apply read_digits_overflow in H.
Qed.

End More.

Lemma mem_read_lookup (mem : list byte) i c : mem !! i = Some c -> mem_read mem i = c.
Proof. intros H. unfold mem_read. by rewrite nth_lookup, H. Qed.

Lemma whitespace_lookup (s : list byte) i c :
  forallb is_http_whitespace s = true -> s !! i = Some c ->
  table_lookup s_http_whitespace_table false c = true.
Proof.
  intros Hs Hc. rewrite s_http_whitespace_table_spec.
  apply (proj1 (forallb_forall _ _) Hs), list_elem_of_In. by apply list_elem_of_lookup_2 in Hc.
Qed.

(** X6.  Trimming a run of SP and HT bytes, then bytes that begin and end
    with other bytes, then another run of SP and HT bytes, returns the view
    of exactly the bytes in the middle; whitespace inside them is kept. *)
Theorem trim_http_whitespace_exact (pre mid post : list byte) (a b : byte) :
  forallb is_http_whitespace pre = true ->
  forallb is_http_whitespace post = true ->
  head mid = Some a -> is_http_whitespace a = false ->
  last mid = Some b -> is_http_whitespace b = false ->
  aws_strutil_trim_http_whitespace (pre ++ mid ++ post) (cursor_of (pre ++ mid ++ post))
  = {| len := length mid; ptr := length pre |}
  /\ cursor_bytes (pre ++ mid ++ post) {| len := length mid; ptr := length pre |} = mid.
Proof.
  intros Hpre Hpost Ha Hwa Hb Hwb.
  set (mem := pre ++ mid ++ post).
  assert (Hmid : forall k c, mid !! k = Some c -> mem !! (length pre + k)%nat = Some c).
  { intros k c Hk. unfold mem. rewrite lookup_app_r by lia.
    replace (length pre + k - length pre)%nat with k by lia. by apply lookup_app_l_Some. }
  assert (Hlen : (0 < length mid)%nat) by (destruct mid; [done|simpl; lia]).
  rewrite head_lookup in Ha. rewrite last_lookup in Hb.
  rewrite <- s_http_whitespace_table_spec in Hwa, Hwb.
  split.
  - unfold aws_strutil_trim_http_whitespace, s_trim.
    pose proof (s_trim_leading_spec mem s_http_whitespace_table (cursor_of mem)
                  (len (cursor_of mem)) 0) as (Hj & Hall & Hstop).
    set (j := s_trim_leading _ _ _ _ _) in *.
    assert (Hn : len (cursor_of mem) = (length pre + length mid + length post)%nat)
      by (unfold mem; simpl; rewrite !length_app; lia).
    rewrite Hn in *. unfold cursor_at in Hall, Hstop. simpl in Hall, Hstop.
    assert (j = length pre) as Hjeq.
    { destruct (Nat.lt_trichotomy j (length pre)) as [Hlt | [Heq | Hgt]]; [|done|].
      - destruct (lookup_lt_is_Some_2 pre j Hlt) as [c Hc].
        rewrite (mem_read_lookup mem j c) in Hstop by (unfold mem; by apply lookup_app_l_Some).
        rewrite (whitespace_lookup pre j c Hpre Hc) in Hstop. by specialize (Hstop ltac:(lia)).
      - specialize (Hall (length pre) ltac:(lia)).
        rewrite (mem_read_lookup mem (length pre) a) in Hall
          by (rewrite <- (Nat.add_0_r (length pre)); by apply Hmid).
        by rewrite Hwa in Hall. }
    rewrite Hjeq. simpl ptr. f_equal.
    pose proof (s_trim_trailing_spec mem s_http_whitespace_table (0 + length pre)
                  (length pre + length mid + length post - length pre)) as (Hl & Hpost' & Hlast).
    set (l := s_trim_trailing _ _ _ _) in *.
    destruct (Nat.lt_trichotomy l (length mid)) as [Hlt | [Heq | Hgt]]; [|done|].
    + specialize (Hpost' (Nat.pred (length mid)) ltac:(lia)).
      rewrite (mem_read_lookup mem _ b) in Hpost' by (by apply Hmid).
      by rewrite Hwb in Hpost'.
    + specialize (Hlast ltac:(lia)).
      assert (Hin : (l - 1 - length mid < length post)%nat) by lia.
      destruct (lookup_lt_is_Some_2 post _ Hin) as [c Hc].
      rewrite (mem_read_lookup mem _ c) in Hlast.
      * by rewrite (whitespace_lookup post _ c Hpost Hc) in Hlast.
      * unfold mem. rewrite lookup_app_r by lia. rewrite lookup_app_r by lia.
        rewrite <- Hc. f_equal. lia.
  - unfold cursor_bytes, cursor_at; simpl.
    apply list_eq. intros i. rewrite list_lookup_fmap.
    destruct (decide (i < length mid)%nat) as [Hi|Hi].
    + rewrite lookup_seq_lt by done. simpl.
      destruct (lookup_lt_is_Some_2 mid i Hi) as [c Hc]. rewrite Hc. f_equal.
      apply mem_read_lookup. by apply Hmid.
    + rewrite lookup_seq_ge by lia. simpl. symmetry. apply lookup_ge_None. lia.
Qed.

(** X7.  The trimmed view is empty exactly when every byte of the input
    is SP or HT. *)
Theorem trim_http_whitespace_empty mem cursor :
  len (aws_strutil_trim_http_whitespace mem cursor) = 0%nat
  <-> forallb is_http_whitespace (cursor_bytes mem cursor) = true.
Proof.
  unfold aws_strutil_trim_http_whitespace, s_trim. simpl.
  pose proof (s_trim_leading_spec mem s_http_whitespace_table cursor (len cursor) 0)
    as (Hj & Hall & Hstop).
  set (j := s_trim_leading _ _ _ _ _) in *.
  pose proof (s_trim_trailing_spec mem s_http_whitespace_table (ptr cursor + j)
                (len cursor - j)) as (Hl & Hpost & Hlast).
  set (l := s_trim_trailing _ _ _ _) in *.
  unfold cursor_bytes. rewrite forallb_forall. split.
  - intros Hz c Hc. apply in_map_iff in Hc as (k & <- & Hk). apply in_seq in Hk.
    rewrite <- s_http_whitespace_table_spec.
    destruct (decide (k < j)%nat) as [Hlt|Hge]; [apply Hall; lia|].
    unfold cursor_at. replace (ptr cursor + k)%nat with (ptr cursor + j + (k - j))%nat by lia.
    apply Hpost. lia.
  - intros Hws. destruct l as [|l']; [done|]. exfalso.
    specialize (Hlast ltac:(lia)).
    assert (Hin : In (cursor_at mem cursor (j + l')) (map (cursor_at mem cursor)
                                                        (seq 0 (len cursor)))).
    { apply in_map, in_seq. lia. }
    apply Hws in Hin. rewrite <- s_http_whitespace_table_spec in Hin.
    unfold cursor_at in Hin.
    replace (ptr cursor + (j + l'))%nat with (ptr cursor + j + (S l' - 1))%nat in Hin by lia.
    by rewrite Hin in Hlast.
Qed.

End StrutilMore.

(** * Further properties: connection lifecycle *)

Module ConnectionMore.
Import ConnectionFacts LifecycleFacts ClientFacts.

Lemma world_eta w :
  {| trace := trace w; last_error := last_error w; connections := connections w;
     servers := servers w; client_bootstraps := client_bootstraps w |} = w.
Proof. by destruct w. Qed.

Lemma set_refcount_id conn : set_refcount conn (refcount conn) = conn.
Proof. by destruct conn. Qed.

Section More.
Context {common : aws_common_error}.

Lemma get_connection_eq c w conn :
  connections w !! c = Some conn -> get_connection c w = Ret conn w.
Proof. intros H. unfold get_connection. by rewrite H. Qed.

(** X8.  [acquire] followed by [release], on a connection whose count is
    at least 1 and below [SIZE_MAX], leaves the world as it was: the same
    count and no channel operation. *)
Theorem acquire_release_round_trip w c conn :
  connections w !! c = Some conn -> 1 <= refcount conn < SIZE_MAX ->
  (aws_http_connection_acquire c;; aws_http_connection_release c) w = Ret tt w.
Proof.
  intros Hc Hr. unfold aws_http_connection_acquire.
  assert (Hw1 : wrap_size (refcount conn + 1) = refcount conn + 1)
    by (unfold wrap_size, SIZE_MAX in *; apply Z.mod_small; lia).
  erewrite bind_eq.
  2:{ erewrite bind_eq by (by apply get_connection_eq). reflexivity. }
  rewrite Hw1. fold (set_refcount conn (refcount conn + 1)).
  fold (with_connection w c (set_refcount conn (refcount conn + 1))).
  rewrite (release_not_last _ c (set_refcount conn (refcount conn + 1)))
    by (simpl; first [apply lookup_insert_eq | lia]).
  f_equal. unfold with_connection; simpl.
  replace (refcount conn + 1 - 1) with (refcount conn) by lia.
  assert (Hw2 : wrap_size (refcount conn) = refcount conn)
    by (unfold wrap_size, SIZE_MAX in *; apply Z.mod_small; lia).
  rewrite Hw2, insert_insert_eq.
  change (set_refcount (set_refcount conn (refcount conn + 1)) (refcount conn))
    with (set_refcount conn (refcount conn)).
  rewrite set_refcount_id, insert_id by done. apply world_eta.
Qed.







End More.

Section Factory.
Context {common : aws_common_error}.

Ltac unfold_factory :=
  unfold s_connection_new, s_connection_new_error, aws_http_connection_new_http1_1,
    aws_channel_handler_destroy, aws_channel_slot_remove, aws_channel_acquire_hold,
    AWS_FATAL_ASSERT, abort, new_connection, free_connection, get_connection, put_connection,
    aws_raise_error, emit, mbind, M_bind, mret, M_ret.

(** Closes [~ (e ∈ l)] for a list of events that are not [e]. *)
Ltac not_among :=
  let Hin := fresh "Hin" in
  intros; intros Hin;
  repeat (apply elem_of_cons in Hin as [Hin|Hin]; [discriminate Hin|]);
  by apply elem_of_nil in Hin.

Lemma fresh_connection w : connections w !! fresh (dom (connections w)) = None.
Proof. apply not_elem_of_dom_1, is_fresh. Qed.

(** X10.  A connection the factory returns is new on the heap and no
    other connection was touched; the factory inserted the slot, bound the
    handler and acquired one hold on the channel, in that order, and left
    the last error alone; [get_channel] answers the channel, the role
    queries answer the role asked for and its opposite, the version is 1.1
    and the count is 1. *)
Theorem s_connection_new_success alloc ch is_server tls window w c w' :
  s_connection_new alloc ch is_server tls window w = Ret (Some c) w' ->
  connections w !! c = None /\
  (forall p, p <> c -> connections w' !! p = connections w !! p) /\
  trace w' = trace w ++ [EvChannelSlotInsertEnd (channel_id ch);
                         EvChannelSlotSetHandler (channel_id ch) c;
                         EvChannelAcquireHold (channel_id ch)] /\
  last_error w' = last_error w /\
  aws_http_connection_get_channel c w' = Ret (channel_id ch) w' /\
  aws_http_connection_is_server c w' = Ret is_server w' /\
  aws_http_connection_is_client c w' = Ret (negb is_server) w' /\
  aws_http_connection_get_version c w' = Ret AWS_HTTP_VERSION_1_1 w' /\
  exists conn, connections w' !! c = Some conn /\ refcount conn = 1.
Proof.
  intros H. revert H. unfold_factory.
  destruct (slot_new_error ch); [done|]. destruct (slot_insert_end_error ch); [done|].
  destruct (determine_http_version tls (adj_left ch)) as [[| | |]|]; try done.
  destruct (engine_new_error ch); [done|].
  destruct (slot_set_handler_error ch); [by destruct (slot_handler_after_error ch)|].
  cbn [connections trace last_error servers client_bootstraps].
  rewrite lookup_insert_eq. intros [= <- <-].
  cbn [connections trace last_error servers client_bootstraps].
  split; [apply fresh_connection|].
  split; [intros p Hp; by rewrite !lookup_insert_ne|].
  split; [by rewrite <- !app_assoc|]. split; [done|].
  unfold aws_http_connection_get_channel, aws_http_connection_is_server,
    aws_http_connection_is_client, aws_http_connection_get_version, mbind, M_bind,
    get_connection.
  cbn [connections]. rewrite !lookup_insert_eq. cbn.
  repeat split; try by destruct is_server. by eexists.
Qed.

(** X11.  When the factory returns NULL it has bound no handler and
    acquired no hold on the channel; unless the slot could not even be
    created, the last thing it did was remove the slot; and the heap of
    connections is as it was: an engine it built is gone again, destroyed
    by the factory or removed with the slot that holds it.  The factory
    calls [aws_channel_handler_destroy] only on an engine it built itself
    and could not bind, and only when the failed binding left the slot
    without handler: when everything up to the binding succeeded, it
    inserts the slot, destroys the engine unless the slot holds it, and
    removes the slot, and does nothing else. *)
Theorem s_connection_new_failure alloc ch is_server tls window w w' :
  s_connection_new alloc ch is_server tls window w = Ret None w' ->
  connections w' = connections w /\
  exists evs,
    trace w' = trace w ++ evs /\
    (forall c, ~ (EvChannelSlotSetHandler (channel_id ch) c ∈ evs)) /\
    ~ (EvChannelAcquireHold (channel_id ch) ∈ evs) /\
    (slot_new_error ch = None -> last evs = Some (EvChannelSlotRemove (channel_id ch))) /\
    (forall c, EvChannelHandlerDestroy c ∈ evs ->
       connections w !! c = None /\ slot_set_handler_error ch <> None /\
       slot_handler_after_error ch = false) /\
    (slot_new_error ch = None -> slot_insert_end_error ch = None ->
     determine_http_version tls (adj_left ch) = Some AWS_HTTP_VERSION_1_1 ->
     engine_new_error ch = None ->
     exists c,
       connections w !! c = None /\
       evs = EvChannelSlotInsertEnd (channel_id ch) ::
             (if slot_handler_after_error ch then [] else [EvChannelHandlerDestroy c]) ++
             [EvChannelSlotRemove (channel_id ch)]).
Proof.
  assert (Hnil : forall e : event, ~ (e ∈ [])) by (intros e; apply not_elem_of_nil).
  assert (Hno : forall (evs : list event) (P : conn_ptr -> Prop),
            (forall c, ~ (EvChannelHandlerDestroy c ∈ evs)) ->
            forall c, EvChannelHandlerDestroy c ∈ evs -> P c)
    by (intros evs P Hnot c Hin; by destruct (Hnot c)).
  intros H. revert H. unfold_factory.
  destruct (slot_new_error ch).
  { intros [= <-]. split; [done|]. exists []. rewrite app_nil_r.
    split; [done|]. split; [intros c; apply Hnil|]. split; [apply Hnil|].
    split; [done|]. split; [|done]. apply Hno. intros c; apply Hnil. }
  destruct (slot_insert_end_error ch).
  { intros [= <-]. split; [done|]. eexists [_]. split; [done|].
    split; [not_among|]. split; [not_among|]. split; [done|].
    split; [|done]. apply Hno. not_among. }
  destruct (determine_http_version tls (adj_left ch)) as [[| | |]|]; try done;
    cbn [connections trace last_error servers client_bootstraps];
    try (intros [= <-]; split; [done|]; eexists [_; _];
         split; [by rewrite <- app_assoc|];
         split; [not_among|]; split; [not_among|]; split; [done|];
         split; [|done]; apply Hno; not_among).
  destruct (engine_new_error ch).
  { cbn [connections trace last_error servers client_bootstraps].
    intros [= <-]; split; [done|]; eexists [_; _].
    split; [by rewrite <- app_assoc|].
    split; [not_among|]. split; [not_among|]. split; [done|].
    split; [|done]. apply Hno. not_among. }
  destruct (slot_set_handler_error ch) as [err|].
  - destruct (slot_handler_after_error ch);
      cbn [connections trace last_error servers client_bootstraps];
      intros [= <-]; cbn [connections trace].
    + split; [apply delete_insert_id, fresh_connection|].
      eexists [_; _]. split; [by rewrite <- !app_assoc|].
      split; [not_among|]. split; [not_among|]. split; [done|]. split.
      * apply Hno. not_among.
      * intros _ _ _ _. exists (fresh (dom (connections w))).
        split; [apply fresh_connection|done].
    + split; [apply delete_insert_id, fresh_connection|].
      eexists [_; _; _]. split; [by rewrite <- !app_assoc|].
      split; [not_among|]. split; [not_among|]. split; [done|]. split.
      * intros c Hin. apply elem_of_cons in Hin as [Hin|Hin]; [discriminate Hin|].
        apply elem_of_cons in Hin as [Hin|Hin].
        -- injection Hin as ->. split; [apply fresh_connection|done].
        -- apply elem_of_cons in Hin as [Hin|Hin]; [discriminate Hin|].
           by apply elem_of_nil in Hin.
      * intros _ _ _ _. exists (fresh (dom (connections w))).
        split; [apply fresh_connection|done].
  - cbn [connections trace last_error servers client_bootstraps].
    rewrite lookup_insert_eq. done.
Qed.

End Factory.

Section Accept.
Context {common : aws_common_error}.

Lemma flagged_flagged b1 b2 s : flagged b2 (flagged b1 s) = flagged (b1 || b2) s.
Proof. by destruct b1, b2. Qed.

Lemma flagged_set b s : is_shutting_down s = true -> flagged b s = s.
Proof. intros Hflag. destruct b; [|done]. destruct s; simpl in *. by rewrite Hflag. Qed.

Lemma flagged_none (m : gmap nat aws_http_server) q : flagged false <$> m !! q = m !! q.
Proof. by destruct (m !! q). Qed.

Lemma flagged_nil (m : gmap nat aws_http_server) q :
  flagged (bool_decide (q ∈ @nil nat)) <$> m !! q = m !! q.
Proof. rewrite bool_decide_eq_false_2 by apply not_elem_of_nil. apply flagged_none. Qed.



(** The factory and the connection operations leave the servers alone. *)
Lemma quiet_servers :
  (forall alloc channel is_server is_using_tls window,
     preserves servers (s_connection_new alloc channel is_server is_using_tls window)) /\
  (forall c, preserves servers (aws_http_connection_release c)) /\
  (forall c, preserves servers (aws_http_connection_acquire c)) /\
  (forall c o, preserves servers (aws_http_connection_configure_server c o)).
Proof.
  pose proof primitives_servers as (? & ? & ? & ? & ? & ? & ?).
  repeat split; intros;
    [apply preserves_s_connection_new|apply preserves_release|apply preserves_acquire
    |apply preserves_configure_server];
    auto.
Qed.

(** A release of a server that returns has set its flag and done nothing
    else to the servers. *)
Lemma server_release_servers p w w' :
  aws_http_server_release (Some p) w = Ret tt w' ->
  forall q, servers w' !! q = flagged (bool_decide (q = p)) <$> servers w !! q.
Proof.
  intros H q. destruct (servers w !! p) as [s|] eqn:Hs.
  2:{ unfold aws_http_server_release, load_is_shutting_down, mbind, M_bind, get_server in H.
      simpl in H. by rewrite Hs in H. }
  destruct (is_shutting_down s) eqn:Hflag.
  - rewrite (server_release_later w p s Hs Hflag) in H. injection H as <-. simpl.
    case_bool_decide as Hq; [|apply eq_sym, flagged_none].
    subst q. rewrite Hs. cbn [fmap option_fmap option_map]. by rewrite flagged_set.
  - rewrite (server_release_first w p s Hs Hflag) in H. injection H as <-. simpl.
    case_bool_decide as Hq.
    + subst q. by rewrite lookup_insert_eq, Hs.
    + rewrite lookup_insert_ne by done. apply eq_sym, flagged_none.
Qed.

(** User code changes the servers only by the flags of those it
    releases. *)
Lemma run_user_servers calls w w' :
  run_user calls w = Ret tt w' ->
  forall q, servers w' !! q = flagged (bool_decide (q ∈ released_servers calls)) <$> servers w !! q.
Proof.
  destruct quiet_servers as (_ & Hrel & Hacq & Hcfg).
  unfold run_user. revert w. induction calls as [|call calls IH]; intros w H q.
  - injection H as <-. apply eq_sym, flagged_nil.
  - cbn [for_each] in H. apply bind_Ret in H as ([] & w1 & Hcall & H).
    rewrite (IH w1 H q). clear IH H.
    destruct call as [c o|c|c|[p|]]; cbn [released_servers]; simpl in Hcall.
    + apply bind_Ret in Hcall as (rc & w2 & Hc & [= <-]).
      by rewrite (preserves_Ret _ _ _ _ _ (Hcfg c o) Hc).
    + by rewrite (preserves_Ret _ _ _ _ _ (Hacq c) Hcall).
    + by rewrite (preserves_Ret _ _ _ _ _ (Hrel c) Hcall).
    + rewrite (server_release_servers _ _ _ Hcall q).
      destruct (servers w !! q) as [sq|]; [|done]. simpl. rewrite flagged_flagged.
      do 2 f_equal. rewrite <- bool_decide_or. apply bool_decide_ext.
      rewrite elem_of_cons. tauto.
    + by injection Hcall as <-.
Qed.

Lemma call_on_incoming_connection_servers p connection error_code w w' s :
  servers w !! p = Some s ->
  call_on_incoming_connection p connection error_code w = Ret tt w' ->
  forall q,
    servers w' !! q
    = flagged
        (bool_decide
           (q ∈ released_servers (on_incoming_connection s p connection error_code
                            (server_user_data s))))
      <$> servers w !! q.
Proof.
  intros Hs H. unfold call_on_incoming_connection in H.
  apply bind_Ret in H as (s0 & w0 & [-> Hs0]%get_server_Ret & H).
  assert (s0 = s) as -> by congruence.
  apply bind_Ret in H as ([] & w1 & [= <-] & H).
  exact (run_user_servers _ _ _ H).
Qed.

(** The code under [error:] of the accept-setup callback tells the user
    unless the user was told already; to the servers it does nothing of
    its own. *)
Lemma accept_error_Ret p error_code invoked channel connection w w' s :
  servers w !! p = Some s ->
  s_server_bootstrap_on_accept_channel_setup_error p error_code invoked channel connection w
  = Ret tt w' ->
  let err := if error_code =? 0 then last_error w else error_code in
  (forall q,
     servers w' !! q
     = flagged
         (bool_decide
            (q ∈ if invoked then []
                 else released_servers (on_incoming_connection s p None err (server_user_data s))))
       <$> servers w !! q) /\
  callback_log w'
  = callback_log w ++
    if invoked then [] else [EvOnIncomingConnection p None err (server_user_data s)].
Proof.
  intros Hs H err. unfold s_server_bootstrap_on_accept_channel_setup_error in H.
  destruct quiet_servers as (_ & Hrel_s & _). destruct quiet_callback_log as (_ & _ & Hrel_l).
  apply bind_Ret in H as (ec & w0 & Hec & H).
  assert (w0 = w /\ ec = err) as [-> ->].
  { unfold err. destruct (error_code =? 0); by injection Hec as <- <-. }
  apply bind_Ret in H as ([] & w1 & Hcall & H).
  apply bind_Ret in H as ([] & w2 & Hshut & H).
  assert ((forall q,
             servers w1 !! q
             = flagged
                 (bool_decide
                    (q ∈ if invoked then []
                         else released_servers (on_incoming_connection s p None err
                                          (server_user_data s))))
               <$> servers w !! q) /\
          callback_log w1
          = callback_log w ++
            if invoked then []
            else [EvOnIncomingConnection p None err (server_user_data s)]) as [Hs1 Hl1].
  { destruct invoked; simpl in Hcall.
    - injection Hcall as <-. rewrite app_nil_r. split; [|done]. intros q.
      apply eq_sym, flagged_nil.
    - split; [by apply (call_on_incoming_connection_servers _ _ _ _ _ s Hs)|].
      by apply (call_on_incoming_connection_Ret _ _ _ _ _ s Hs) in Hcall. }
  assert (servers w2 = servers w1 /\ callback_log w2 = callback_log w1) as [Hs2 Hl2].
  { destruct channel; injection Hshut as <-; [|done].
    split; [done|]. unfold callback_log; simpl. by rewrite callbacks_of_app, app_nil_r. }
  destruct connection as [c|].
  - rewrite (preserves_Ret _ _ _ _ _ (Hrel_s c) H), (preserves_Ret _ _ _ _ _ (Hrel_l c) H).
    by rewrite Hs2, Hl2.
  - injection H as <-. by rewrite Hs2, Hl2.
Qed.

(** The critical section with no error so far: it refuses when the server
    is shutting down, and otherwise registers the connection unless the
    table fails. *)
Lemma accept_critical_cases p ch c w r w' s :
  servers w !! p = Some s ->
  s_server_bootstrap_on_accept_channel_setup_critical p ch c 0 w = Ret r w' ->
  callback_log w' = callback_log w /\ connections w' = connections w /\
  last_error w' = (if bool_decide (r.2 = 0) then last_error w else last_error w') /\
  ((r.1 <> 0 /\ r.2 = 0 /\ is_shutting_down s = true /\ servers w' = servers w)
   \/ (r.1 = 0 /\ r.2 <> 0 /\ is_shutting_down s = false /\ servers w' = servers w)
   \/ (r = (0, 0) /\ is_shutting_down s = false /\
       servers w'
       = <[p := set_channel_to_connection_map s
                  (<[channel_id ch := c]> (channel_to_connection_map s))]> (servers w))).
Proof.
  intros Hs H. unfold s_server_bootstrap_on_accept_channel_setup_critical in H.
  apply bind_Ret in H as ([] & w1 & [= <-] & H).
  apply bind_Ret in H as (flag & w0 & (s0 & Hs0 & -> & ->)%load_is_shutting_down_Ret & H).
  simpl in Hs0. assert (s0 = s) as -> by congruence.
  apply bind_Ret in H as (put_err & w2 & Hput & H).
  apply bind_Ret in H as ([] & w3 & [= <-] & H). injection H as <- <-.
  unfold callback_log. cbn [trace connections servers fst snd last_error].
  destruct (is_shutting_down s).
  - injection Hput as <- <-. cbn. rewrite !callbacks_of_app, !app_nil_r.
    split; [done|]. split; [done|]. split; [done|]. left. by repeat split.
  - cbn [Z.eqb] in Hput. unfold aws_hash_table_put in Hput.
    apply bind_Ret in Hput as ([] & w4 & [= <-] & Hput).
    destruct (hash_table_put_error ch).
    + injection Hput as <- <-. cbn. rewrite !callbacks_of_app, !app_nil_r.
      split; [done|]. split; [done|]. split; [done|]. right; left. by repeat split.
    + apply bind_Ret in Hput as (s1 & w5 & [-> Hs1]%get_server_Ret & Hput).
      simpl in Hs1. assert (s1 = s) as -> by congruence.
      apply bind_Ret in Hput as ([] & w6 & [= <-] & Hput). injection Hput as <- <-.
      cbn. rewrite !callbacks_of_app, !app_nil_r.
      split; [done|]. split; [done|]. split; [done|]. right; right. by repeat split.
Qed.

(** Every accept that runs to its end tells the user once.  Of its own it
    changes the servers only by registering the connection it announces;
    the rest is the flags of the servers the user's callback released. *)
Lemma accept_setup_Ret error_code channel p w w' s :
  servers w !! p = Some s ->
  s_server_bootstrap_on_accept_channel_setup error_code channel p w = Ret tt w' ->
  exists conn err,
    callback_log w'
    = callback_log w ++ [EvOnIncomingConnection p conn err (server_user_data s)] /\
    let rel := released_servers (on_incoming_connection s p conn err (server_user_data s)) in
    ((conn = None /\
      forall q, servers w' !! q = flagged (bool_decide (q ∈ rel)) <$> servers w !! q)
     \/ (exists c ch,
           conn = Some c /\ err = 0 /\ channel = Some ch /\ error_code = 0 /\
           is_shutting_down s = false /\
           forall q,
             servers w' !! q
             = flagged (bool_decide (q ∈ rel))
               <$> <[p := set_channel_to_connection_map s
                            (<[channel_id ch := c]> (channel_to_connection_map s))]>
                     (servers w) !! q)).
Proof.
  intros Hs H. unfold s_server_bootstrap_on_accept_channel_setup in H.
  destruct quiet_servers as (Hnew_s & _). destruct quiet_callback_log as (Hnew_l & _ & _).
  apply bind_Ret in H as (s0 & w0 & [-> Hs0]%get_server_Ret & H).
  assert (s0 = s) as -> by congruence.
  destruct (Z.eqb_spec error_code 0) as [->|Hne]; cbn [negb] in H.
  2:{ apply (accept_error_Ret _ _ _ _ _ _ _ s Hs) in H as [Hsrv Hlog].
      eexists _, _. split; [exact Hlog|]. by left. }
  destruct channel as [ch|]; [|done].
  apply bind_Ret in H as (connection & w1 & Hnew & H).
  pose proof (preserves_Ret _ _ _ _ _ (Hnew_s _ _ _ _ _) Hnew) as Hs1.
  pose proof (preserves_Ret _ _ _ _ _ (Hnew_l _ _ _ _ _) Hnew) as Hl1.
  assert (Hsw1 : servers w1 !! p = Some s) by (by rewrite Hs1).
  destruct connection as [c|].
  2:{ apply (accept_error_Ret _ _ _ _ _ _ _ s Hsw1) in H as [Hsrv Hlog].
      eexists _, _. rewrite <- Hl1, <- Hs1. split; [exact Hlog|]. by left. }
  apply bind_Ret in H as ([ec put_err] & w2 & Hcrit & H).
  apply (accept_critical_cases _ _ _ _ _ _ s Hsw1) in Hcrit as (Hl2 & _ & _ & Hcases).
  cbn [fst snd] in Hcases.
  destruct Hcases as [(Hec & -> & _ & Hsrv) | [(-> & Hput & _ & Hsrv) | ([= -> ->] & Hflag & Hsrv)]].
  - destruct (Z.eqb_spec ec 0) as [|_]; [done|]. cbn [negb] in H.
    assert (Hs2 : servers w2 !! p = Some s) by (by rewrite Hsrv).
    apply (accept_error_Ret _ _ _ _ _ _ _ s Hs2) in H as [Hsrv' Hlog].
    eexists _, _. rewrite <- Hl1, <- Hl2. split; [exact Hlog|].
    left. split; [done|]. by rewrite <- Hs1, <- Hsrv.
  - cbn [Z.eqb negb] in H. destruct (Z.eqb_spec put_err 0) as [|_]; [done|]. cbn [negb] in H.
    assert (Hs2 : servers w2 !! p = Some s) by (by rewrite Hsrv).
    apply (accept_error_Ret _ _ _ _ _ _ _ s Hs2) in H as [Hsrv' Hlog].
    eexists _, _. rewrite <- Hl1, <- Hl2. split; [exact Hlog|].
    left. split; [done|]. by rewrite <- Hs1, <- Hsrv.
  - cbn [Z.eqb negb] in H.
    apply bind_Ret in H as ([] & w3 & Hcall & H).
    set (s2 := set_channel_to_connection_map s
                 (<[channel_id ch := c]> (channel_to_connection_map s))) in *.
    assert (Hs2 : servers w2 !! p = Some s2) by (rewrite Hsrv; apply lookup_insert_eq).
    pose proof (call_on_incoming_connection_servers _ _ _ _ _ s2 Hs2 Hcall) as Hs3.
    apply (call_on_incoming_connection_Ret _ _ _ _ _ s2 Hs2) in Hcall as Hl3.
    change (on_incoming_connection s2) with (on_incoming_connection s) in Hs3.
    change (server_user_data s2) with (server_user_data s) in Hs3, Hl3.
    exists (Some c), 0.
    assert (servers w' = servers w3 /\ callback_log w' = callback_log w3) as [Hs' Hl'].
    { apply bind_Ret in H as (conn & w4 & Hget & H).
      unfold get_connection in Hget. destruct (connections w3 !! c) as [conn0|]; [|done].
      injection Hget as <- <-.
      destruct (server_data conn0) as [sd|]; [|done].
      destruct (on_incoming_request sd).
      - by injection H as <-.
      - apply bind_Ret in H as (rc & w5 & [= _ <-] & H).
        assert (Hs5 : exists s3, servers (with_last_error w3 AWS_ERROR_HTTP_REACTION_REQUIRED)
                                 !! p = Some s3).
        { simpl. rewrite (Hs3 p), Hs2. by eexists. }
        destruct Hs5 as (s3 & Hs5).
        apply (accept_error_Ret _ _ _ _ _ _ _ s3 Hs5) in H as [Hsrv' Hlog].
        split; [|rewrite Hlog; apply app_nil_r].
        apply map_eq. intros q. rewrite (Hsrv' q). apply flagged_nil. }
    split; [by rewrite Hl', Hl3, Hl2, Hl1|]. right. exists c, ch.
    repeat split; try done. intros q. by rewrite Hs', (Hs3 q), Hsrv, Hs1.
Qed.

End Accept.

Section Discipline.
Context {common : aws_common_error}.

Lemma lock_step_app held evs1 evs2 :
  lock_step held (evs1 ++ evs2)
  = match lock_step held evs1 with
    | Some held' => lock_step held' evs2
    | None => None
    end.
Proof.
  revert held. induction evs1 as [|e evs1 IH]; intros held; [done|].
  destruct e; cbn [app lock_step is_callback andb]; try apply IH;
    destruct (bool_decide _); cbn [negb]; done || apply IH.
Qed.

Lemma keeps_refl w : keeps_lock_discipline w w.
Proof. exists []. by rewrite app_nil_r. Qed.

Lemma keeps_trans w1 w2 w3 :
  keeps_lock_discipline w1 w2 -> keeps_lock_discipline w2 w3 -> keeps_lock_discipline w1 w3.
Proof.
  intros (evs1 & H1 & Hd1) (evs2 & H2 & Hd2). exists (evs1 ++ evs2).
  split; [by rewrite H2, H1, app_assoc|]. by rewrite lock_step_app, Hd1.
Qed.

Lemma keeps_silent w w' : trace w' = trace w -> keeps_lock_discipline w w'.
Proof. intros H. exists []. by rewrite app_nil_r. Qed.

Lemma disciplined_ret {A} (a : A) : disciplined (mret a).
Proof. intros w a' w' [= _ <-]. apply keeps_refl. Qed.

Lemma disciplined_abort {A} : disciplined (@abort A).
Proof. by intros w a w'. Qed.

Lemma disciplined_bind {A B} (m : M A) (k : A -> M B) :
  disciplined m -> (forall a, disciplined (k a)) -> disciplined (m ≫= k).
Proof.
  intros Hm Hk w b w' H. apply bind_Ret in H as (a & w1 & H1 & H2).
  eapply keeps_trans; [by eapply Hm|by eapply Hk].
Qed.

Lemma disciplined_for_each {A} (l : list A) body :
  (forall a, disciplined (body a)) -> disciplined (for_each l body).
Proof.
  intros Hb. induction l as [|a l IH]; simpl; [apply disciplined_ret|].
  apply disciplined_bind; auto.
Qed.

Lemma disciplined_emit e : unlocked_event e = true -> disciplined (emit e).
Proof.
  intros He w [] w' [= <-]. exists [e]. split; [done|].
  destruct e; try done.
Qed.

Lemma disciplined_silent {A} (m : M A) :
  (forall w a w', m w = Ret a w' -> trace w' = trace w) -> disciplined m.
Proof. intros H w a w' Hm. apply keeps_silent. by eapply H. Qed.

Lemma disciplined_primitives :
  (forall err, disciplined (aws_raise_error err)) /\
  disciplined aws_last_error /\
  (forall p, disciplined (get_connection p)) /\
  (forall p c, disciplined (put_connection p c)) /\
  (forall p, disciplined (free_connection p)) /\
  (forall c, disciplined (new_connection c)) /\
  (forall p, disciplined (get_server p)) /\
  (forall cond, disciplined (AWS_FATAL_ASSERT cond)).
Proof.
  repeat split; intros; apply disciplined_silent; intros w a w' H;
    unfold get_connection, get_server, AWS_FATAL_ASSERT, abort, aws_raise_error,
      aws_last_error, put_connection, free_connection, new_connection, mret, M_ret in H;
    repeat case_match; by simplify_eq.
Qed.

Ltac discipline_step :=
  pose proof disciplined_primitives as (? & ? & ? & ? & ? & ? & ? & ?);
  repeat first
    [ progress intros
    | solve [eauto]
    | apply disciplined_ret
    | apply disciplined_abort
    | solve [apply disciplined_emit; reflexivity]
    | apply disciplined_bind
    | apply disciplined_for_each
    | case_match ].

Lemma disciplined_s_connection_new alloc channel is_server is_using_tls window :
  disciplined (s_connection_new alloc channel is_server is_using_tls window).
Proof.
  unfold s_connection_new, s_connection_new_error, aws_http_connection_new_http1_1,
    aws_channel_slot_remove, aws_channel_handler_destroy, aws_channel_acquire_hold.
  discipline_step.
Qed.

Lemma disciplined_release c : disciplined (aws_http_connection_release c).
Proof.
  unfold aws_http_connection_release, aws_channel_shutdown, aws_channel_release_hold.
  discipline_step.
Qed.

Lemma disciplined_server_release server : disciplined (aws_http_server_release server).
Proof.
  intros w [] w' H. destruct server as [p|]; [|injection H as <-; apply keeps_refl].
  destruct (servers w !! p) as [s|] eqn:Hs.
  2:{ unfold aws_http_server_release, load_is_shutting_down, mbind, M_bind, get_server in H.
      simpl in H. by rewrite Hs in H. }
  destruct (is_shutting_down s) eqn:Hflag.
  - rewrite (server_release_later w p s Hs Hflag) in H. injection H as <-.
    eexists. split; [done|]. cbn [lock_step].
    rewrite bool_decide_eq_false_2 by apply not_elem_of_nil.
    rewrite !bool_decide_eq_true_2 by apply list_elem_of_here.
    cbn [List.filter]. by rewrite Nat.eqb_refl.
  - rewrite (server_release_first w p s Hs Hflag) in H. injection H as <-.
    eexists. split; [done|]. cbn [lock_step is_callback andb].
    rewrite bool_decide_eq_false_2 by apply not_elem_of_nil.
    rewrite !bool_decide_eq_true_2 by apply list_elem_of_here.
    rewrite lock_step_shutdowns. cbn [lock_step is_callback andb List.filter].
    rewrite bool_decide_eq_true_2 by apply list_elem_of_here.
    by rewrite Nat.eqb_refl.
Qed.

(** Whatever user code calls, it keeps the discipline. *)
Lemma disciplined_run_user calls : disciplined (run_user calls).
Proof.
  unfold run_user. apply disciplined_for_each. intros [c o|c|c|server]; simpl.
  - unfold aws_http_connection_configure_server. discipline_step.
  - unfold aws_http_connection_acquire. discipline_step.
  - apply disciplined_release.
  - apply disciplined_server_release.
Qed.

Lemma disciplined_call_on_incoming_connection p connection error_code :
  disciplined (call_on_incoming_connection p connection error_code).
Proof.
  unfold call_on_incoming_connection.
  pose proof disciplined_run_user. discipline_step.
Qed.

Lemma disciplined_accept_error p error_code invoked channel connection :
  disciplined
    (s_server_bootstrap_on_accept_channel_setup_error p error_code invoked channel connection).
Proof.
  unfold s_server_bootstrap_on_accept_channel_setup_error, aws_channel_shutdown.
  pose proof disciplined_call_on_incoming_connection. pose proof disciplined_release.
  discipline_step.
Qed.

(** The critical sections take the lock, touch the synced data and drop
    the lock. *)
Lemma disciplined_accept_critical p ch c error_code :
  disciplined (s_server_bootstrap_on_accept_channel_setup_critical p ch c error_code).
Proof.
  intros w r w' H. unfold s_server_bootstrap_on_accept_channel_setup_critical in H.
  apply bind_Ret in H as ([] & w1 & [= <-] & H).
  apply bind_Ret in H as (flag & w0 & (s0 & Hs0 & -> & ->)%load_is_shutting_down_Ret & H).
  apply bind_Ret in H as (put_err & w2 & Hput & H).
  apply bind_Ret in H as ([] & w3 & [= <-] & H). injection H as _ <-.
  assert (Hw2 : trace w2
                = trace w ++ [EvMutexLock p; EvSyncedData p LoadIsShuttingDown]
                \/ trace w2
                   = trace w ++ [EvMutexLock p; EvSyncedData p LoadIsShuttingDown;
                                 EvSyncedData p (HashTablePut (channel_id ch) c)]).
  { destruct (_ =? 0) in Hput.
    - right. unfold aws_hash_table_put in Hput.
      apply bind_Ret in Hput as ([] & w4 & [= <-] & Hput).
      destruct (hash_table_put_error ch).
      + injection Hput as _ <-. simpl. by rewrite <- !app_assoc.
      + apply bind_Ret in Hput as (s1 & w5 & [-> Hs1]%get_server_Ret & Hput).
        apply bind_Ret in Hput as ([] & w6 & [= <-] & Hput). injection Hput as _ <-.
        simpl. by rewrite <- !app_assoc.
    - left. injection Hput as _ <-. simpl. by rewrite <- !app_assoc. }
  destruct Hw2 as [Hw2 | Hw2]; eexists; (split; [simpl; rewrite Hw2, <- app_assoc; done|]);
    cbn [app lock_step];
    rewrite bool_decide_eq_false_2 by apply not_elem_of_nil;
    rewrite !bool_decide_eq_true_2 by apply list_elem_of_here;
    cbn [List.filter]; by rewrite Nat.eqb_refl.
Qed.

Lemma disciplined_accept_setup error_code channel p :
  disciplined (s_server_bootstrap_on_accept_channel_setup error_code channel p).
Proof.
  unfold s_server_bootstrap_on_accept_channel_setup.
  pose proof disciplined_call_on_incoming_connection. pose proof disciplined_accept_error.
  pose proof disciplined_accept_critical. pose proof disciplined_s_connection_new.
  discipline_step.
Qed.

Lemma disciplined_accept_shutdown user_code failure error_code channel p :
  disciplined
    (s_server_bootstrap_on_accept_channel_shutdown user_code failure error_code channel p).
Proof.
  intros w [] w' H. unfold s_server_bootstrap_on_accept_channel_shutdown in H.
  apply bind_Ret in H as ([] & w0 & [= <-] & H).
  apply bind_Ret in H as ([remove_err map_elem] & w1 & Hrem & H).
  apply bind_Ret in H as ([] & w2 & [= <-] & H).
  assert (Hw1 : trace w1 = trace w ++ [EvMutexLock p; EvSyncedData p (HashTableRemove channel)]).
  { unfold aws_hash_table_remove in Hrem.
    apply bind_Ret in Hrem as ([] & w3 & [= <-] & Hrem). destruct failure as [err|].
    - apply bind_Ret in Hrem as (rc & w4 & [= <- <-] & Hrem). injection Hrem as _ _ <-.
      simpl. by rewrite <- !app_assoc.
    - apply bind_Ret in Hrem as (s0 & w4 & [-> Hs0]%get_server_Ret & Hrem).
      apply bind_Ret in Hrem as ([] & w5 & [= <-] & Hrem). injection Hrem as _ _ <-.
      simpl. by rewrite <- !app_assoc. }
  apply (keeps_trans _ (add_events w1 [EvMutexUnlock p])).
  - exists [EvMutexLock p; EvSyncedData p (HashTableRemove channel); EvMutexUnlock p].
    split; [simpl; by rewrite Hw1, <- app_assoc|].
    cbn [app lock_step].
    rewrite bool_decide_eq_false_2 by apply not_elem_of_nil.
    rewrite !bool_decide_eq_true_2 by apply list_elem_of_here.
    cbn [List.filter]. by rewrite Nat.eqb_refl.
  - pose proof disciplined_run_user.
    refine ((_ : disciplined _) _ _ _ H). discipline_step.
Qed.

End Discipline.

Section AcceptMore.
Context {common : aws_common_error}.

(** X12.  Every accept that runs to its end invokes
    [on_incoming_connection] exactly once.  It announces a connection only
    with code 0, on a server that was not shutting down, and then it has
    added exactly the channel's entry to the registry of its server; when it
    announces NULL it has left the registry alone.  Beyond that, every
    server that was there is there as it was, except that
    [is_shutting_down] is set on the servers that the user's callback
    released: of its own, the accept sets no flag and touches no other
    server.  The whole run, the user's calls included, keeps the discipline
    of the lock: the synced data is touched only under the lock, and the
    user's callback is invoked when the lock has been dropped. *)
Theorem accept_setup_admission error_code channel p w w' s :
  servers w !! p = Some s ->
  s_server_bootstrap_on_accept_channel_setup error_code channel p w = Ret tt w' ->
  keeps_lock_discipline w w' /\
  exists conn err,
    callback_log w'
    = callback_log w ++ [EvOnIncomingConnection p conn err (server_user_data s)] /\
    let rel := released_servers (on_incoming_connection s p conn err (server_user_data s)) in
    (forall q sq, q <> p -> servers w !! q = Some sq ->
       servers w' !! q = Some (flagged (bool_decide (q ∈ rel)) sq)) /\
    match conn with
    | None => servers w' !! p = Some (flagged (bool_decide (p ∈ rel)) s)
    | Some c =>
        err = 0 /\ error_code = 0 /\ is_shutting_down s = false /\
        exists ch, channel = Some ch /\
          servers w' !! p
          = Some (flagged (bool_decide (p ∈ rel))
                    (set_channel_to_connection_map s
                       (<[channel_id ch := c]> (channel_to_connection_map s))))
    end.
Proof.
  intros Hs H. split; [exact (disciplined_accept_setup _ _ _ _ _ _ H)|].
  destruct (accept_setup_Ret _ _ _ _ _ _ Hs H)
    as (conn & err & Hlog & [[-> Hsrv] | (c & ch & -> & -> & -> & -> & Hflag & Hsrv)]).
  - exists None, err. split; [exact Hlog|]. split.
    + intros q sq _ Hq. by rewrite (Hsrv q), Hq.
    + by rewrite (Hsrv p), Hs.
  - exists (Some c), 0. split; [exact Hlog|]. split.
    + intros q sq Hne Hq. by rewrite (Hsrv q), lookup_insert_ne, Hq.
    + repeat split; try done. exists ch. split; [done|].
      by rewrite (Hsrv p), lookup_insert_eq.
Qed.

(** X15.  After [server_release], an accept admits nothing: it announces
    NULL to the user, once, and the registry is what it was before the
    release, on a server that is shutting down. *)
Theorem accept_after_release error_code channel p w w' s :
  servers w !! p = Some s ->
  (aws_http_server_release (Some p);;
   s_server_bootstrap_on_accept_channel_setup error_code channel p) w = Ret tt w' ->
  exists err s',
    callback_log w'
    = callback_log w ++ [EvOnIncomingConnection p None err (server_user_data s)] /\
    servers w' !! p = Some s' /\
    is_shutting_down s' = true /\
    channel_to_connection_map s' = channel_to_connection_map s.
Proof.
  intros Hs H. apply bind_Ret in H as ([] & w1 & Hrel & H).
  assert (Hw1 : callback_log w1 = callback_log w /\
                servers w1 !! p = Some (set_is_shutting_down s)).
  { split.
    - destruct quiet_callback_log as (_ & Huser & _).
      apply (preserves_Ret _ _ _ tt _ (Huser [CallServerRelease (Some p)])).
      unfold run_user; simpl. by rewrite (bind_eq _ _ _ _ _ Hrel).
    - rewrite (server_release_servers _ _ _ Hrel p), Hs. simpl.
      by rewrite bool_decide_eq_true_2. }
  destruct Hw1 as [Hl1 Hs1].
  destruct (accept_setup_Ret _ _ _ _ _ _ Hs1 H)
    as (conn & err & Hlog & [[-> Hsrv] | (c & ch & _ & _ & _ & _ & Hfalse & _)]);
    [|done].
  exists err, (set_is_shutting_down s). rewrite Hlog, Hl1.
  split; [done|]. split; [|done].
  rewrite (Hsrv p), Hs1. simpl. by rewrite flagged_set.
Qed.

(** The accept-shutdown callback: of its own it takes the channel out of
    the registry, unless the table fails; the rest is the flags of the
    servers the user's [on_shutdown] released. *)
Lemma accept_shutdown_Ret user_code failure error_code channel p w w' s :
  servers w !! p = Some s ->
  s_server_bootstrap_on_accept_channel_shutdown user_code failure error_code channel p w
  = Ret tt w' ->
  (forall q,
     servers w' !! q
     = flagged
         (bool_decide
            (q ∈ released_servers
                   match failure, channel_to_connection_map s !! channel with
                   | None, Some c => shutdown_calls user_code w c error_code
                   | _, _ => []
                   end))
       <$> match failure with
           | None =>
               <[p := set_channel_to_connection_map s
                        (delete channel (channel_to_connection_map s))]> (servers w)
           | Some _ => servers w
           end !! q) /\
  callback_log w'
  = callback_log w ++
    match failure, channel_to_connection_map s !! channel with
    | None, Some c => shutdown_notice w c error_code
    | _, _ => []
    end.
Proof.
  intros Hs H. unfold s_server_bootstrap_on_accept_channel_shutdown in H.
  assert (Hnone : forall (m : gmap nat aws_http_server) q,
            m !! q = flagged (bool_decide (q ∈ released_servers [])) <$> m !! q)
    by (intros m q; apply eq_sym, flagged_nil).
  apply bind_Ret in H as ([] & w0 & [= <-] & H).
  apply bind_Ret in H as ([remove_err map_elem] & w1 & Hrem & H).
  apply bind_Ret in H as ([] & w2 & [= <-] & H).
  unfold aws_hash_table_remove in Hrem.
  apply bind_Ret in Hrem as ([] & w3 & [= <-] & Hrem).
  destruct failure as [err|].
  - apply bind_Ret in Hrem as (rc & w4 & [= <- <-] & Hrem). injection Hrem as <- <- <-.
    simpl in H. injection H as <-. unfold callback_log; simpl.
    rewrite !callbacks_of_app, !app_nil_r. split; [|done]. intros q. apply Hnone.
  - apply bind_Ret in Hrem as (s0 & w4 & [-> Hs0]%get_server_Ret & Hrem).
    simpl in Hs0. assert (s0 = s) as -> by congruence.
    apply bind_Ret in Hrem as ([] & w5 & [= <-] & Hrem). injection Hrem as <- <- <-.
    cbn [Z.eqb negb AWS_OP_SUCCESS] in H.
    destruct (channel_to_connection_map s !! channel) as [c|] eqn:Hreg.
    + apply bind_Ret in H as (conn & w6 & Hget & H).
      unfold get_connection in Hget; simpl in Hget. unfold shutdown_notice, shutdown_calls.
      destruct (connections w !! c) as [conn0|]; [|done]. injection Hget as <- <-.
      destruct (server_data conn0) as [sd|]; [|done].
      destruct (on_shutdown sd) as [f|].
      * apply bind_Ret in H as ([] & w7 & [= <-] & H).
        destruct quiet_callback_log as (_ & Huser_l & _).
        rewrite (preserves_Ret _ _ _ _ _ (Huser_l _) H).
        split; [exact (run_user_servers _ _ _ H)|].
        unfold callback_log; simpl. by rewrite !callbacks_of_app, !app_nil_r.
      * injection H as <-. split; [intros q; apply Hnone|].
        unfold callback_log; simpl. by rewrite !callbacks_of_app, !app_nil_r.
    + injection H as <-. split; [intros q; apply Hnone|].
      unfold callback_log; simpl. by rewrite !callbacks_of_app, !app_nil_r.
Qed.

(** X13.  The accept-shutdown callback, when the table's removal
    succeeds, takes the channel out of the registry of its server.  Beyond
    that, every server that was there is there as it was, except that
    [is_shutting_down] is set on the servers that the user's [on_shutdown]
    released.  For a channel that was not registered it invokes nothing and
    leaves the servers as they were; for a registered one it invokes the
    connection's [on_shutdown], if one is stored, once, with the channel's
    error code and the connection's user data, when the lock has been
    dropped: the whole run keeps the discipline of the lock. *)
Theorem accept_channel_shutdown_removes user_code error_code channel p w w' s :
  servers w !! p = Some s ->
  s_server_bootstrap_on_accept_channel_shutdown user_code None error_code channel p w
  = Ret tt w' ->
  let rel :=
    released_servers
      match channel_to_connection_map s !! channel with
      | Some c => shutdown_calls user_code w c error_code
      | None => []
      end in
  servers w' !! p
  = Some (flagged (bool_decide (p ∈ rel))
            (set_channel_to_connection_map s
               (delete channel (channel_to_connection_map s)))) /\
  (forall q sq, q <> p -> servers w !! q = Some sq ->
     servers w' !! q = Some (flagged (bool_decide (q ∈ rel)) sq)) /\
  (channel_to_connection_map s !! channel = None ->
   callback_log w' = callback_log w /\ servers w' = servers w) /\
  (forall c, channel_to_connection_map s !! channel = Some c ->
     callback_log w' = callback_log w ++ shutdown_notice w c error_code) /\
  keeps_lock_discipline w w'.
Proof.
  intros Hs H rel. destruct (accept_shutdown_Ret _ _ _ _ _ _ _ _ Hs H) as (Hsrv & Hlog).
  fold rel in Hsrv. split; [|split; [|split; [|split]]];
    [| | | |exact (disciplined_accept_shutdown _ _ _ _ _ _ _ _ H)].
  - by rewrite (Hsrv p), lookup_insert_eq.
  - intros q sq Hne Hq. by rewrite (Hsrv q), lookup_insert_ne, Hq.
  - intros Hnone. split; [by rewrite Hnone, app_nil_r in Hlog|].
    apply map_eq. intros q. rewrite (Hsrv q). unfold rel. rewrite Hnone.
    cbn [released_servers]. rewrite flagged_nil.
    rewrite delete_id by done.
    replace (set_channel_to_connection_map s (channel_to_connection_map s)) with s
      by (by destruct s).
    by rewrite insert_id.
  - intros c Hc. by rewrite Hc in Hlog.
Qed.


End AcceptMore.

Section ClientConnectMore.
Context {common : aws_common_error}.

(** X16.  [client_connect_internal] dereferences its options in the
    assertion on [proxy_options] before it tests them for NULL, so a null
    pointer aborts.  Options without proxy that lack a mandatory field
    ([self_size], allocator, bootstrap, host name, socket options,
    [on_setup]) raise invalid-argument and return the error code: nothing is
    allocated and the bootstrap is not called, whatever it is. *)
Theorem client_connect_invalid_options system_vtable host_name_failure calloc_failure
    transform w :
  aws_http_client_connect_internal system_vtable host_name_failure calloc_failure None
    transform w = Abort w
  /\ forall o,
       connect_proxy_options o = None ->
       connect_self_size o = 0%nat \/ connect_allocator o = None \/
       connect_bootstrap o = None \/ connect_host_name o = [] \/
       connect_socket_options o = None \/ connect_on_setup o = None ->
       aws_http_client_connect_internal system_vtable host_name_failure calloc_failure
         (Some o) transform w
       = Ret AWS_OP_ERR (with_last_error w AWS_ERROR_INVALID_ARGUMENT).
Proof.
  split; [done|]. intros o Hproxy Hbad. unfold aws_http_client_connect_internal.
  rewrite Hproxy. erewrite bind_eq by reflexivity.
  assert (Hcond : (connect_self_size o =? 0)%nat
                  || bool_decide (connect_allocator o = None)
                  || bool_decide (connect_bootstrap o = None)
                  || (length (connect_host_name o) =? 0)%nat
                  || bool_decide (connect_socket_options o = None)
                  || match connect_on_setup o with None => true | Some _ => false end
                  = true).
  { destruct Hbad as [-> | [-> | [-> | [-> | [-> | ->]]]]]; cbn;
      rewrite ?orb_true_r; done. }
  by rewrite Hcond.
Qed.

Lemma fresh_bootstrap w : client_bootstraps w !! fresh (dom (client_bootstraps w)) = None.
Proof. apply not_elem_of_dom_1, is_fresh. Qed.

(** What a connect leaves behind when the bootstrap's entry points keep
    their hands off the records and call nothing back before they return. *)
Lemma client_connect_Ret system_vtable host_name_failure calloc_failure o transform w rc w' :
  (forall host port p,
     preserves client_bootstraps (new_socket_channel system_vtable host port p) /\
     preserves client_bootstraps (new_tls_socket_channel system_vtable host port p) /\
     preserves callback_log (new_socket_channel system_vtable host port p) /\
     preserves callback_log (new_tls_socket_channel system_vtable host port p)) ->
  aws_http_client_connect_internal system_vtable host_name_failure calloc_failure (Some o)
    transform w = Ret rc w' ->
  callback_log w' = callback_log w /\
  ((rc = AWS_OP_ERR /\ client_bootstraps w' = client_bootstraps w)
   \/ (rc = AWS_OP_SUCCESS /\
       exists b,
         client_bootstraps w'
         = <[fresh (dom (client_bootstraps w)) := b]> (client_bootstraps w) /\
         on_setup b = connect_on_setup o /\ on_setup b <> None /\
         bootstrap_on_shutdown b = connect_on_shutdown o /\
         bootstrap_user_data b = connect_user_data o /\
         bootstrap_connection b = None /\
         (bootstrap_is_using_tls b = true <-> connect_tls_options o <> None))).
Proof.
  intros Hvt H. unfold aws_http_client_connect_internal in H.
  apply bind_Ret in H as ([] & w0 & Hassert & H).
  assert (w0 = w) as -> by (destruct (bool_decide _) in Hassert; [by injection Hassert|done]).
  destruct (_ || _) eqn:Hcond in H.
  { injection H as <- <-. split; [done|]. by left. }
  destruct host_name_failure; [injection H as <- <-; split; [done|]; by left|].
  destruct calloc_failure; [injection H as <- <-; split; [done|]; by left|].
  apply bind_Ret in H as (p & w1 & Hnew & H). injection Hnew as <- <-.
  set (p := fresh (dom (client_bootstraps w))) in *.
  set (b := Build_aws_http_client_bootstrap _ _ _ _ _ _ _ _) in *.
  apply bind_Ret in H as (err & w2 & Hcall & H).
  assert (Hframe : client_bootstraps w2 = <[p := b]> (client_bootstraps w) /\
                   callback_log w2 = callback_log w).
  { destruct (Hvt (connect_host_name o) (connect_port o) p) as (Hb1 & Hb2 & Hl1 & Hl2).
    destruct (connect_tls_options o).
    - by rewrite (preserves_Ret _ _ _ _ _ Hb2 Hcall), (preserves_Ret _ _ _ _ _ Hl2 Hcall).
    - by rewrite (preserves_Ret _ _ _ _ _ Hb1 Hcall), (preserves_Ret _ _ _ _ _ Hl1 Hcall). }
  destruct Hframe as [Hbs Hlog].
  destruct (err =? 0); cbn [negb] in H.
  - injection H as <- <-. split; [done|]. right. split; [done|]. exists b.
    split; [done|]. subst b; cbn.
    apply orb_false_iff in Hcond as [_ Hsetup].
    destruct (connect_on_setup o); [|done].
    repeat split; try done; by destruct (connect_tls_options o).
  - apply bind_Ret in H as (b' & w3 & [-> Hb']%get_bootstrap_Ret & H).
    apply bind_Ret in H as ([] & w4 & Hfree & H). injection H as <- <-.
    injection Hfree as <-. split.
    + unfold callback_log in *; simpl. by rewrite callbacks_of_app, app_nil_r.
    + left. split; [done|]. simpl. rewrite Hbs. apply delete_insert_id, fresh_bootstrap.
Qed.

(** X17.  Against a bootstrap whose entry points leave the records and
    the callbacks alone until they return, [client_connect_internal] itself
    invokes no callback; when it fails it leaves no bootstrap record
    behind; when it succeeds it leaves exactly one new record, which carries
    the options' [on_setup] (never null), [on_shutdown] and user data and
    no connection yet. *)
Theorem client_connect_leaves_no_record system_vtable host_name_failure calloc_failure o
    transform w rc w' :
  (forall host port p,
     preserves client_bootstraps (new_socket_channel system_vtable host port p) /\
     preserves client_bootstraps (new_tls_socket_channel system_vtable host port p) /\
     preserves callback_log (new_socket_channel system_vtable host port p) /\
     preserves callback_log (new_tls_socket_channel system_vtable host port p)) ->
  aws_http_client_connect_internal system_vtable host_name_failure calloc_failure (Some o)
    transform w = Ret rc w' ->
  callback_log w' = callback_log w /\
  (rc <> AWS_OP_SUCCESS -> client_bootstraps w' = client_bootstraps w) /\
  (rc = AWS_OP_SUCCESS ->
   exists p b,
     client_bootstraps w !! p = None /\
     client_bootstraps w' = <[p := b]> (client_bootstraps w) /\
     on_setup b = connect_on_setup o /\ on_setup b <> None /\
     bootstrap_on_shutdown b = connect_on_shutdown o /\
     bootstrap_user_data b = connect_user_data o /\
     bootstrap_connection b = None).
Proof.
  intros Hvt H.
  destruct (client_connect_Ret _ _ _ _ _ _ _ _ Hvt H)
    as (Hlog & [[-> Hbs] | (-> & b & Hbs & Hsetup & Hset & Hshut & Hud & Hconn & _)]).
  - split; [done|]. split; [done|]. done.
  - split; [done|]. split; [done|]. intros _.
    exists (fresh (dom (client_bootstraps w))), b.
    split; [apply fresh_bootstrap|]. by repeat split.
Qed.


End ClientConnectMore.

End ConnectionMore.

(** * The further properties on concrete inputs *)

(** X1: the wrapped read of "30000000000000000000". *)
Lemma read_unsigned_result_witness :
  bytes_of "30000000000000000000" <> [] /\
  forallb (is_digit_of 10) (bytes_of "30000000000000000000") = true /\
  11553255926290448384 = wrap64 (numeric_value 10 (bytes_of "30000000000000000000")).
Proof.
  exact (proj1 (@StrutilMore.read_unsigned_result example_codes
                  (bytes_of "30000000000000000000")
                  (cursor_of (bytes_of "30000000000000000000")) 10 (or_introl eq_refl))
           11553255926290448384 ltac:(vm_compute; reflexivity)).
Defined.

(** X2: nineteen nines. *)
Lemma read_unsigned_short_witness :
  @s_read_unsigned example_codes (bytes_of "9999999999999999999")
    (cursor_of (bytes_of "9999999999999999999")) 10
  = (OpSuccess, 9999999999999999999).
Proof.
  refine (@StrutilMore.read_unsigned_short example_codes (bytes_of "9999999999999999999")
            (cursor_of (bytes_of "9999999999999999999")) 10 (or_introl eq_refl) _ _ _).
  - discriminate.
  - reflexivity.
  - vm_compute. lia.
Defined.

(** X3: "00042" reads as "42". *)
Lemma read_unsigned_leading_zeros_witness :
  @s_read_unsigned example_codes (bytes_of "00042") (cursor_of (bytes_of "00042")) 10
  = @s_read_unsigned example_codes (bytes_of "42") (cursor_of (bytes_of "42")) 10.
Proof.
  refine (@StrutilMore.read_unsigned_leading_zeros example_codes 3 (bytes_of "42") 10
            (or_introl eq_refl) _).
  discriminate.
Defined.

(** X4: "1x" fails, and so does "1x23". *)
Lemma read_unsigned_failure_prefix_witness :
  @s_read_unsigned example_codes (bytes_of "1x23") (cursor_of (bytes_of "1x23")) 10
  = (OpErr 33, 0).
Proof.
  refine (@StrutilMore.read_unsigned_failure_prefix example_codes (bytes_of "1x")
            (bytes_of "23") 10 33 _ _).
  - discriminate.
  - reflexivity.
Defined.

(** X5: the overflow reported on 2^64. *)
Lemma read_unsigned_overflow_sound_witness :
  exists pre,
    pre `prefix_of` bytes_of "18446744073709551616" /\
    forallb (is_digit_of 10) pre = true /\
    numeric_value 10 pre > UINT64_MAX.
Proof.
  refine (@StrutilMore.read_unsigned_overflow_sound example_codes
            (bytes_of "18446744073709551616") (cursor_of (bytes_of "18446744073709551616"))
            10 (or_introl eq_refl) _).
  vm_compute. reflexivity.
Defined.

(** X6: SP HT, then "a b", then SP. *)
Lemma trim_http_whitespace_exact_witness :
  aws_strutil_trim_http_whitespace (bytes_of " 	a b ") (cursor_of (bytes_of " 	a b "))
  = {| len := 3; ptr := 2 |}.
Proof.
  refine (proj1 (StrutilMore.trim_http_whitespace_exact [x20; x09]%byte (bytes_of "a b")
                   [x20]%byte "a"%byte "b"%byte _ _ _ _ _ _)); reflexivity.
Defined.

(** X8: a connection of count 1. *)
Lemma acquire_release_round_trip_witness :
  (aws_http_connection_acquire 0%nat;; aws_http_connection_release 0%nat)
    (example_connection_world 1 false)
  = Ret tt (example_connection_world 1 false).
Proof.
  refine (ConnectionMore.acquire_release_round_trip (example_connection_world 1 false) 0%nat
            (example_connection 1 false) _ _).
  - reflexivity.
  - vm_compute. split; [discriminate|reflexivity].
Defined.


(** X10: the factory on a plain channel. *)
Lemma s_connection_new_success_witness :
  trace accepted_world_1
  = [EvChannelSlotInsertEnd 7%nat; EvChannelSlotSetHandler 7%nat 0%nat;
     EvChannelAcquireHold 7%nat]
  /\ aws_http_connection_get_channel 0%nat accepted_world_1 = Ret 7%nat accepted_world_1.
Proof.
  destruct (@ConnectionMore.s_connection_new_success example_codes 1%nat example_channel true
              false 65535 (example_server_world ∅) 0%nat accepted_world_1
              ltac:(vm_compute; reflexivity))
    as (_ & _ & Htrace & _ & Hchannel & _).
  split; [exact Htrace|exact Hchannel].
Defined.

(** X11: the factory on a channel whose slot refuses the handler and
    keeps it: the factory removes the slot and destroys nothing itself. *)
Lemma s_connection_new_failure_witness :
  connections
    (outcome_world
       (@s_connection_new example_codes 1%nat (example_unbindable_channel true) false false
          65535 example_empty_world))
  = ∅ /\
  trace
    (outcome_world
       (@s_connection_new example_codes 1%nat (example_unbindable_channel true) false false
          65535 example_empty_world))
  = [EvChannelSlotInsertEnd 7%nat; EvChannelSlotRemove 7%nat].
Proof.
  destruct (@ConnectionMore.s_connection_new_failure example_codes 1%nat
              (example_unbindable_channel true) false false 65535 example_empty_world
              (outcome_world
                 (@s_connection_new example_codes 1%nat (example_unbindable_channel true)
                    false false 65535 example_empty_world))
              ltac:(vm_compute; reflexivity))
    as (Hconn & evs & Htrace & _ & _ & _ & _ & Hexact).
  split; [exact Hconn|].
  destruct (Hexact eq_refl eq_refl eq_refl eq_refl) as (c & _ & Hevs).
  rewrite Htrace, Hevs. reflexivity.
Defined.

(** X12: an accept whose callback configures the connection and then
    releases the server: the connection is registered, and the flag the
    callback raised is set. *)
Lemma accept_setup_admission_witness :
  callback_log released_accept_world = [EvOnIncomingConnection 4%nat (Some 0%nat) 0 42%nat] /\
  exists s',
    servers released_accept_world !! 4%nat = Some s' /\
    is_shutting_down s' = true /\ channel_to_connection_map s' = {[ 7%nat := 0%nat ]}.
Proof.
  destruct (@ConnectionMore.accept_setup_admission example_codes 0 (Some example_channel)
              4%nat example_releasing_world released_accept_world
              _ ltac:(reflexivity) ltac:(vm_compute; reflexivity))
    as (_ & conn & err & Hlog & _ & Hp).
  assert (Hev : conn = Some 0%nat /\ err = 0).
  { vm_compute in Hlog. injection Hlog as <- <-. split; reflexivity. }
  destruct Hev as [-> ->]. split; [exact Hlog|].
  destruct Hp as (_ & _ & _ & ch & Hch & Hp). injection Hch as <-.
  eexists. split; [exact Hp|]. split; reflexivity.
Defined.

(** X13: the shutdown of the registered channel 7, with code 9, where the
    connection's [on_shutdown] releases the server: the entry is gone and
    the server is shutting down. *)
Lemma accept_channel_shutdown_removes_witness :
  exists s',
    servers
      (outcome_world
         (@s_server_bootstrap_on_accept_channel_shutdown example_codes
            (fun _ => releasing_on_shutdown) None 9 7%nat 4%nat example_registered_world))
    !! 4%nat = Some s' /\
    is_shutting_down s' = true /\ channel_to_connection_map s' = ∅.
Proof.
  destruct (@ConnectionMore.accept_channel_shutdown_removes example_codes
              (fun _ => releasing_on_shutdown) 9 7%nat 4%nat example_registered_world
              (outcome_world
                 (@s_server_bootstrap_on_accept_channel_shutdown example_codes
                    (fun _ => releasing_on_shutdown) None 9 7%nat 4%nat
                    example_registered_world))
              (example_server false {[ 7%nat := 0%nat ]})
              ltac:(reflexivity) ltac:(vm_compute; reflexivity))
    as (Hp & _).
  eexists. split; [exact Hp|]. split; reflexivity.
Defined.


(** X15: a release, then an accept. *)
Lemma accept_after_release_witness :
  exists err s',
    callback_log
      (outcome_world
         ((aws_http_server_release (Some 4%nat);;
           @s_server_bootstrap_on_accept_channel_setup example_codes 0 (Some example_channel)
             4%nat) (example_server_world ∅)))
    = [EvOnIncomingConnection 4%nat None err 42%nat] /\
    servers
      (outcome_world
         ((aws_http_server_release (Some 4%nat);;
           @s_server_bootstrap_on_accept_channel_setup example_codes 0 (Some example_channel)
             4%nat) (example_server_world ∅))) !! 4%nat = Some s' /\
    channel_to_connection_map s' = ∅.
Proof.
  destruct (@ConnectionMore.accept_after_release example_codes 0 (Some example_channel) 4%nat
              (example_server_world ∅)
              (outcome_world
                 ((aws_http_server_release (Some 4%nat);;
                   @s_server_bootstrap_on_accept_channel_setup example_codes 0
                     (Some example_channel) 4%nat) (example_server_world ∅)))
              _ ltac:(reflexivity) ltac:(vm_compute; reflexivity))
    as (err & s' & Hlog & Hs' & _ & Hreg).
  exists err, s'. split; [exact Hlog|]. split; [exact Hs'|exact Hreg].
Defined.

(** X16: options without [on_setup]. *)
Lemma client_connect_invalid_options_witness :
  @aws_http_client_connect_internal example_codes (example_vtable 0) None None
    (Some (example_connect_options None)) None example_empty_world
  = Ret AWS_OP_ERR (with_last_error example_empty_world 33).
Proof.
  refine (proj2 (@ConnectionMore.client_connect_invalid_options example_codes
                   (example_vtable 0) None None None example_empty_world)
            (example_connect_options None) _ _).
  - reflexivity.
  - do 5 right. reflexivity.
Defined.

Lemma example_vtable_quiet rc host port p :
  preserves client_bootstraps (new_socket_channel (example_vtable rc) host port p) /\
  preserves client_bootstraps (new_tls_socket_channel (example_vtable rc) host port p) /\
  preserves callback_log (new_socket_channel (example_vtable rc) host port p) /\
  preserves callback_log (new_tls_socket_channel (example_vtable rc) host port p).
Proof. repeat split. Defined.

(** X17: a connect whose bootstrap answers an error at once. *)
Lemma client_connect_leaves_no_record_witness :
  client_bootstraps
    (outcome_world
       (@aws_http_client_connect_internal example_codes (example_vtable (-1)) None None
          (Some (example_connect_options (Some idle_callback))) None example_empty_world))
  = ∅.
Proof.
  refine (proj1 (proj2 (@ConnectionMore.client_connect_leaves_no_record example_codes
                   (example_vtable (-1)) None None
                   (example_connect_options (Some idle_callback)) None example_empty_world
                   AWS_OP_ERR
                   (outcome_world
                      (@aws_http_client_connect_internal example_codes (example_vtable (-1))
                         None None (Some (example_connect_options (Some idle_callback)))
                         None example_empty_world))
                   (example_vtable_quiet (-1)) _)) _).
  - vm_compute. reflexivity.
  - discriminate.
Defined.

